(** * Composite signal scoring engine of [app.py]

    A shallow embedding of the scoring code of [src/app.py]
    ([analyze_sentiment], [calculate_smart_money],
    [calculate_technical_strategy] and the composite / recommendation logic
    of the module top level) together with the properties checked against
    it.

    Conventions of the embedding.
    - A Python/numpy float is a [pyfloat]: a rational, an infinity or NaN.
      Rounding is idealised (arithmetic on finite values is exact); what is
      kept is everything the control flow depends on: NaN makes every
      comparison false, division by zero gives an infinity or NaN and never
      raises.
    - The integer scores are [Z].
    - A pandas DataFrame is a row count and a finite map from column label
      to column (labels are unique, as in every frame [yfinance] and
      [pandas_ta] produce); a cell is a float or Python's [None] (the object
      column that [df[c] = None] creates).
    - Python exceptions are an explicit [Raise] outcome; a function that
      mutates the frame it was given threads that frame as state.
    - The numerical libraries ([pandas_ta], pandas' rolling mean, TextBlob)
      are not part of the program: they are the fields of a record
      [Indicators], a parameter of the engine. *)

From Stdlib Require Import QArith ZArith Lia Lqa.
From stdpp Require Import gmap strings list.

Local Open Scope Z_scope.

(** ** Floats *)

Module PyFloat.

Inductive pyfloat : Type :=
| Fin (q : Q)
| PInf
| NInf
| NaN.

Definition Qlt_bool (a b : Q) : bool := negb (Qle_bool b a).

(** [x < y] on floats: false as soon as one side is NaN. *)
Definition ltb (x y : pyfloat) : bool :=
  match x, y with
  | NaN, _ | _, NaN => false
  | Fin a, Fin b => Qlt_bool a b
  | Fin _, PInf => true
  | Fin _, NInf => false
  | PInf, _ => false
  | NInf, NInf => false
  | NInf, _ => true
  end.

(** [x <= y] on floats. *)
Definition leb (x y : pyfloat) : bool :=
  match x, y with
  | NaN, _ | _, NaN => false
  | Fin a, Fin b => Qle_bool a b
  | Fin _, PInf => true
  | Fin _, NInf => false
  | PInf, PInf => true
  | PInf, _ => false
  | NInf, _ => true
  end.

Definition gtb (x y : pyfloat) : bool := ltb y x.
Definition geb (x y : pyfloat) : bool := leb y x.

(** [x == y] on floats: NaN is equal to nothing. *)
Definition eqb (x y : pyfloat) : bool :=
  match x, y with
  | Fin a, Fin b => Qeq_bool a b
  | PInf, PInf | NInf, NInf => true
  | _, _ => false
  end.

(** The sign of a finite value, used by division and multiplication. *)
Definition Qsign (a : Q) : comparison := (a ?= 0)%Q.

(** numpy's float division: it never raises. *)
Definition div (x y : pyfloat) : pyfloat :=
  match x, y with
  | NaN, _ | _, NaN => NaN
  | Fin a, Fin b =>
      match Qsign b with
      | Eq => match Qsign a with Eq => NaN | Gt => PInf | Lt => NInf end
      | _ => Fin (a / b)
      end
  | Fin _, (PInf | NInf) => Fin 0
  | PInf, Fin b => match Qsign b with Lt => NInf | _ => PInf end
  | NInf, Fin b => match Qsign b with Lt => PInf | _ => NInf end
  | (PInf | NInf), (PInf | NInf) => NaN
  end.

(** Float multiplication. *)
Definition mul (x y : pyfloat) : pyfloat :=
  match x, y with
  | NaN, _ | _, NaN => NaN
  | Fin a, Fin b => Fin (a * b)
  | Fin a, PInf | PInf, Fin a =>
      match Qsign a with Eq => NaN | Gt => PInf | Lt => NInf end
  | Fin a, NInf | NInf, Fin a =>
      match Qsign a with Eq => NaN | Gt => NInf | Lt => PInf end
  | PInf, PInf | NInf, NInf => PInf
  | PInf, NInf | NInf, PInf => NInf
  end.

(** Float subtraction. *)
Definition sub (x y : pyfloat) : pyfloat :=
  match x, y with
  | NaN, _ | _, NaN => NaN
  | Fin a, Fin b => Fin (a - b)
  | Fin _, PInf => NInf
  | Fin _, NInf => PInf
  | PInf, PInf | NInf, NInf => NaN
  | PInf, _ => PInf
  | NInf, _ => NInf
  end.

Definition is_nan (x : pyfloat) : bool :=
  match x with NaN => true | _ => false end.

End PyFloat.
Export PyFloat.

(** ** Exceptions *)

Inductive exn : Type :=
| KeyError      (* a label that is not in the frame or the row *)
| IndexError    (* [iloc] out of bounds *)
| TypeError.    (* an ordering comparison or arithmetic on [None] *)

Inductive result (A : Type) : Type :=
| Ok (a : A)
| Raise (e : exn).
Arguments Ok {A} a.
Arguments Raise {A} e.

Definition rbind {A B} (r : result A) (k : A → result B) : result B :=
  match r with
  | Ok a => k a
  | Raise e => Raise e
  end.

(** ** Frames *)

Module Pandas.

Inductive cell : Type :=
| F (x : pyfloat)
| PyNone.

(** A column. *)
Abbreviation Series := (list cell).

Record DataFrame : Type := mkFrame {
  nrows : nat;
  cols : gmap string Series
}.

(** A row of a frame ([df.iloc[i]]): label to scalar. *)
Abbreviation Row := (gmap string cell).

Definition floats (xs : list pyfloat) : Series := F <$> xs.

(** Alignment of a series on the index of a frame of [n] rows: labels the
    series lacks are filled with NaN, extra ones are dropped. *)
Definition align (n : nat) (s : Series) : Series :=
  take n s ++ replicate (n - length s) (F NaN).

(** [df[c]] *)
Definition getcol (df : DataFrame) (c : string) : result Series :=
  match cols df !! c with
  | Some s => Ok s
  | None => Raise KeyError
  end.

(** [df[c] = v] where [v] is a series or [None]; [None] is broadcast. *)
Definition setcol (df : DataFrame) (c : string) (v : option Series) : DataFrame :=
  let s := match v with
           | Some s => align (nrows df) s
           | None => replicate (nrows df) PyNone
           end in
  mkFrame (nrows df) (<[c := s]> (cols df)).

(** [pd.concat([df, other], axis=1)]: a new frame; a [None] operand is
    dropped. Indexes are joined, so that the shorter frame is padded. The
    two frames are taken to share no label (for a shared label pandas keeps
    both columns, the map keeps the one of [df]). *)
Definition concat (df : DataFrame) (other : option DataFrame) : DataFrame :=
  match other with
  | None => df
  | Some o =>
      let n := Nat.max (nrows df) (nrows o) in
      mkFrame n (align n <$> (cols df ∪ cols o))
  end.

(** [c in df.columns] *)
Definition has_column (df : DataFrame) (c : string) : bool :=
  bool_decide (is_Some (cols df !! c)).

(** The cell of a column at a position of the index; NaN where the column
    has no value. *)
Definition cell_at (s : Series) (i : nat) : cell := default (F NaN) (s !! i).

(** [df.iloc[-k]] for [k >= 1]. *)
Definition iloc_neg (df : DataFrame) (k : nat) : result Row :=
  if (nrows df <? k)%nat then Raise IndexError
  else Ok ((λ s : Series, cell_at s (nrows df - k)) <$> cols df).

(** [row[c]] *)
Definition row_get (r : Row) (c : string) : result cell :=
  match r !! c with
  | Some v => Ok v
  | None => Raise KeyError
  end.

(** Ordering comparisons of two scalars; [None] is not orderable. *)
Definition cell_cmp (op : pyfloat → pyfloat → bool) (a b : cell) : result bool :=
  match a, b with
  | F x, F y => Ok (op x y)
  | _, _ => Raise TypeError
  end.

Definition cell_gt := cell_cmp PyFloat.gtb.
Definition cell_lt := cell_cmp PyFloat.ltb.
Definition cell_le := cell_cmp PyFloat.leb.

(** [v is not None] *)
Definition is_not_none (a : cell) : bool :=
  match a with PyNone => false | F _ => true end.

(** Element-wise [a / b] of two columns of one frame. *)
Fixpoint series_div (a b : Series) : result Series :=
  match a, b with
  | x :: a', y :: b' =>
      match x, y with
      | F u, F v => rbind (series_div a' b') (λ r, Ok (F (PyFloat.div u v) :: r))
      | _, _ => Raise TypeError
      end
  | _, _ => Ok []
  end.

(** [s.tail(n)] *)
Definition tail (n : nat) (s : Series) : Series :=
  drop (length s - n) s.

(** [s.iloc[-k]] on a column, for [k >= 1]. *)
Definition series_iloc_neg (s : Series) (k : nat) : result cell :=
  if (length s <? k)%nat then Raise IndexError
  else Ok (cell_at s (length s - k)).

(** The values a reduction keeps: NaN and [None] are skipped
    ([skipna=True], the default). *)
Definition valid (s : Series) : list pyfloat :=
  omap (λ c, match c with
             | F x => if is_nan x then None else Some x
             | PyNone => None
             end) s.

Definition fmax (x y : pyfloat) : pyfloat := if PyFloat.ltb x y then y else x.
Definition fmin (x y : pyfloat) : pyfloat := if PyFloat.ltb y x then y else x.

(** [s.max()] and [s.min()]: NaN when nothing is left to reduce. *)
Definition series_max (s : Series) : pyfloat :=
  match valid s with
  | [] => NaN
  | x :: xs => foldl fmax x xs
  end.

Definition series_min (s : Series) : pyfloat :=
  match valid s with
  | [] => NaN
  | x :: xs => foldl fmin x xs
  end.

(** Arithmetic on two scalars; [None] raises. *)
Definition cell_arith (op : pyfloat → pyfloat → pyfloat) (a b : cell) : result cell :=
  match a, b with
  | F x, F y => Ok (F (op x y))
  | _, _ => Raise TypeError
  end.

End Pandas.
Export Pandas.

(** ** The numerical libraries

    What the program imports and does not define: pandas' rolling mean,
    the [pandas_ta] indicators (each returns a series or frame, or [None]
    when the history is too short for its lookback) and TextBlob's polarity
    of a headline. *)

Record Indicators : Type := {
  rolling_mean : Series → Z → list pyfloat;
  ta_sma : Series → Z → option (list pyfloat);
  ta_ema : Series → Z → option (list pyfloat);
  ta_rsi : Series → Z → option (list pyfloat);
  ta_obv : Series → Series → option (list pyfloat);
  ta_mfi : Series → Series → Series → Series → Z → option (list pyfloat);
  ta_macd : Series → option DataFrame;
  ta_bbands : Series → Z → option DataFrame;
  polarity : string → Q
}.

(** ** Computations that raise and mutate the frame they were given *)

Definition M (A : Type) : Type := DataFrame → result A * DataFrame.

Global Instance result_ret : MRet result := λ A a, Ok a.
Global Instance result_bind : MBind result := λ A B k r, rbind r k.

Global Instance M_ret : MRet M := λ A a s, (Ok a, s).
Global Instance M_bind : MBind M := λ A B k m s,
  match m s with
  | (Ok a, s') => k a s'
  | (Raise e, s') => (Raise e, s')
  end.

(** A step that only reads, and may raise. *)
Definition lift {A} (r : result A) : M A := λ s, (r, s).

(** [df[c]] on the frame of the caller. *)
Definition read (c : string) : M Series := λ s, (getcol s c, s).

(** [df[c] = v] on the frame of the caller. *)
Definition assign (c : string) (v : option Series) : M unit :=
  λ s, (Ok (), setcol s c v).

(** The frame of the caller as it is now. *)
Definition current : M DataFrame := λ s, (Ok s, s).

(** Python's short-circuit [a and b]. *)
Definition and_then (a b : result bool) : result bool :=
  x ← a; if x : bool then b else Ok false.

(** [row[a] op row[b]] and [row[a] op k], evaluated left to right. *)
Definition cmp_labels (op : cell → cell → result bool) (r : Row) (a b : string)
  : result bool :=
  x ← row_get r a; y ← row_get r b; op x y.

Definition cmp_const (op : cell → cell → result bool) (r : Row) (a : string) (k : Q)
  : result bool :=
  x ← row_get r a; op x (F (Fin k)).

Definition clamp (score : Z) : Z := Z.max 0 (Z.min 100 score).

(** ** The rationale strings *)

Module Msg.
Definition volume_up : string := "🔥 爆量上漲 (主力搶籌跡象)".
Definition volume_down : string := "⚠️ 爆量下跌 (主力出貨跡象)".
Definition obv_above : string := "📈 OBV 位於均線上方 (資金持續流入)".
Definition mfi_hot : string := "⚠️ MFI 過熱 (>80)，資金可能短期撤離".
Definition mfi_cold : string := "🛒 MFI 過冷 (<20)，資金可能回流".
Definition trend_up : string := "✅ 價格位於長期均線之上 (多頭趨勢)".
Definition rsi_oversold : string := "💎 RSI 超賣 (<30)，高勝率反彈點".
Definition rsi_overbought : string := "⚠️ RSI 超買 (>70)，回調風險高".
Definition macd_golden : string := "🚀 MACD 黃金交叉 (買入訊號)".
Definition bollinger_low : string := "🛡️ 跌破布林下軌 (超跌回歸)".
End Msg.

(** A scoring rule that fired: [score += delta; signals.append(msg)]. *)
Definition fire (acc : Z * list string) (delta : Z) (msg : string) : Z * list string :=
  (acc.1 + delta, acc.2 ++ [msg]).

Section Engine.

Context (lib : Indicators).
(** The two sidebar sliders, module-level globals of the program. *)
Context (ma_window_short ma_window_long : Z).

(** *** [calculate_smart_money], lines 84-109: the rules on the latest row *)
Definition smart_money_rules (latest : Row) : result (Z * list string) :=
  let acc := (50, []) in
  up ← and_then (cmp_const cell_gt latest "RVOL" 1.5)
                (cmp_labels cell_gt latest "Close" "Open");
  acc ← (if up : bool then Ok (fire acc 15 Msg.volume_up)
         else
           down ← and_then (cmp_const cell_gt latest "RVOL" 1.5)
                           (cmp_labels cell_lt latest "Close" "Open");
           Ok (if down : bool then fire acc (-15) Msg.volume_down else acc));
  inflow ← cmp_labels cell_gt latest "OBV" "OBV_EMA";
  let acc := if inflow : bool then fire acc 10 Msg.obv_above else acc in
  hot ← cmp_const cell_gt latest "MFI" 80;
  acc ← (if hot : bool then Ok (fire acc (-10) Msg.mfi_hot)
         else
           cold ← cmp_const cell_lt latest "MFI" 20;
           Ok (if cold : bool then fire acc 10 Msg.mfi_cold else acc));
  Ok (clamp acc.1, acc.2).

(** *** [calculate_smart_money], lines 73-82: the indicator columns *)
Definition smart_money_frame : M () :=
  volume ← read "Volume";
  assign "Vol_SMA" (Some (floats (rolling_mean lib volume 50)));;
  volume ← read "Volume";
  vol_sma ← read "Vol_SMA";
  rvol ← lift (series_div volume vol_sma);
  assign "RVOL" (Some rvol);;
  close ← read "Close";
  volume ← read "Volume";
  assign "OBV" (floats <$> ta_obv lib close volume);;
  obv ← read "OBV";
  assign "OBV_EMA" (floats <$> ta_ema lib obv 20);;
  high ← read "High";
  low ← read "Low";
  close ← read "Close";
  volume ← read "Volume";
  assign "MFI" (floats <$> ta_mfi lib high low close volume 14).

(** *** [calculate_smart_money] *)
Definition calculate_smart_money : M (Z * list string) :=
  smart_money_frame;;
  df ← current;
  latest ← lift (iloc_neg df 1);
  lift (smart_money_rules latest).

(** *** [calculate_technical_strategy], lines 127-162: the rules *)
Definition technical_rules (df : DataFrame) (latest prev : Row)
  : result (Z * list string) :=
  let acc := (50, []) in
  trend ← (sma_long ← row_get latest "SMA_Long";
           and_then (Ok (is_not_none sma_long))
                    (cmp_labels cell_gt latest "Close" "SMA_Long"));
  let acc := if trend : bool then fire acc 10 Msg.trend_up else acc in
  oversold ← cmp_const cell_lt latest "RSI" 30;
  acc ← (if oversold : bool then Ok (fire acc 20 Msg.rsi_oversold)
         else
           overbought ← cmp_const cell_gt latest "RSI" 70;
           Ok (if overbought : bool then fire acc (-20) Msg.rsi_overbought else acc));
  acc ← (if has_column df "MACD_12_26_9" then
           macd_line ← row_get latest "MACD_12_26_9";
           macd_signal ← row_get latest "MACDs_12_26_9";
           prev_macd_line ← row_get prev "MACD_12_26_9";
           prev_macd_signal ← row_get prev "MACDs_12_26_9";
           golden ← and_then (cell_gt macd_line macd_signal)
                             (cell_le prev_macd_line prev_macd_signal);
           Ok (if golden : bool then fire acc 15 Msg.macd_golden else acc)
         else Ok acc);
  undercut ← and_then (Ok (has_column df "BBL_20_2.0"))
                      (cmp_labels cell_lt latest "Close" "BBL_20_2.0");
  let acc := if undercut : bool then fire acc 15 Msg.bollinger_low else acc in
  Ok (clamp acc.1, acc.2).

(** *** [calculate_technical_strategy], lines 113-125: the indicator
    columns. The first three are stored in the frame of the caller; each
    [pd.concat] then builds a new frame, which stays local to the call. *)
Definition technical_frame : M DataFrame :=
  close ← read "Close";
  assign "SMA_Short" (floats <$> ta_sma lib close ma_window_short);;
  close ← read "Close";
  assign "SMA_Long" (floats <$> ta_sma lib close ma_window_long);;
  close ← read "Close";
  assign "RSI" (floats <$> ta_rsi lib close 14);;
  close ← read "Close";
  let macd := ta_macd lib close in
  df ← current;
  let df := concat df macd in
  close ← lift (getcol df "Close");
  let bb := ta_bbands lib close 20 in
  let df := concat df bb in
  mret df.

(** *** [calculate_technical_strategy] *)
Definition calculate_technical_strategy : M (Z * list string * DataFrame) :=
  df ← technical_frame;
  latest ← lift (iloc_neg df 1);
  prev ← lift (iloc_neg df 2);
  '(score, reasons) ← lift (technical_rules df latest prev);
  mret (score, reasons, df).

(** *** [analyze_sentiment] *)

(** One element of [analyzed_news]. *)
Record analyzed : Type := mkAnalyzed {
  a_title : string;
  a_link : string;
  a_publisher : string;
  a_sentiment : string;
  a_score : Q
}.

Definition sentiment_label (p : Q) : string :=
  if Qlt_bool 0.1 p then "🟢 正面"
  else if Qlt_bool p (-0.1) then "🔴 負面"
  else "⚪ 中性".

(** The body of the loop over [news_list[:5]]; a news item is a dict. *)
Definition sentiment_step (acc : Q * list analyzed) (news : gmap string string)
  : Q * list analyzed :=
  let title := default "" (news !! "title") in
  let link := default "#" (news !! "link") in
  let publisher := default "Unknown" (news !! "publisher") in
  let p := polarity lib title in
  ((acc.1 + p)%Q,
   acc.2 ++ [mkAnalyzed title link publisher (sentiment_label p) p]).

Definition analyze_sentiment (news_list : list (gmap string string))
  : Q * list analyzed :=
  match news_list with
  | [] => (0%Q, [])
  | _ =>
      let '(sentiment_score, analyzed_news) :=
        foldl sentiment_step (0%Q, []) (take 5 news_list) in
      let count := length (take 5 news_list) in
      if (count =? 0)%nat then (0%Q, [])
      else ((sentiment_score / inject_Z (Z.of_nat count) * 100)%Q, analyzed_news)
  end.

(** *** The module top level, lines 171-226 *)

(** The three banners of the recommendation column: [st.success],
    [st.warning] and [st.error]. *)
Inductive tier : Type := StrongBuy | Neutral | Avoid.

Definition total_score (tech_score sm_score : Z) (sent_score : Q) : Q :=
  (inject_Z tech_score * 0.5 + inject_Z sm_score * 0.3 + (sent_score + 50) * 0.2)%Q.

Definition recommendation (total : Q) : tier :=
  if Qle_bool 70 total then StrongBuy
  else if Qle_bool 50 total then Neutral
  else Avoid.

(** The lines written under the banner: [for r in tech_reasons + sm_signals]. *)
Definition rationale (tech_reasons sm_signals : list string) : list string :=
  tech_reasons ++ sm_signals.

Definition recent_high (data : DataFrame) : result pyfloat :=
  high ← getcol data "High"; Ok (series_max (tail 20 high)).

Definition recent_low (data : DataFrame) : result pyfloat :=
  low ← getcol data "Low"; Ok (series_min (tail 20 low)).

(** The strategy line, written only when [total_score >= 60]. *)
Definition buy_zone (total : Q) (current_price : pyfloat) : option pyfloat :=
  if Qle_bool 60 total then Some (PyFloat.mul current_price (Fin 0.98)) else None.

(** What one analysis shows, up to the price levels. *)
Record Report : Type := mkReport {
  r_price : cell;
  r_pct_change : cell;
  r_total : Q;
  r_smart_money : Z;
  r_sentiment : Q;
  r_tier : tier;
  r_rationale : list string;
  r_resistance : pyfloat;
  r_support : pyfloat;
  r_entry : option pyfloat;
  r_news : list analyzed
}.

(** The body of [try:] for a frame [data] that was fetched; an exception
    leaves it for the [except Exception] clause. *)
Definition analysis (data : DataFrame) (news : list (gmap string string))
  : result Report :=
  let '(r, _) := calculate_technical_strategy data in
  '(tech_score, tech_reasons, data) ← r;
  let '(r, data) := calculate_smart_money data in
  '(sm_score, sm_signals) ← r;
  let '(sent_score, analyzed_news) := analyze_sentiment news in
  close ← getcol data "Close";
  current_price ← series_iloc_neg close 1;
  close ← getcol data "Close";
  prev_close ← series_iloc_neg close 2;
  price_change ← cell_arith PyFloat.sub current_price prev_close;
  ratio ← cell_arith PyFloat.div price_change prev_close;
  pct_change ← cell_arith PyFloat.mul ratio (F (Fin 100));
  let total := total_score tech_score sm_score sent_score in
  high ← recent_high data;
  low ← recent_low data;
  (* the price as it is formatted and multiplied: a float by now *)
  price ← match current_price with F x => Ok x | PyNone => Raise TypeError end;
  Ok (mkReport current_price pct_change total sm_score sent_score
        (recommendation total) (rationale tech_reasons sm_signals)
        high low (buy_zone total price) analyzed_news).

End Engine.

(** * The chart, lines 232-254

    What the chart is built from: the names of its traces with the columns
    they plot, and the colours of the volume bars. *)

(** [data.iterrows()]: the rows of the frame, first to last. *)
Definition row_at (df : DataFrame) (i : nat) : Row :=
  (λ s : Series, cell_at s i) <$> cols df.

Definition iterrows (df : DataFrame) : list Row := row_at df <$> seq 0 (nrows df).

(** ['green' if row['Open'] - row['Close'] >= 0 else 'red'] *)
Definition bar_color (row : Row) : result string :=
  open ← row_get row "Open";
  close ← row_get row "Close";
  diff ← cell_arith PyFloat.sub open close;
  falling ← cell_cmp PyFloat.geb diff (F (Fin 0));
  Ok (if falling : bool then "green" else "red").

Definition colors (data : DataFrame) : result (list string) :=
  mapM bar_color (iterrows data).

(** A trace: its name and the columns it plots. *)
Definition trace : Type := string * list Series.

Record Chart : Type := mkChart {
  traces : list trace;
  marker_color : list string
}.

Definition chart (data : DataFrame) : result Chart :=
  open ← getcol data "Open";
  high ← getcol data "High";
  low ← getcol data "Low";
  close ← getcol data "Close";
  let fig := [("K線", [open; high; low; close])] in
  fig ← (if has_column data "SMA_Short" then
           sma ← getcol data "SMA_Short"; Ok (fig ++ [("短期均線", [sma])])
         else Ok fig);
  fig ← (if has_column data "SMA_Long" then
           sma ← getcol data "SMA_Long"; Ok (fig ++ [("長期均線", [sma])])
         else Ok fig);
  fig ← (if has_column data "BBU_20_2.0" then
           upper ← getcol data "BBU_20_2.0";
           let fig := fig ++ [("布林上軌", [upper])] in
           lower ← getcol data "BBL_20_2.0";
           Ok (fig ++ [("布林下軌", [lower])])
         else Ok fig);
  colors ← colors data;
  volume ← getcol data "Volume";
  Ok (mkChart (fig ++ [("成交量", [volume])]) colors).

(** * The rules as a table

    Each message of a scorer with the delta of the rule that emits it, as
    lines 91-107 and 134-160 pair them. *)

Module Audit.

Definition technical_table : list (string * Z) :=
  [(Msg.trend_up, 10); (Msg.rsi_oversold, 20); (Msg.rsi_overbought, -20);
   (Msg.macd_golden, 15); (Msg.bollinger_low, 15)].

Definition smart_money_table : list (string * Z) :=
  [(Msg.volume_up, 15); (Msg.volume_down, -15); (Msg.obv_above, 10);
   (Msg.mfi_hot, -10); (Msg.mfi_cold, 10)].

(** The delta a message stands for; 0 for a string that is no message. *)
Definition delta (table : list (string * Z)) (msg : string) : Z :=
  default 0 ((list_to_map table : gmap string Z) !! msg).

(** The sum of the deltas of a list of signals. *)
Definition explained (table : list (string * Z)) (signals : list string) : Z :=
  foldr (λ msg z, delta table msg + z) 0 signals.

(** The signals keep the order of the table and none occurs twice. *)
Definition in_table_order (table : list (string * Z)) (signals : list string) : Prop :=
  signals = filter (λ msg, msg ∈ signals) table.*1.

End Audit.

(** The element of [analyzed_news] for one news item. *)
Definition analyzed_of (lib : Indicators) (news : gmap string string) : analyzed :=
  let title := default "" (news !! "title") in
  mkAnalyzed title (default "#" (news !! "link"))
    (default "Unknown" (news !! "publisher"))
    (sentiment_label (polarity lib title)) (polarity lib title).

(** A result that is not an [IndexError]. *)
Definition no_index_error {A} (r : result A) : Prop := r ≠ Raise IndexError.

(** * The rules as the specification words them

    The specification describes each score as a clamped sum of bracketed
    conditions over the latest (and previous) values of the snapshot. These
    definitions follow its words; the theorems below compare them with the
    code. A bracket over a value that is absent or [None] is false. *)

Module Spec.

(** The Iverson bracket. *)
Definition ind (b : bool) : Z := if b then 1 else 0.

(** The numeric value of a label in a row, if it has one. *)
Definition num (r : Row) (c : string) : option pyfloat :=
  match r !! c with
  | Some (F x) => Some x
  | _ => None
  end.

Definition holds (op : pyfloat → pyfloat → bool) (a b : option pyfloat) : bool :=
  match a, b with
  | Some x, Some y => op x y
  | _, _ => false
  end.

Definition const (k : Q) : option pyfloat := Some (Fin k).

Section Technical.
Context (df : DataFrame) (latest prev : Row).

Definition trend : bool :=
  holds PyFloat.gtb (num latest "Close") (num latest "SMA_Long").
Definition oversold : bool := holds PyFloat.ltb (num latest "RSI") (const 30).
Definition overbought : bool := holds PyFloat.gtb (num latest "RSI") (const 70).
Definition golden_cross : bool :=
  has_column df "MACD_12_26_9"
  && holds PyFloat.gtb (num latest "MACD_12_26_9") (num latest "MACDs_12_26_9")
  && holds PyFloat.leb (num prev "MACD_12_26_9") (num prev "MACDs_12_26_9").
Definition undercut : bool :=
  has_column df "BBL_20_2.0"
  && holds PyFloat.ltb (num latest "Close") (num latest "BBL_20_2.0").

Definition technical_score : Z :=
  clamp (50 + 10 * ind trend + 20 * ind oversold - 20 * ind overbought
         + 15 * ind golden_cross + 15 * ind undercut).

(** The rules that fire, in evaluation order, with their deltas. *)
Definition technical_fired : list (Z * string) :=
  (if trend then [(10, Msg.trend_up)] else [])
  ++ (if oversold then [(20, Msg.rsi_oversold)] else [])
  ++ (if overbought then [(-20, Msg.rsi_overbought)] else [])
  ++ (if golden_cross then [(15, Msg.macd_golden)] else [])
  ++ (if undercut then [(15, Msg.bollinger_low)] else []).

End Technical.

Section SmartMoney.
Context (latest : Row).

Definition spike : bool := holds PyFloat.gtb (num latest "RVOL") (const 1.5).
Definition spike_up : bool :=
  spike && holds PyFloat.gtb (num latest "Close") (num latest "Open").
Definition spike_down : bool :=
  spike && holds PyFloat.ltb (num latest "Close") (num latest "Open").
Definition inflow : bool :=
  holds PyFloat.gtb (num latest "OBV") (num latest "OBV_EMA").
Definition overheated : bool := holds PyFloat.gtb (num latest "MFI") (const 80).
Definition cold : bool := holds PyFloat.ltb (num latest "MFI") (const 20).

Definition smart_money_score : Z :=
  clamp (50 + 15 * ind spike_up - 15 * ind spike_down + 10 * ind inflow
         - 10 * ind overheated + 10 * ind cold).

Definition smart_money_fired : list (Z * string) :=
  (if spike_up then [(15, Msg.volume_up)] else [])
  ++ (if spike_down then [(-15, Msg.volume_down)] else [])
  ++ (if inflow then [(10, Msg.obv_above)] else [])
  ++ (if overheated then [(-10, Msg.mfi_hot)] else [])
  ++ (if cold then [(10, Msg.mfi_cold)] else []).

End SmartMoney.

(** The sum of a list of deltas on top of the base score. *)
Definition accumulate (base : Z) (deltas : list Z) : Z := foldl Z.add base deltas.

(** The sum of a list of polarities. *)
Definition Qsum (ps : list Q) : Q := foldr Qplus 0%Q ps.

(** The arithmetic mean, scaled by 100. *)
Definition scaled_mean (ps : list Q) : Q :=
  (Qsum ps / inject_Z (Z.of_nat (length ps)) * 100)%Q.

(** The polarity of a headline: that of its title, of the empty title when
    the item has none. *)
Definition headline_polarity (lib : Indicators) (news : gmap string string) : Q :=
  polarity lib (default "" (news !! "title")).

(** The window of the levels: the last [n] values, all of them when there
    are fewer. *)
Definition window {A} (n : nat) (xs : list A) : list A := drop (length xs - n) xs.

(** A value that is not there: the label is absent, or it holds [None] or
    NaN. *)
Definition missing (v : option pyfloat) : Prop := v = None ∨ v = Some NaN.

End Spec.

(** * Valid bars

    A row is valid for a scorer when every value its rules read is a
    float (NaN included); the long moving average may also be [None], and
    the MACD and Bollinger columns may be missing from the frame. *)

Definition is_float_at (r : Row) (c : string) : bool :=
  match r !! c with
  | Some (F _) => true
  | _ => false
  end.

Definition valid_technical_rows (df : DataFrame) (latest prev : Row) : bool :=
  bool_decide (is_Some (latest !! "SMA_Long"))
  && is_float_at latest "Close"
  && is_float_at latest "RSI"
  && (if has_column df "MACD_12_26_9" then
        is_float_at latest "MACD_12_26_9" && is_float_at latest "MACDs_12_26_9"
        && is_float_at prev "MACD_12_26_9" && is_float_at prev "MACDs_12_26_9"
      else true)
  && (if has_column df "BBL_20_2.0" then is_float_at latest "BBL_20_2.0" else true).

Definition valid_smart_money_row (latest : Row) : bool :=
  is_float_at latest "RVOL" && is_float_at latest "Close" && is_float_at latest "Open"
  && is_float_at latest "OBV" && is_float_at latest "OBV_EMA"
  && is_float_at latest "MFI".

(** * Effects on the frame of the caller *)

(** The frame the technical scorer leaves to its caller. *)
Definition technical_stored (lib : Indicators) (ws wl : Z) (data : DataFrame)
    (close : Series) : DataFrame :=
  setcol (setcol (setcol data
    "SMA_Short" (floats <$> ta_sma lib close ws))
    "SMA_Long" (floats <$> ta_sma lib close wl))
    "RSI" (floats <$> ta_rsi lib close 14).

(** The frame the smart-money scorer leaves to its caller. *)
Definition smart_money_stored (lib : Indicators) (data : DataFrame)
    (volume close high low rvol : Series) : DataFrame :=
  let d1 := setcol data "Vol_SMA" (Some (floats (rolling_mean lib volume 50))) in
  let d2 := setcol d1 "RVOL" (Some rvol) in
  let d3 := setcol d2 "OBV" (floats <$> ta_obv lib close volume) in
  let obv := match ta_obv lib close volume with
             | Some s => align (nrows data) (floats s)
             | None => replicate (nrows data) PyNone
             end in
  let d4 := setcol d3 "OBV_EMA" (floats <$> ta_ema lib obv 20) in
  setcol d4 "MFI" (floats <$> ta_mfi lib high low close volume 14).

(** The labels of a frame. *)
Definition labels (df : DataFrame) : gset string := dom (cols df).

(** The two operands of a [pd.concat] share no label. *)
Definition labels_apart (df : DataFrame) (other : option DataFrame) : bool :=
  match other with
  | Some o => bool_decide (labels df ## labels o)
  | None => true
  end.

(** The frames that [calculate_technical_strategy] joins share no label.
    pandas keeps both columns of a shared label, and a row then holds a
    Series under it; a frame of this model has one column per label, so
    that the properties of the frame the technical scorer builds are stated
    for joins whose labels are apart, as are those of [yfinance] and
    [pandas_ta]. *)
Definition distinct_labels (lib : Indicators) (ws wl : Z) (data : DataFrame) : bool :=
  match cols data !! "Close" with
  | None => true
  | Some close =>
      let stored := technical_stored lib ws wl data close in
      let with_macd := concat stored (ta_macd lib close) in
      labels_apart stored (ta_macd lib close)
      && match cols with_macd !! "Close" with
         | Some close' => labels_apart with_macd (ta_bbands lib close' 20)
         | None => true
         end
  end.

(** The labels each scorer assigns in the frame it is given. *)
Definition technical_labels : list string := ["SMA_Short"; "SMA_Long"; "RSI"].
Definition smart_money_labels : list string :=
  ["Vol_SMA"; "RVOL"; "OBV"; "OBV_EMA"; "MFI"].

(** [d'] has the rows of [d] and the same column under every label that is
    not in [labels]. *)
Definition unchanged_outside (labels : list string) (d d' : DataFrame) : Prop :=
  nrows d' = nrows d ∧ ∀ c, c ∉ labels → cols d' !! c = cols d !! c.

(** A computation that only touches the columns [labels] of its frame,
    whether it returns or raises. *)
Definition touches_only {A} (labels : list string) (m : M A) : Prop :=
  ∀ s, unchanged_outside labels s (m s).2.

(** * Example data

    Two instances of the libraries with the frames they are used on.
    [flat_lib] gives the indicator values of a flat history (every bar at
    one price and one volume): an average is that price once its lookback
    is covered, RSI and MFI are the NaN of 0/0, OBV stays at the first
    volume, and a [pandas_ta] indicator is [None] while the history is
    shorter than its lookback. [table_lib] returns hand-written series,
    whatever it is given, for a three-bar frame on which every bonus rule
    fires. *)

Definition bars (opens highs lows closes volumes : list Q) : DataFrame :=
  mkFrame (length closes)
    (list_to_map [("Open", floats (Fin <$> opens)); ("High", floats (Fin <$> highs));
                  ("Low", floats (Fin <$> lows)); ("Close", floats (Fin <$> closes));
                  ("Volume", floats (Fin <$> volumes))]).

Definition get_ok {A} (d : A) (r : result A) : A :=
  match r with
  | Ok a => a
  | Raise _ => d
  end.

Module Flat.

Definition last_value (s : Series) : pyfloat :=
  match last s with
  | Some (F x) => x
  | _ => NaN
  end.

Definition first_value (s : Series) : pyfloat :=
  match head s with
  | Some (F x) => x
  | _ => NaN
  end.

(** [k - 1] NaN, then [x]; nothing below [k] values. *)
Definition warm_up (k : nat) (s : Series) (x : pyfloat) : option (list pyfloat) :=
  if (length s <? k)%nat then None
  else Some (replicate (k - 1) NaN ++ replicate (length s - (k - 1)) x).

Definition all_nan (s : Series) : list pyfloat := replicate (length s) NaN.

Definition flat_lib : Indicators := {|
  rolling_mean := λ s w, default (all_nan s) (warm_up (Z.to_nat w) s (last_value s));
  ta_sma := λ s w, warm_up (Z.to_nat w) s (last_value s);
  ta_ema := λ s w, warm_up (Z.to_nat w) s (last_value s);
  ta_rsi := λ s w, warm_up (Z.to_nat w) s NaN;
  ta_obv := λ c v, Some (replicate (length v) (first_value v));
  ta_mfi := λ h l c v w, warm_up (Z.to_nat w) c NaN;
  ta_macd := λ s,
    if (length s <? 26)%nat then None
    else
      let line := floats (default [] (warm_up 26 s (Fin 0))) in
      let signal := floats (default (all_nan s) (warm_up 34 s (Fin 0))) in
      Some (mkFrame (length s)
              (list_to_map [("MACD_12_26_9", line); ("MACDh_12_26_9", signal);
                            ("MACDs_12_26_9", signal)]));
  ta_bbands := λ s w,
    match warm_up (Z.to_nat w) s (last_value s) with
    | None => None
    | Some band =>
        Some (mkFrame (length s)
                (list_to_map [("BBL_20_2.0", floats band); ("BBM_20_2.0", floats band);
                              ("BBU_20_2.0", floats band)]))
    end;
  polarity := λ _, 0%Q
|}.

(** Twenty bars at 100, volume 1000: fewer than the 50 bars of the volume
    mean and of the long moving average, fewer than the 26 of MACD. *)
Definition flat20 : DataFrame :=
  bars (replicate 20 100%Q) (replicate 20 100%Q) (replicate 20 100%Q)
       (replicate 20 100%Q) (replicate 20 1000%Q).

Definition flat20_df : DataFrame :=
  get_ok flat20 (technical_frame flat_lib 20 50 flat20).1.
Definition flat20_stored : DataFrame := (technical_frame flat_lib 20 50 flat20).2.
Definition flat20_smart : DataFrame := (smart_money_frame flat_lib flat20).2.

End Flat.

Module Table.

Definition table_lib : Indicators := {|
  rolling_mean := λ _ _, [NaN; NaN; Fin 200];
  ta_sma := λ _ _, Some [NaN; Fin 10.5; Fin 12];
  ta_ema := λ _ _, Some [NaN; Fin 150; Fin 300];
  ta_rsi := λ _ _, Some [NaN; NaN; Fin 25];
  ta_obv := λ _ _, Some [Fin 100; Fin 200; Fin 600];
  ta_mfi := λ _ _ _ _ _, Some [NaN; NaN; Fin 85];
  ta_macd := λ _,
    Some (mkFrame 3
            (list_to_map [("MACD_12_26_9", floats [NaN; Fin (-0.1); Fin 0.2]);
                          ("MACDh_12_26_9", floats [NaN; Fin (-0.1); Fin 0.1]);
                          ("MACDs_12_26_9", floats [NaN; Fin 0; Fin 0.1])]));
  ta_bbands := λ _ _,
    Some (mkFrame 3
            (list_to_map [("BBL_20_2.0", floats [NaN; NaN; Fin 14]);
                          ("BBM_20_2.0", floats [NaN; NaN; Fin 15]);
                          ("BBU_20_2.0", floats [NaN; NaN; Fin 16])]));
  polarity := λ title,
    if String.eqb title "beats" then 0.4%Q
    else if String.eqb title "misses" then (-0.2)%Q
    else 0%Q
|}.

(** Three bars; the last one closes up on four times the usual volume. *)
Definition rally : DataFrame :=
  bars [10; 11; 12]%Q [11; 12; 14]%Q [9; 10; 11]%Q [10; 11; 13]%Q [100; 100; 400]%Q.

Definition rally_df : DataFrame :=
  get_ok rally (technical_frame table_lib 20 50 rally).1.
Definition rally_stored : DataFrame := (technical_frame table_lib 20 50 rally).2.
Definition rally_smart : DataFrame := (smart_money_frame table_lib rally).2.

Definition headlines : list (gmap string string) :=
  [{["title" := "beats"]}; {["title" := "misses"]}; {["title" := "holds"]}].

End Table.

(** The last row and the one before. *)
Definition latest_of (df : DataFrame) : Row := get_ok ∅ (iloc_neg df 1).
Definition prev_of (df : DataFrame) : Row := get_ok ∅ (iloc_neg df 2).

(** Whatever the rules return went through [clamp]. *)
Definition clamped (r : result (Z * list string)) : Prop :=
  ∀ score signals, r = Ok (score, signals) → 0 ≤ score ≤ 100.

Arguments PyFloat.ltb : simpl never.
Arguments PyFloat.gtb : simpl never.
Arguments PyFloat.leb : simpl never.
Arguments clamp : simpl never.

(** * Facts on floats *)

Lemma Qlt_bool_iff (a b : Q) : Qlt_bool a b = true ↔ (a < b)%Q.
Proof.
  unfold Qlt_bool. rewrite negb_true_iff.
  destruct (Qle_bool b a) eqn:E.
  - apply Qle_bool_iff in E. split; [discriminate | intros H; exfalso; lra].
  - split; [intros _ | reflexivity].
    destruct (Qlt_le_dec a b) as [|H]; [assumption |].
    apply Qle_bool_iff in H. congruence.
Qed.

Lemma ltb_Fin (a b : Q) : PyFloat.ltb (Fin a) (Fin b) = true ↔ (a < b)%Q.
Proof. apply Qlt_bool_iff. Qed.

Lemma gtb_Fin (a b : Q) : PyFloat.gtb (Fin a) (Fin b) = true ↔ (b < a)%Q.
Proof. apply Qlt_bool_iff. Qed.

Lemma leb_Fin (a b : Q) : PyFloat.leb (Fin a) (Fin b) = true ↔ (a <= b)%Q.
Proof. apply Qle_bool_iff. Qed.

(** Nothing is both below [a] and above [b] when [a <= b]. *)
Lemma ltb_gtb_exclusive (x : pyfloat) (a b : Q) :
  (a <= b)%Q → PyFloat.ltb x (Fin a) = true → PyFloat.gtb x (Fin b) = false.
Proof.
  intros Hab Hlt. destruct x as [q| | |]; simpl in *; try reflexivity; try discriminate.
  apply Qlt_bool_iff in Hlt. apply not_true_is_false. intros Hgt.
  apply Qlt_bool_iff in Hgt. lra.
Qed.

Lemma ltb_gtb_same (x y : pyfloat) :
  PyFloat.ltb x y = true → PyFloat.gtb x y = false.
Proof.
  unfold PyFloat.gtb.
  destruct x as [a| | |], y as [b| | |]; simpl; try reflexivity; try discriminate.
  intros H. apply Qlt_bool_iff in H. apply not_true_is_false. intros H'.
  apply Qlt_bool_iff in H'. lra.
Qed.

(** Equal floats are not ordered strictly. *)
Lemma eqb_neither (x y : pyfloat) :
  PyFloat.eqb x y = true → PyFloat.gtb x y = false ∧ PyFloat.ltb x y = false.
Proof.
  unfold PyFloat.gtb.
  destruct x as [a| | |], y as [b| | |]; simpl; try discriminate; auto.
  intros H. apply Qeq_bool_iff in H.
  split; apply not_true_is_false; intros H'; apply Qlt_bool_iff in H'; lra.
Qed.

Lemma gtb_irrefl (x : pyfloat) : PyFloat.gtb x x = false.
Proof.
  destruct x as [a| | |]; simpl; try reflexivity.
  apply not_true_is_false. intros H. apply Qlt_bool_iff in H. lra.
Qed.

Lemma nan_compares_false (op : pyfloat → pyfloat → bool) (x : pyfloat) :
  op = PyFloat.ltb ∨ op = PyFloat.gtb ∨ op = PyFloat.leb →
  op NaN x = false ∧ op x NaN = false.
Proof.
  intros [->|[->| ->]]; unfold PyFloat.gtb; destruct x; simpl; auto.
Qed.

(** * The rules on valid rows *)

Lemma is_float_at_spec (r : Row) (c : string) :
  is_float_at r c = true → ∃ x, r !! c = Some (F x).
Proof.
  unfold is_float_at. destruct (r !! c) as [[x|]|]; try discriminate. eauto.
Qed.

(** Turn the conjuncts of a validity hypothesis into lookups, and rewrite
    the goal with them. *)
Ltac valid_lookups :=
  repeat match goal with
         | H : (_ && _) = true |- _ => apply andb_prop in H; destruct H
         end;
  repeat match goal with
         | H : is_float_at _ _ = true |- _ =>
             apply is_float_at_spec in H; destruct H as [? H]; rewrite ?H
         end.

(** Case analysis on every test the rules make; the one impossible
    combination is a value both below 30 (20) and above 70 (80). *)
Ltac rule_cases :=
  repeat match goal with
         | |- context [if ?b then _ else _] => destruct b eqn:?; simpl
         end;
  try reflexivity;
  match goal with
  | Hlt : PyFloat.ltb ?x (Fin ?a) = true, Hgt : PyFloat.gtb ?x (Fin ?b) = true |- _ =>
      rewrite (ltb_gtb_exclusive x a b) in Hgt by (lra || exact Hlt); discriminate
  | Hlt : PyFloat.ltb ?x ?y = true, Hgt : PyFloat.gtb ?x ?y = true |- _ =>
      rewrite (ltb_gtb_same x y Hlt) in Hgt; discriminate
  end.

(** On valid rows the technical rules return, and what they return is the
    score and the signals of the specification. *)
Lemma technical_rules_valid (df : DataFrame) (latest prev : Row) :
  valid_technical_rows df latest prev = true →
  technical_rules df latest prev
  = Ok (Spec.technical_score df latest prev,
        (Spec.technical_fired df latest prev).*2).
Proof.
  unfold valid_technical_rows. intros H.
  apply andb_prop in H as [H Hbb]. apply andb_prop in H as [H Hmacd].
  apply andb_prop in H as [H Hrsi]. apply andb_prop in H as [Hsma Hclose].
  apply bool_decide_eq_true in Hsma. destruct Hsma as [sma Hsma].
  unfold technical_rules, Spec.technical_score, Spec.technical_fired,
    Spec.trend, Spec.oversold, Spec.overbought, Spec.golden_cross, Spec.undercut,
    Spec.num, Spec.holds, Spec.const,
    cmp_const, cmp_labels, and_then, row_get, cell_gt, cell_lt, cell_le, cell_cmp.
  rewrite Hsma.
  destruct (has_column df "MACD_12_26_9") eqn:Hm;
    destruct (has_column df "BBL_20_2.0") eqn:Hb;
    valid_lookups; destruct sma as [s|]; simpl; rule_cases.
Qed.

(** The same for the smart-money rules. *)
Lemma smart_money_rules_valid (latest : Row) :
  valid_smart_money_row latest = true →
  smart_money_rules latest
  = Ok (Spec.smart_money_score latest, (Spec.smart_money_fired latest).*2).
Proof.
  unfold valid_smart_money_row. intros H.
  unfold smart_money_rules, Spec.smart_money_score, Spec.smart_money_fired,
    Spec.spike_up, Spec.spike_down, Spec.spike, Spec.inflow, Spec.overheated,
    Spec.cold, Spec.num, Spec.holds, Spec.const,
    cmp_const, cmp_labels, and_then, row_get, cell_gt, cell_lt, cell_le, cell_cmp.
  valid_lookups. simpl. rule_cases.
Qed.

(** The two extreme branches of one oscillator never fire together. *)
Lemma rsi_exclusive (latest : Row) :
  Spec.oversold latest && Spec.overbought latest = false.
Proof.
  unfold Spec.oversold, Spec.overbought, Spec.holds, Spec.const.
  destruct (Spec.num latest "RSI") as [x|]; [| reflexivity].
  destruct (PyFloat.ltb x (Fin 30)) eqn:E; [| reflexivity].
  simpl. apply (ltb_gtb_exclusive x 30 70); [lra | exact E].
Qed.

Lemma mfi_exclusive (latest : Row) :
  Spec.overheated latest && Spec.cold latest = false.
Proof.
  unfold Spec.overheated, Spec.cold, Spec.holds, Spec.const.
  destruct (Spec.num latest "MFI") as [x|]; [| reflexivity].
  destruct (PyFloat.ltb x (Fin 20)) eqn:E; [| apply andb_false_r].
  rewrite (ltb_gtb_exclusive x 20 80); [reflexivity | lra | exact E].
Qed.

Lemma spike_exclusive (latest : Row) :
  Spec.spike_up latest && Spec.spike_down latest = false.
Proof.
  unfold Spec.spike_up, Spec.spike_down, Spec.holds.
  destruct (Spec.spike latest); [| reflexivity]. simpl.
  destruct (Spec.num latest "Close") as [x|]; [| reflexivity].
  destruct (Spec.num latest "Open") as [y|]; [| reflexivity].
  destruct (PyFloat.ltb x y) eqn:E; [| apply andb_false_r].
  rewrite (ltb_gtb_same x y E). reflexivity.
Qed.

Lemma clamp_bounds (z : Z) : 0 ≤ clamp z ≤ 100.
Proof. unfold clamp. lia. Qed.

Lemma clamp_id (z : Z) : 0 ≤ z ≤ 100 → clamp z = z.
Proof. unfold clamp. lia. Qed.

(** The accumulated sum does not depend on the order of the deltas. *)
Lemma accumulate_sum (base : Z) (deltas : list Z) :
  Spec.accumulate base deltas = base + foldr Z.add 0 deltas.
Proof.
  unfold Spec.accumulate. revert base.
  induction deltas as [|d ds IH]; intros base; simpl; [lia |].
  rewrite IH. lia.
Qed.

Lemma accumulate_perm (base : Z) (ds ds' : list Z) :
  ds ≡ₚ ds' → Spec.accumulate base ds = Spec.accumulate base ds'.
Proof.
  intros Hp. rewrite !accumulate_sum. f_equal.
  induction Hp; simpl; lia.
Qed.

Lemma technical_score_accumulate (df : DataFrame) (latest prev : Row) :
  Spec.technical_score df latest prev
  = clamp (Spec.accumulate 50 (Spec.technical_fired df latest prev).*1).
Proof.
  unfold Spec.technical_score, Spec.technical_fired, Spec.accumulate.
  destruct (Spec.trend latest), (Spec.oversold latest), (Spec.overbought latest),
    (Spec.golden_cross df latest prev), (Spec.undercut df latest); reflexivity.
Qed.

Lemma smart_money_score_accumulate (latest : Row) :
  Spec.smart_money_score latest
  = clamp (Spec.accumulate 50 (Spec.smart_money_fired latest).*1).
Proof.
  unfold Spec.smart_money_score, Spec.smart_money_fired, Spec.accumulate.
  destruct (Spec.spike_up latest), (Spec.spike_down latest), (Spec.inflow latest),
    (Spec.overheated latest), (Spec.cold latest); reflexivity.
Qed.

(** * The scorers as a whole *)

Lemma iloc_neg_rows (df : DataFrame) (k : nat) (r : Row) :
  iloc_neg df k = Ok r → (k ≤ nrows df)%nat.
Proof.
  unfold iloc_neg. destruct (nrows df <? k)%nat eqn:E; [discriminate |].
  intros _. apply Nat.ltb_ge in E. exact E.
Qed.

(** Once its frame is built and the last two rows are valid, the technical
    scorer returns the score and signals of the specification. *)
Lemma calculate_technical_strategy_valid
    (lib : Indicators) (ws wl : Z) (data df data' : DataFrame) (latest prev : Row) :
  technical_frame lib ws wl data = (Ok df, data') →
  iloc_neg df 1 = Ok latest →
  iloc_neg df 2 = Ok prev →
  valid_technical_rows df latest prev = true →
  calculate_technical_strategy lib ws wl data
  = (Ok (Spec.technical_score df latest prev,
         (Spec.technical_fired df latest prev).*2, df), data').
Proof.
  intros Hf H1 H2 Hv.
  unfold calculate_technical_strategy, mbind, M_bind, lift. rewrite Hf.
  simpl. rewrite H1, H2, (technical_rules_valid _ _ _ Hv). reflexivity.
Qed.

Lemma calculate_smart_money_valid
    (lib : Indicators) (data data' : DataFrame) (latest : Row) :
  smart_money_frame lib data = (Ok (), data') →
  iloc_neg data' 1 = Ok latest →
  valid_smart_money_row latest = true →
  calculate_smart_money lib data
  = (Ok (Spec.smart_money_score latest, (Spec.smart_money_fired latest).*2), data').
Proof.
  intros Hf H1 Hv.
  unfold calculate_smart_money, mbind, M_bind, lift, current. rewrite Hf.
  simpl. rewrite H1, (smart_money_rules_valid _ Hv). reflexivity.
Qed.

(** With fewer rows than a scorer indexes, [iloc] raises. *)
Lemma calculate_technical_strategy_short
    (lib : Indicators) (ws wl : Z) (data df data' : DataFrame) :
  technical_frame lib ws wl data = (Ok df, data') →
  (nrows df < 2)%nat →
  calculate_technical_strategy lib ws wl data = (Raise IndexError, data').
Proof.
  intros Hf Hn.
  unfold calculate_technical_strategy, mbind, M_bind, lift. rewrite Hf. simpl.
  unfold iloc_neg.
  destruct (nrows df <? 1)%nat eqn:E1; [reflexivity |].
  apply Nat.ltb_lt in Hn. rewrite Hn. reflexivity.
Qed.

Lemma calculate_smart_money_empty (lib : Indicators) (data data' : DataFrame) :
  smart_money_frame lib data = (Ok (), data') →
  nrows data' = 0%nat →
  calculate_smart_money lib data = (Raise IndexError, data').
Proof.
  intros Hf Hn.
  unfold calculate_smart_money, mbind, M_bind, lift, current. rewrite Hf. simpl.
  unfold iloc_neg. rewrite Hn. reflexivity.
Qed.

(** * The frames the scorers build *)

Lemma getcol_setcol_ne (df : DataFrame) (c c' : string) (v : option Series) :
  c ≠ c' → getcol (setcol df c v) c' = getcol df c'.
Proof. intros Hne. unfold getcol, setcol. simpl. by rewrite lookup_insert_ne. Qed.

Lemma getcol_Ok (df : DataFrame) (c : string) (s : Series) :
  getcol df c = Ok s ↔ cols df !! c = Some s.
Proof.
  unfold getcol. destruct (cols df !! c); split; intros H; congruence.
Qed.

Lemma cols_concat (df : DataFrame) (other : option DataFrame) (c : string) (s : Series) :
  cols df !! c = Some s →
  cols (concat df other) !! c
  = Some (match other with
          | Some o => align (Nat.max (nrows df) (nrows o)) s
          | None => s
          end).
Proof.
  intros H. destruct other as [o|]; simpl; [| exact H].
  rewrite lookup_fmap, (lookup_union_Some_l _ _ _ _ H). reflexivity.
Qed.

Lemma technical_frame_missing_close (lib : Indicators) (ws wl : Z) (data : DataFrame) :
  cols data !! "Close" = None →
  technical_frame lib ws wl data = (Raise KeyError, data).
Proof.
  intros H. unfold technical_frame, mbind, M_bind, read, getcol. by rewrite H.
Qed.

Lemma technical_frame_eq (lib : Indicators) (ws wl : Z) (data : DataFrame) (close : Series) :
  cols data !! "Close" = Some close →
  ∃ close',
    let stored := technical_stored lib ws wl data close in
    let with_macd := concat stored (ta_macd lib close) in
    cols with_macd !! "Close" = Some close' ∧
    technical_frame lib ws wl data
    = (Ok (concat with_macd (ta_bbands lib close' 20)), stored).
Proof.
  intros H.
  assert (Hs : cols (technical_stored lib ws wl data close) !! "Close" = Some close).
  { unfold technical_stored, setcol. simpl. by rewrite !lookup_insert_ne. }
  eexists. simpl. split; [apply cols_concat, Hs |].
  unfold technical_frame, mbind, M_bind, read, assign, current, lift, mret, M_ret.
  apply getcol_Ok in H. rewrite H.
  rewrite !getcol_setcol_ne, H by done.
  rewrite !getcol_setcol_ne, H by done.
  rewrite !getcol_setcol_ne, H by done.
  fold (technical_stored lib ws wl data close).
  erewrite (proj2 (getcol_Ok _ _ _)); [reflexivity |].
  apply cols_concat, Hs.
Qed.

(** Inversion of a successful run, step by step. *)
Lemma bind_Ok_inv {A B} (m : M A) (k : A → M B) (s s' : DataFrame) (b : B) :
  (m ≫= k) s = (Ok b, s') →
  ∃ a s1, m s = (Ok a, s1) ∧ k a s1 = (Ok b, s').
Proof.
  unfold mbind, M_bind. destruct (m s) as [[a|e] s1]; [eauto | discriminate].
Qed.

Lemma read_Ok_inv (c : string) (s s1 : DataFrame) (a : Series) :
  read c s = (Ok a, s1) → getcol s c = Ok a ∧ s1 = s.
Proof. unfold read. intros [= -> ->]. auto. Qed.

Lemma assign_Ok_inv (c : string) (v : option Series) (s s1 : DataFrame) (u : ()) :
  assign c v s = (Ok u, s1) → s1 = setcol s c v.
Proof. unfold assign. by intros [= _ <-]. Qed.

Lemma lift_Ok_inv {A} (r : result A) (s s1 : DataFrame) (a : A) :
  lift r s = (Ok a, s1) → r = Ok a ∧ s1 = s.
Proof. unfold lift. intros [= -> ->]. auto. Qed.

Lemma current_Ok_inv (s s1 df : DataFrame) :
  current s = (Ok df, s1) → df = s ∧ s1 = s.
Proof. unfold current. intros [= -> ->]. auto. Qed.

Ltac run_inv H :=
  repeat (let a := fresh "a" in
          let s := fresh "s" in
          let Hs := fresh "Hstep" in
          apply bind_Ok_inv in H as (a & s & Hs & H);
          first [ apply read_Ok_inv in Hs as [Hs ->]
                | apply assign_Ok_inv in Hs as ->
                | apply current_Ok_inv in Hs as [-> ->]
                | apply lift_Ok_inv in Hs as [Hs ->] ]).

Lemma getcol_setcol (df : DataFrame) (c : string) (v : option Series) :
  getcol (setcol df c v) c
  = Ok (match v with
        | Some s => align (nrows df) s
        | None => replicate (nrows df) PyNone
        end).
Proof. unfold getcol, setcol. simpl. by rewrite lookup_insert_eq. Qed.

(** What a successful run of lines 73-82 read and stored. *)
Lemma smart_money_frame_ok (lib : Indicators) (data data' : DataFrame) :
  smart_money_frame lib data = (Ok (), data') →
  ∃ volume close high low rvol,
    cols data !! "Volume" = Some volume ∧ cols data !! "Close" = Some close ∧
    cols data !! "High" = Some high ∧ cols data !! "Low" = Some low ∧
    series_div volume (align (nrows data) (floats (rolling_mean lib volume 50)))
    = Ok rvol ∧
    data' = smart_money_stored lib data volume close high low rvol.
Proof.
  unfold smart_money_frame. intros H. run_inv H.
  apply assign_Ok_inv in H.
  rewrite ?getcol_setcol_ne in * by done.
  rewrite getcol_setcol in *.
  repeat match goal with
         | H1 : getcol data ?c = Ok ?x, H2 : getcol data ?c = Ok ?y |- _ =>
             assert (y = x) as -> by congruence; clear H2
         end.
  repeat match goal with
         | H1 : Ok _ = Ok _ |- _ => injection H1 as <-
         end.
  do 5 eexists. rewrite <- !getcol_Ok.
  repeat split; try eassumption.
  subst data'. unfold smart_money_stored.
  match goal with |- context [ta_obv lib ?c ?v] => destruct (ta_obv lib c v) end;
    reflexivity.
Qed.

(** * Signals and the rules that emit them *)

(** In the signals of the technical scorer each message stands for its own
    rule. *)
Lemma technical_signal_iff (df : DataFrame) (latest prev : Row) :
  let signals := (Spec.technical_fired df latest prev).*2 in
  (Msg.trend_up ∈ signals ↔ Spec.trend latest = true)
  ∧ (Msg.rsi_oversold ∈ signals ↔ Spec.oversold latest = true)
  ∧ (Msg.rsi_overbought ∈ signals ↔ Spec.overbought latest = true)
  ∧ (Msg.macd_golden ∈ signals ↔ Spec.golden_cross df latest prev = true)
  ∧ (Msg.bollinger_low ∈ signals ↔ Spec.undercut df latest = true).
Proof.
  unfold Spec.technical_fired.
  destruct (Spec.trend latest), (Spec.oversold latest), (Spec.overbought latest),
    (Spec.golden_cross df latest prev), (Spec.undercut df latest);
    simpl; repeat split; intros H; try reflexivity; try discriminate;
    try (repeat constructor; fail);
    exfalso; repeat (apply elem_of_cons in H as [H|H]; [discriminate H |]);
    by apply elem_of_nil in H.
Qed.

Lemma smart_money_signal_iff (latest : Row) :
  let signals := (Spec.smart_money_fired latest).*2 in
  (Msg.volume_up ∈ signals ↔ Spec.spike_up latest = true)
  ∧ (Msg.volume_down ∈ signals ↔ Spec.spike_down latest = true)
  ∧ (Msg.obv_above ∈ signals ↔ Spec.inflow latest = true)
  ∧ (Msg.mfi_hot ∈ signals ↔ Spec.overheated latest = true)
  ∧ (Msg.mfi_cold ∈ signals ↔ Spec.cold latest = true).
Proof.
  unfold Spec.smart_money_fired.
  destruct (Spec.spike_up latest), (Spec.spike_down latest), (Spec.inflow latest),
    (Spec.overheated latest), (Spec.cold latest);
    simpl; repeat split; intros H; try reflexivity; try discriminate;
    try (repeat constructor; fail);
    exfalso; repeat (apply elem_of_cons in H as [H|H]; [discriminate H |]);
    by apply elem_of_nil in H.
Qed.

Lemma technical_fired_length (df : DataFrame) (latest prev : Row) :
  Z.of_nat (length (Spec.technical_fired df latest prev).*2)
  = Spec.ind (Spec.trend latest) + Spec.ind (Spec.oversold latest)
    + Spec.ind (Spec.overbought latest) + Spec.ind (Spec.golden_cross df latest prev)
    + Spec.ind (Spec.undercut df latest).
Proof.
  unfold Spec.technical_fired.
  destruct (Spec.trend latest), (Spec.oversold latest), (Spec.overbought latest),
    (Spec.golden_cross df latest prev), (Spec.undercut df latest); reflexivity.
Qed.

Lemma smart_money_fired_length (latest : Row) :
  Z.of_nat (length (Spec.smart_money_fired latest).*2)
  = Spec.ind (Spec.spike_up latest) + Spec.ind (Spec.spike_down latest)
    + Spec.ind (Spec.inflow latest) + Spec.ind (Spec.overheated latest)
    + Spec.ind (Spec.cold latest).
Proof.
  unfold Spec.smart_money_fired.
  destruct (Spec.spike_up latest), (Spec.spike_down latest), (Spec.inflow latest),
    (Spec.overheated latest), (Spec.cold latest); reflexivity.
Qed.

(** A finite RSI (or MFI) between the two thresholds is in neither extreme. *)
Lemma between_thresholds (r : Row) (c : string) (x lo hi : Q) :
  Spec.num r c = Some (Fin x) → (lo <= x <= hi)%Q →
  Spec.holds PyFloat.ltb (Spec.num r c) (Spec.const lo) = false
  ∧ Spec.holds PyFloat.gtb (Spec.num r c) (Spec.const hi) = false.
Proof.
  intros -> [Hlo Hhi]. unfold Spec.holds, Spec.const.
  split; apply not_true_is_false; intros H.
  - apply ltb_Fin in H. lra.
  - apply gtb_Fin in H. lra.
Qed.

(** * The relative volume of the latest bar *)

Lemma cell_at_align (n i : nat) (s : Series) :
  (i < n)%nat → cell_at (align n s) i = cell_at s i.
Proof.
  intros Hi. unfold cell_at, align.
  destruct (decide (i < length s)%nat) as [Hlt|Hge].
  - rewrite lookup_app_l by (rewrite length_take; lia).
    by rewrite lookup_take_lt.
  - rewrite lookup_app_r by (rewrite length_take; lia).
    rewrite length_take, (lookup_ge_None_2 s i) by lia.
    rewrite lookup_replicate_2 by lia. reflexivity.
Qed.

Lemma cell_at_floats (xs : list pyfloat) (i : nat) :
  ∃ x, cell_at (floats xs) i = F x.
Proof.
  unfold cell_at, floats. rewrite list_lookup_fmap.
  destruct (xs !! i); simpl; eauto.
Qed.

(** Element-wise division, read at one position: outside either column
    the quotient is the NaN of alignment. *)
Lemma series_div_at (a b r : Series) (i : nat) (u v : pyfloat) :
  series_div a b = Ok r →
  cell_at a i = F u → cell_at b i = F v →
  cell_at r i = F (PyFloat.div u v).
Proof.
  revert b r i. induction a as [|x a IH]; intros b r i Hdiv Hu Hv.
  - simpl in Hdiv. injection Hdiv as <-. unfold cell_at in *. simpl in *.
    injection Hu as <-. reflexivity.
  - destruct b as [|y b].
    + simpl in Hdiv. injection Hdiv as <-. unfold cell_at in *. simpl in *.
      injection Hv as <-. by destruct u.
    + simpl in Hdiv. destruct x as [x|]; [| discriminate].
      destruct y as [y|]; [| discriminate].
      destruct (series_div a b) as [r'|] eqn:E; [| discriminate].
      simpl in Hdiv. injection Hdiv as <-.
      destruct i as [|i].
      * unfold cell_at in *. simpl in *. congruence.
      * unfold cell_at in *. simpl in *. by apply (IH b r' i).
Qed.

(** Where the divisor has a value, a division that did not raise found a
    float in the dividend (or nothing at all). *)
Lemma series_div_float (a b r : Series) (i : nat) :
  series_div a b = Ok r → (i < length b)%nat → ∃ u, cell_at a i = F u.
Proof.
  revert b r i. induction a as [|x a IH]; intros b r i Hdiv Hi.
  - unfold cell_at. simpl. eauto.
  - destruct b as [|y b]; [simpl in Hi; lia |].
    simpl in Hdiv. destruct x as [x|]; [| discriminate].
    destruct y as [y|]; [| discriminate].
    destruct (series_div a b) as [r'|] eqn:E; [| discriminate].
    destruct i as [|i]; [unfold cell_at; simpl; eauto |].
    simpl in Hi. apply (IH b r' i E). lia.
Qed.

Lemma length_align (n : nat) (s : Series) : length (align n s) = n.
Proof. unfold align. rewrite length_app, length_take, length_replicate. lia. Qed.

Lemma iloc_neg_lookup (df : DataFrame) (k : nat) (r : Row) (c : string) :
  iloc_neg df k = Ok r →
  r !! c = (λ s, cell_at s (nrows df - k)) <$> cols df !! c.
Proof.
  unfold iloc_neg. destruct (nrows df <? k)%nat; [discriminate |].
  intros [= <-]. apply lookup_fmap.
Qed.

(** After lines 73-75 the relative volume of the latest bar is its volume
    over the rolling mean of the volume. *)
Lemma latest_relative_volume (lib : Indicators) (data data' : DataFrame) (latest : Row) :
  smart_money_frame lib data = (Ok (), data') →
  iloc_neg data' 1 = Ok latest →
  ∃ volume mean,
    latest !! "Volume" = Some (F volume)
    ∧ latest !! "Vol_SMA" = Some (F mean)
    ∧ latest !! "RVOL" = Some (F (PyFloat.div volume mean)).
Proof.
  intros Hf Hl.
  destruct (smart_money_frame_ok _ _ _ Hf)
    as (volume & close & high & low & rvol & Hv & _ & _ & _ & Hdiv & ->).
  pose proof (iloc_neg_rows _ _ _ Hl) as Hn.
  set (stored := smart_money_stored lib data volume close high low rvol) in *.
  set (vsma := align (nrows data) (floats (rolling_mean lib volume 50))) in *.
  assert (H1 : cols stored !! "Volume" = Some volume).
  { unfold stored, smart_money_stored, setcol. simpl.
    by rewrite !lookup_insert_ne. }
  assert (H2 : cols stored !! "Vol_SMA" = Some vsma).
  { unfold stored, smart_money_stored, setcol. simpl.
    rewrite !lookup_insert_ne by done. by rewrite lookup_insert_eq. }
  assert (H3 : cols stored !! "RVOL" = Some (align (nrows data) rvol)).
  { unfold stored, smart_money_stored, setcol. simpl.
    rewrite !lookup_insert_ne by done. by rewrite lookup_insert_eq. }
  rewrite !(iloc_neg_lookup _ _ _ _ Hl), H1, H2, H3. simpl.
  change (nrows stored) with (nrows data) in *.
  set (i := (nrows data - 1)%nat).
  destruct (series_div_float volume vsma rvol i Hdiv) as [u Hu].
  { unfold vsma. rewrite length_align. lia. }
  destruct (cell_at_floats (rolling_mean lib volume 50) i) as [m Hm].
  assert (Hm' : cell_at vsma i = F m).
  { unfold vsma. rewrite cell_at_align by lia. exact Hm. }
  exists u, m. rewrite Hu, Hm'. repeat split.
  rewrite cell_at_align by lia.
  by rewrite (series_div_at volume vsma rvol i u m Hdiv Hu Hm').
Qed.

(** * Claims on the two scorers *)

(** C4. On a snapshot with at least two valid bars the technical scorer
    returns, and its score is
    clamp(50 + 10[close > longSMA] + 20[RSI < 30] - 20[RSI > 70]
          + 15[MACD golden cross] + 15[close < lower band], 0, 100).
    The two RSI branches exclude each other and a finite RSI in [30, 70]
    contributes nothing; the score lies in [0, 100]; the deltas of the rules
    that fired can be added in any order; every rule that fired left exactly
    one signal. *)
Theorem technical_score_formula
    (lib : Indicators) (ws wl : Z) (data df data' : DataFrame) (latest prev : Row) :
  distinct_labels lib ws wl data = true →
  technical_frame lib ws wl data = (Ok df, data') →
  iloc_neg df 1 = Ok latest →
  iloc_neg df 2 = Ok prev →
  valid_technical_rows df latest prev = true →
  let trend := Spec.trend latest in
  let oversold := Spec.oversold latest in
  let overbought := Spec.overbought latest in
  let golden := Spec.golden_cross df latest prev in
  let undercut := Spec.undercut df latest in
  ∃ score reasons,
    calculate_technical_strategy lib ws wl data = (Ok (score, reasons, df), data')
    ∧ score = clamp (50 + 10 * Spec.ind trend + 20 * Spec.ind oversold
                     - 20 * Spec.ind overbought + 15 * Spec.ind golden
                     + 15 * Spec.ind undercut)
    ∧ 0 ≤ score ≤ 100
    ∧ (2 ≤ nrows df)%nat
    ∧ oversold && overbought = false
    ∧ (∀ rsi, Spec.num latest "RSI" = Some (Fin rsi) → (30 <= rsi <= 70)%Q →
         oversold = false ∧ overbought = false)
    ∧ (∀ deltas, deltas ≡ₚ (Spec.technical_fired df latest prev).*1 →
         score = clamp (Spec.accumulate 50 deltas))
    ∧ reasons = (Spec.technical_fired df latest prev).*2
    ∧ Z.of_nat (length reasons)
      = Spec.ind trend + Spec.ind oversold + Spec.ind overbought
        + Spec.ind golden + Spec.ind undercut.
Proof.
  intros _ Hf H1 H2 Hv. simpl.
  exists (Spec.technical_score df latest prev),
         (Spec.technical_fired df latest prev).*2.
  split; [by apply calculate_technical_strategy_valid |].
  split; [reflexivity |].
  split; [apply clamp_bounds |].
  split; [by apply iloc_neg_rows in H2 |].
  split; [apply rsi_exclusive |].
  split; [intros rsi Hr Hb; by apply (between_thresholds latest "RSI" rsi 30 70) |].
  split.
  { intros deltas Hp. rewrite technical_score_accumulate.
    f_equal. symmetry. by apply accumulate_perm. }
  split; [reflexivity | apply technical_fired_length].
Qed.

Lemma technical_score_formula_witness :
  distinct_labels Table.table_lib 20 50 Table.rally = true
  ∧ technical_frame Table.table_lib 20 50 Table.rally = (Ok Table.rally_df, Table.rally_stored)
  ∧ valid_technical_rows Table.rally_df (latest_of Table.rally_df) (prev_of Table.rally_df)
    = true
  ∧ ∃ reasons,
      calculate_technical_strategy Table.table_lib 20 50 Table.rally
      = (Ok (100, reasons, Table.rally_df), Table.rally_stored)
      ∧ length reasons = 4%nat.
Proof.
  assert (Hf : technical_frame Table.table_lib 20 50 Table.rally
               = (Ok Table.rally_df, Table.rally_stored)) by (vm_compute; reflexivity).
  assert (Hv : valid_technical_rows Table.rally_df (latest_of Table.rally_df)
                 (prev_of Table.rally_df) = true) by (vm_compute; reflexivity).
  assert (Hd : distinct_labels Table.table_lib 20 50 Table.rally = true)
    by (vm_compute; reflexivity).
  split; [exact Hd |]. split; [exact Hf |]. split; [exact Hv |].
  destruct (technical_score_formula Table.table_lib 20 50 Table.rally
              Table.rally_df Table.rally_stored
              (latest_of Table.rally_df) (prev_of Table.rally_df) Hd Hf
              ltac:(vm_compute; reflexivity) ltac:(vm_compute; reflexivity) Hv)
    as (score & reasons & Hrun & Hscore & _ & _ & _ & _ & _ & _ & Hlen).
  exists reasons. split.
  - rewrite Hrun, Hscore. vm_compute. reflexivity.
  - apply Nat2Z.inj. rewrite Hlen. vm_compute. reflexivity.
Defined.

(** C5. On a valid snapshot the smart-money scorer returns, and its score is
    clamp(50 + 15[RVOL > 1.5 and close > open] - 15[RVOL > 1.5 and close < open]
          + 10[OBV > OBV_EMA] - 10[MFI > 80] + 10[MFI < 20], 0, 100),
    where RVOL at the latest bar is volume / 50-bar volume mean. With
    close equal to open neither volume rule fires; the two MFI branches
    exclude each other; the score lies in [0, 100]. *)
Theorem smart_money_score_formula
    (lib : Indicators) (data data' : DataFrame) (latest : Row) :
  smart_money_frame lib data = (Ok (), data') →
  iloc_neg data' 1 = Ok latest →
  valid_smart_money_row latest = true →
  let up := Spec.spike_up latest in
  let down := Spec.spike_down latest in
  let inflow := Spec.inflow latest in
  let overheated := Spec.overheated latest in
  let cold := Spec.cold latest in
  ∃ score signals,
    calculate_smart_money lib data = (Ok (score, signals), data')
    ∧ score = clamp (50 + 15 * Spec.ind up - 15 * Spec.ind down + 10 * Spec.ind inflow
                     - 10 * Spec.ind overheated + 10 * Spec.ind cold)
    ∧ 0 ≤ score ≤ 100
    ∧ (∃ volume mean,
         latest !! "Volume" = Some (F volume) ∧ latest !! "Vol_SMA" = Some (F mean)
         ∧ Spec.num latest "RVOL" = Some (PyFloat.div volume mean))
    ∧ (Spec.holds PyFloat.eqb (Spec.num latest "Close") (Spec.num latest "Open") = true →
         up = false ∧ down = false)
    ∧ up && down = false
    ∧ overheated && cold = false
    ∧ signals = (Spec.smart_money_fired latest).*2
    ∧ Z.of_nat (length signals)
      = Spec.ind up + Spec.ind down + Spec.ind inflow + Spec.ind overheated
        + Spec.ind cold.
Proof.
  intros Hf H1 Hv. simpl.
  exists (Spec.smart_money_score latest), (Spec.smart_money_fired latest).*2.
  split; [by apply calculate_smart_money_valid |].
  split; [reflexivity |].
  split; [apply clamp_bounds |].
  split.
  { destruct (latest_relative_volume _ _ _ _ Hf H1) as (v & m & Hvol & Hm & Hr).
    exists v, m. unfold Spec.num. by rewrite Hr. }
  split.
  { intros Heq. unfold Spec.spike_up, Spec.spike_down.
    destruct (Spec.num latest "Close") as [x|], (Spec.num latest "Open") as [y|];
      try discriminate.
    simpl in *. destruct (eqb_neither x y Heq) as [-> ->].
    by rewrite !andb_false_r. }
  split; [apply spike_exclusive |].
  split; [apply mfi_exclusive |].
  split; [reflexivity | apply smart_money_fired_length].
Qed.

Lemma smart_money_score_formula_witness :
  smart_money_frame Table.table_lib Table.rally = (Ok (), Table.rally_smart)
  ∧ valid_smart_money_row (latest_of Table.rally_smart) = true
  ∧ ∃ signals,
      calculate_smart_money Table.table_lib Table.rally
      = (Ok (65, signals), Table.rally_smart)
      ∧ length signals = 3%nat.
Proof.
  assert (Hf : smart_money_frame Table.table_lib Table.rally
               = (Ok (), Table.rally_smart)) by (vm_compute; reflexivity).
  assert (Hv : valid_smart_money_row (latest_of Table.rally_smart) = true)
    by (vm_compute; reflexivity).
  split; [exact Hf |]. split; [exact Hv |].
  destruct (smart_money_score_formula Table.table_lib Table.rally Table.rally_smart
              (latest_of Table.rally_smart) Hf ltac:(vm_compute; reflexivity) Hv)
    as (score & signals & Hrun & Hscore & _ & _ & _ & _ & _ & _ & Hlen).
  exists signals. split.
  - rewrite Hrun, Hscore. vm_compute. reflexivity.
  - apply Nat2Z.inj. rewrite Hlen. vm_compute. reflexivity.
Defined.

(** * Missing values *)

Lemma holds_missing (op : pyfloat → pyfloat → bool) (a b : option pyfloat) :
  op = PyFloat.ltb ∨ op = PyFloat.gtb ∨ op = PyFloat.leb →
  Spec.missing a ∨ Spec.missing b →
  Spec.holds op a b = false.
Proof.
  intros Hop Hm. unfold Spec.holds.
  destruct a as [x|]; [| reflexivity]. destruct b as [y|]; [| reflexivity].
  destruct Hm as [[H|H]|[H|H]]; try discriminate; injection H as ->;
    by apply nan_compares_false.
Qed.

Lemma holds_ltb_missing a b :
  Spec.missing a ∨ Spec.missing b → Spec.holds PyFloat.ltb a b = false.
Proof. apply holds_missing. auto. Qed.

Lemma holds_gtb_missing a b :
  Spec.missing a ∨ Spec.missing b → Spec.holds PyFloat.gtb a b = false.
Proof. apply holds_missing. auto. Qed.

Lemma holds_leb_missing a b :
  Spec.missing a ∨ Spec.missing b → Spec.holds PyFloat.leb a b = false.
Proof. apply holds_missing. auto. Qed.

(** * What a scorer touches in the frame of its caller *)

Lemma unchanged_outside_refl (labels : list string) (d : DataFrame) :
  unchanged_outside labels d d.
Proof. split; auto. Qed.

Lemma unchanged_outside_trans (labels : list string) (d1 d2 d3 : DataFrame) :
  unchanged_outside labels d1 d2 → unchanged_outside labels d2 d3 →
  unchanged_outside labels d1 d3.
Proof.
  intros [Hn1 Hc1] [Hn2 Hc2]. split; [congruence |].
  intros c Hc. rewrite Hc2, Hc1; auto.
Qed.

Lemma touches_only_ret {A} (labels : list string) (a : A) :
  touches_only labels (mret a : M A).
Proof. intros s. apply unchanged_outside_refl. Qed.

Lemma touches_only_bind {A B} (labels : list string) (m : M A) (k : A → M B) :
  touches_only labels m → (∀ a, touches_only labels (k a)) →
  touches_only labels (m ≫= k).
Proof.
  intros Hm Hk s. specialize (Hm s). unfold mbind, M_bind.
  destruct (m s) as [[a|e] s1]; simpl in *; [| exact Hm].
  eapply unchanged_outside_trans; [exact Hm | apply Hk].
Qed.

Lemma touches_only_read (labels : list string) (c : string) :
  touches_only labels (read c).
Proof. intros s. apply unchanged_outside_refl. Qed.

Lemma touches_only_lift {A} (labels : list string) (r : result A) :
  touches_only labels (lift r).
Proof. intros s. apply unchanged_outside_refl. Qed.

Lemma touches_only_current (labels : list string) :
  touches_only labels current.
Proof. intros s. apply unchanged_outside_refl. Qed.

Lemma touches_only_assign (labels : list string) (c : string) (v : option Series) :
  c ∈ labels → touches_only labels (assign c v).
Proof.
  intros Hin s. split; [reflexivity |].
  intros c' Hc'. simpl. apply lookup_insert_ne. intros ->. contradiction.
Qed.

Ltac touches :=
  repeat first
    [ apply touches_only_bind; [| intros ?]
    | apply touches_only_read
    | apply touches_only_lift
    | apply touches_only_current
    | apply touches_only_ret
    | apply touches_only_assign; set_solver
    | match goal with |- touches_only _ (let '(_, _) := ?p in _) => destruct p end ].

Lemma technical_frame_touches (lib : Indicators) (ws wl : Z) :
  touches_only technical_labels (technical_frame lib ws wl).
Proof. unfold technical_frame, technical_labels. touches. Qed.

Lemma calculate_technical_strategy_touches (lib : Indicators) (ws wl : Z) :
  touches_only technical_labels (calculate_technical_strategy lib ws wl).
Proof.
  unfold calculate_technical_strategy.
  apply touches_only_bind; [apply technical_frame_touches | intros df].
  touches.
Qed.

Lemma smart_money_frame_touches (lib : Indicators) :
  touches_only smart_money_labels (smart_money_frame lib).
Proof. unfold smart_money_frame, smart_money_labels. touches. Qed.

Lemma calculate_smart_money_touches (lib : Indicators) :
  touches_only smart_money_labels (calculate_smart_money lib).
Proof.
  unfold calculate_smart_money.
  apply touches_only_bind; [apply smart_money_frame_touches | intros []].
  touches.
Qed.

(** A successful scorer had its frame built; the rules do not touch it. *)
Lemma calculate_technical_strategy_Ok_inv
    (lib : Indicators) (ws wl : Z) (data data' df : DataFrame)
    (score : Z) (reasons : list string) :
  calculate_technical_strategy lib ws wl data = (Ok (score, reasons, df), data') →
  technical_frame lib ws wl data = (Ok df, data').
Proof.
  unfold calculate_technical_strategy. intros H.
  apply bind_Ok_inv in H as (df' & s & Hf & H).
  apply bind_Ok_inv in H as (latest & s1 & H1 & H). apply lift_Ok_inv in H1 as [_ ->].
  apply bind_Ok_inv in H as (prev & s2 & H2 & H). apply lift_Ok_inv in H2 as [_ ->].
  apply bind_Ok_inv in H as ([sc rs] & s3 & H3 & H). apply lift_Ok_inv in H3 as [_ ->].
  injection H as _ _ -> ->. exact Hf.
Qed.

Lemma calculate_smart_money_Ok_inv
    (lib : Indicators) (data data' : DataFrame) (r : Z * list string) :
  calculate_smart_money lib data = (Ok r, data') →
  smart_money_frame lib data = (Ok (), data').
Proof.
  unfold calculate_smart_money. intros H.
  apply bind_Ok_inv in H as ([] & s & Hf & H).
  apply bind_Ok_inv in H as (df & s1 & H1 & H). apply current_Ok_inv in H1 as [-> ->].
  apply bind_Ok_inv in H as (latest & s2 & H2 & H). apply lift_Ok_inv in H2 as [_ ->].
  apply lift_Ok_inv in H as [_ ->]. exact Hf.
Qed.

Lemma technical_stored_labels (lib : Indicators) (ws wl : Z) (data : DataFrame)
    (close : Series) (c : string) :
  c ∈ technical_labels → is_Some (cols (technical_stored lib ws wl data close) !! c).
Proof.
  unfold technical_labels, technical_stored, setcol. simpl. intros Hc.
  repeat (apply elem_of_cons in Hc as [->|Hc];
          [rewrite ?lookup_insert_ne by done; rewrite lookup_insert_eq; eauto |]).
  by apply elem_of_nil in Hc.
Qed.

Lemma smart_money_stored_labels (lib : Indicators) (data : DataFrame)
    (volume close high low rvol : Series) (c : string) :
  c ∈ smart_money_labels →
  is_Some (cols (smart_money_stored lib data volume close high low rvol) !! c).
Proof.
  unfold smart_money_labels, smart_money_stored, setcol. simpl. intros Hc.
  repeat (apply elem_of_cons in Hc as [->|Hc];
          [rewrite ?lookup_insert_ne by done; rewrite lookup_insert_eq; eauto |]).
  by apply elem_of_nil in Hc.
Qed.

(** * The MACD rule *)

Lemma golden_cross_eq (df : DataFrame) (latest prev : Row)
    (line signal prev_line prev_signal : pyfloat) :
  has_column df "MACD_12_26_9" = true →
  latest !! "MACD_12_26_9" = Some (F line) →
  latest !! "MACDs_12_26_9" = Some (F signal) →
  prev !! "MACD_12_26_9" = Some (F prev_line) →
  prev !! "MACDs_12_26_9" = Some (F prev_signal) →
  Spec.golden_cross df latest prev
  = PyFloat.gtb line signal && PyFloat.leb prev_line prev_signal.
Proof.
  intros Hm H1 H2 H3 H4. unfold Spec.golden_cross, Spec.num, Spec.holds.
  by rewrite Hm, H1, H2, H3, H4.
Qed.

Lemma clamp_mono (a b : Z) : a ≤ b → clamp a ≤ clamp b.
Proof. unfold clamp. lia. Qed.

Lemma ind_nonneg (b : bool) : 0 ≤ Spec.ind b.
Proof. destruct b; simpl; lia. Qed.

(** A downward cross is not an upward one. *)
Lemma death_cross_not_golden (line signal prev_line prev_signal : pyfloat) :
  PyFloat.ltb line signal = true →
  PyFloat.gtb line signal && PyFloat.leb prev_line prev_signal = false.
Proof. intros H. by rewrite (ltb_gtb_same _ _ H). Qed.

(** * Columns of the frame the technical scorer builds *)

Lemma cols_concat_None (df : DataFrame) (other : option DataFrame) (c : string) :
  cols df !! c = None →
  (∀ o, other = Some o → cols o !! c = None) →
  cols (concat df other) !! c = None.
Proof.
  intros Hd Ho. destruct other as [o|]; simpl; [| exact Hd].
  rewrite lookup_fmap. rewrite (proj2 (lookup_union_None _ _ _)); [reflexivity |].
  split; [exact Hd | by apply Ho].
Qed.

Lemma has_column_false (df : DataFrame) (c : string) :
  has_column df c = false ↔ cols df !! c = None.
Proof.
  unfold has_column. rewrite bool_decide_eq_false, <- eq_None_not_Some. reflexivity.
Qed.

(** A label that neither the frame given nor the two [pandas_ta] frames
    carry is not a column of the frame that is scored. *)
Lemma technical_frame_lacks (lib : Indicators) (ws wl : Z) (data df data' : DataFrame)
    (c : string) :
  technical_frame lib ws wl data = (Ok df, data') →
  c ∉ technical_labels →
  cols data !! c = None →
  (∀ close o, ta_macd lib close = Some o → cols o !! c = None) →
  (∀ close w o, ta_bbands lib close w = Some o → cols o !! c = None) →
  has_column df c = false.
Proof.
  intros Hf Hc Hd Hm Hb. apply has_column_false.
  destruct (cols data !! "Close") as [close|] eqn:Hclose.
  - destruct (technical_frame_eq lib ws wl data close Hclose) as (close' & _ & Heq).
    simpl in Heq. rewrite Heq in Hf. injection Hf as <- <-.
    apply cols_concat_None; [| intros o Ho; by eapply Hb].
    apply cols_concat_None; [| intros o Ho; by eapply Hm].
    destruct (technical_frame_touches lib ws wl data) as [_ Hout].
    rewrite Heq in Hout. simpl in Hout. by rewrite Hout.
  - rewrite (technical_frame_missing_close lib ws wl data Hclose) in Hf. discriminate.
Qed.

(** C6. With the MACD columns in the frame and valid bars, the MACD rule
    fires (+15 and its signal) if and only if
    MACD[latest] > signal[latest] and MACD[prev] <= signal[prev]: on finite
    values, exactly when the line is strictly above the signal now and was
    at or below it on the previous bar. A line equal to its signal on both
    bars does not fire the rule, and a downward cross costs nothing: the
    score is then the score of the other rules. *)
Theorem macd_golden_cross_iff
    (lib : Indicators) (ws wl : Z) (data df data' : DataFrame) (latest prev : Row)
    (line signal prev_line prev_signal : pyfloat) :
  distinct_labels lib ws wl data = true →
  technical_frame lib ws wl data = (Ok df, data') →
  iloc_neg df 1 = Ok latest →
  iloc_neg df 2 = Ok prev →
  valid_technical_rows df latest prev = true →
  has_column df "MACD_12_26_9" = true →
  latest !! "MACD_12_26_9" = Some (F line) →
  latest !! "MACDs_12_26_9" = Some (F signal) →
  prev !! "MACD_12_26_9" = Some (F prev_line) →
  prev !! "MACDs_12_26_9" = Some (F prev_signal) →
  let fires := PyFloat.gtb line signal && PyFloat.leb prev_line prev_signal in
  let others := 50 + 10 * Spec.ind (Spec.trend latest)
                + 20 * Spec.ind (Spec.oversold latest)
                - 20 * Spec.ind (Spec.overbought latest)
                + 15 * Spec.ind (Spec.undercut df latest) in
  ∃ score reasons,
    calculate_technical_strategy lib ws wl data = (Ok (score, reasons, df), data')
    ∧ (Msg.macd_golden ∈ reasons ↔ fires = true)
    ∧ score = clamp (others + 15 * Spec.ind fires)
    ∧ (∀ a b c d : Q,
         line = Fin a → signal = Fin b → prev_line = Fin c → prev_signal = Fin d →
         (fires = true ↔ (b < a)%Q ∧ (c <= d)%Q))
    ∧ (PyFloat.eqb line signal = true → PyFloat.eqb prev_line prev_signal = true →
         fires = false)
    ∧ (PyFloat.ltb line signal = true → PyFloat.geb prev_line prev_signal = true →
         fires = false)
    ∧ (fires = false → score = clamp others ∧ Msg.macd_golden ∉ reasons)
    ∧ clamp others ≤ score.
Proof.
  intros _ Hf H1 H2 Hv Hm Hl Hs Hpl Hps fires others.
  pose proof (golden_cross_eq df latest prev _ _ _ _ Hm Hl Hs Hpl Hps) as Hg.
  fold fires in Hg.
  destruct (technical_signal_iff df latest prev) as (_ & _ & _ & Hsig & _).
  simpl in Hsig. rewrite Hg in Hsig.
  assert (Hscore : Spec.technical_score df latest prev
                   = clamp (others + 15 * Spec.ind fires)).
  { unfold Spec.technical_score, others. rewrite Hg. f_equal. lia. }
  exists (Spec.technical_score df latest prev),
         (Spec.technical_fired df latest prev).*2.
  split; [by apply calculate_technical_strategy_valid |].
  split; [exact Hsig |].
  split; [exact Hscore |].
  split.
  { intros a b c d -> -> -> ->. unfold fires.
    rewrite andb_true_iff, gtb_Fin, leb_Fin. reflexivity. }
  split.
  { intros Heq _. unfold fires.
    destruct (eqb_neither _ _ Heq) as [-> _]. reflexivity. }
  split; [intros Hlt _; by apply death_cross_not_golden |].
  split.
  { intros Hno. split.
    - rewrite Hscore, Hno. simpl. f_equal. lia.
    - rewrite Hsig, Hno. discriminate. }
  rewrite Hscore. apply clamp_mono. pose proof (ind_nonneg fires). lia.
Qed.

Lemma macd_golden_cross_iff_witness :
  distinct_labels Table.table_lib 20 50 Table.rally = true
  ∧ technical_frame Table.table_lib 20 50 Table.rally = (Ok Table.rally_df, Table.rally_stored)
  ∧ valid_technical_rows Table.rally_df (latest_of Table.rally_df) (prev_of Table.rally_df)
    = true
  ∧ has_column Table.rally_df "MACD_12_26_9" = true
  ∧ ∃ score reasons,
      calculate_technical_strategy Table.table_lib 20 50 Table.rally
      = (Ok (score, reasons, Table.rally_df), Table.rally_stored)
      ∧ Msg.macd_golden ∈ reasons.
Proof.
  assert (Hf : technical_frame Table.table_lib 20 50 Table.rally
               = (Ok Table.rally_df, Table.rally_stored)) by (vm_compute; reflexivity).
  assert (Hv : valid_technical_rows Table.rally_df (latest_of Table.rally_df)
                 (prev_of Table.rally_df) = true) by (vm_compute; reflexivity).
  assert (Hm : has_column Table.rally_df "MACD_12_26_9" = true)
    by (vm_compute; reflexivity).
  assert (Hd : distinct_labels Table.table_lib 20 50 Table.rally = true)
    by (vm_compute; reflexivity).
  split; [exact Hd |]. split; [exact Hf |]. split; [exact Hv |]. split; [exact Hm |].
  destruct (macd_golden_cross_iff Table.table_lib 20 50 Table.rally
              Table.rally_df Table.rally_stored
              (latest_of Table.rally_df) (prev_of Table.rally_df)
              (Fin 0.2) (Fin 0.1) (Fin (-0.1)) (Fin 0) Hd Hf
              ltac:(vm_compute; reflexivity) ltac:(vm_compute; reflexivity) Hv Hm
              ltac:(vm_compute; reflexivity) ltac:(vm_compute; reflexivity)
              ltac:(vm_compute; reflexivity) ltac:(vm_compute; reflexivity))
    as (score & reasons & Hrun & Hsig & _).
  exists score, reasons. split; [exact Hrun |].
  apply Hsig. vm_compute. reflexivity.
Defined.

(** C10. When the column 'MACD_12_26_9' (respectively 'BBL_20_2.0') is not
    in the frame that is scored, the MACD (respectively Bollinger) rule is
    skipped: the scorer returns, the rule adds nothing to the score and
    leaves no signal, whatever the rows hold under the other MACD and
    Bollinger labels. The column is absent in particular when neither the
    frame given nor [pandas_ta] supplies it. *)
Theorem absent_column_skips_rule
    (lib : Indicators) (ws wl : Z) (data df data' : DataFrame) (latest prev : Row) :
  distinct_labels lib ws wl data = true →
  technical_frame lib ws wl data = (Ok df, data') →
  iloc_neg df 1 = Ok latest →
  iloc_neg df 2 = Ok prev →
  valid_technical_rows df latest prev = true →
  let base := 50 + 10 * Spec.ind (Spec.trend latest)
              + 20 * Spec.ind (Spec.oversold latest)
              - 20 * Spec.ind (Spec.overbought latest) in
  ∃ score reasons,
    calculate_technical_strategy lib ws wl data = (Ok (score, reasons, df), data')
    ∧ (has_column df "MACD_12_26_9" = false →
         (Msg.macd_golden ∉ reasons)
         ∧ score = clamp (base + 15 * Spec.ind (Spec.undercut df latest)))
    ∧ (has_column df "BBL_20_2.0" = false →
         (Msg.bollinger_low ∉ reasons)
         ∧ score = clamp (base + 15 * Spec.ind (Spec.golden_cross df latest prev)))
    ∧ (∀ c, c = "MACD_12_26_9" ∨ c = "BBL_20_2.0" →
         cols data !! c = None →
         (∀ close o, ta_macd lib close = Some o → cols o !! c = None) →
         (∀ close w o, ta_bbands lib close w = Some o → cols o !! c = None) →
         has_column df c = false).
Proof.
  intros _ Hf H1 H2 Hv base.
  destruct (technical_signal_iff df latest prev) as (_ & _ & _ & Hmacd & Hbb).
  simpl in Hmacd, Hbb.
  exists (Spec.technical_score df latest prev),
         (Spec.technical_fired df latest prev).*2.
  split; [by apply calculate_technical_strategy_valid |].
  split.
  { intros Hno.
    assert (Hg : Spec.golden_cross df latest prev = false)
      by (unfold Spec.golden_cross; by rewrite Hno).
    split; [rewrite Hmacd, Hg; discriminate |].
    unfold Spec.technical_score, base. rewrite Hg. simpl. f_equal. lia. }
  split.
  { intros Hno.
    assert (Hu : Spec.undercut df latest = false)
      by (unfold Spec.undercut; by rewrite Hno).
    split; [rewrite Hbb, Hu; discriminate |].
    unfold Spec.technical_score, base. rewrite Hu. simpl. f_equal. lia. }
  intros c Hc Hd Hm Hb.
  apply (technical_frame_lacks lib ws wl data df data' c Hf); try assumption.
  unfold technical_labels.
  destruct Hc as [-> | ->]; intros H;
    repeat (apply elem_of_cons in H as [H|H]; [discriminate H |]);
    by apply elem_of_nil in H.
Qed.

Lemma absent_column_skips_rule_witness :
  distinct_labels Flat.flat_lib 20 50 Flat.flat20 = true
  ∧ technical_frame Flat.flat_lib 20 50 Flat.flat20 = (Ok Flat.flat20_df, Flat.flat20_stored)
  ∧ valid_technical_rows Flat.flat20_df (latest_of Flat.flat20_df) (prev_of Flat.flat20_df)
    = true
  ∧ has_column Flat.flat20_df "MACD_12_26_9" = false
  ∧ ∃ score reasons,
      calculate_technical_strategy Flat.flat_lib 20 50 Flat.flat20
      = (Ok (score, reasons, Flat.flat20_df), Flat.flat20_stored)
      ∧ Msg.macd_golden ∉ reasons.
Proof.
  assert (Hf : technical_frame Flat.flat_lib 20 50 Flat.flat20
               = (Ok Flat.flat20_df, Flat.flat20_stored)) by (vm_compute; reflexivity).
  assert (Hv : valid_technical_rows Flat.flat20_df (latest_of Flat.flat20_df)
                 (prev_of Flat.flat20_df) = true) by (vm_compute; reflexivity).
  assert (Hm : has_column Flat.flat20_df "MACD_12_26_9" = false)
    by (vm_compute; reflexivity).
  assert (Hd : distinct_labels Flat.flat_lib 20 50 Flat.flat20 = true)
    by (vm_compute; reflexivity).
  split; [exact Hd |]. split; [exact Hf |]. split; [exact Hv |]. split; [exact Hm |].
  destruct (absent_column_skips_rule Flat.flat_lib 20 50 Flat.flat20
              Flat.flat20_df Flat.flat20_stored
              (latest_of Flat.flat20_df) (prev_of Flat.flat20_df) Hd Hf
              ltac:(vm_compute; reflexivity) ltac:(vm_compute; reflexivity) Hv)
    as (score & reasons & Hrun & Hmacd & _).
  exists score, reasons. split; [exact Hrun | by apply Hmacd].
Defined.

(** * Comparing [None] *)

(** With [None] for the long moving average and for RSI, as [pandas_ta]
    leaves them on a history shorter than 14 bars, the trend rule is
    skipped and the RSI rule raises. *)
Lemma technical_rules_none_rsi (df : DataFrame) (latest prev : Row) :
  latest !! "SMA_Long" = Some PyNone →
  latest !! "RSI" = Some PyNone →
  technical_rules df latest prev = Raise TypeError.
Proof.
  intros Hsma Hrsi.
  unfold technical_rules, cmp_const, cmp_labels, and_then, row_get.
  rewrite Hsma, Hrsi. reflexivity.
Qed.

(** With a NaN relative volume the volume rules are skipped, and [None]
    for the average of OBV, as on a history shorter than 20 bars, makes the
    OBV rule raise. *)
Lemma smart_money_rules_none_ema (latest : Row) (obv : cell) :
  latest !! "RVOL" = Some (F NaN) →
  latest !! "OBV" = Some obv →
  latest !! "OBV_EMA" = Some PyNone →
  smart_money_rules latest = Raise TypeError.
Proof.
  intros Hrvol Hobv Hema.
  unfold smart_money_rules, cmp_const, cmp_labels, and_then, row_get.
  rewrite Hrvol, Hobv, Hema. simpl. by destruct obv.
Qed.

(** * Claims on failures and on the frame of the caller *)

(** C1, as stated, fails. On twenty flat bars (fewer than the 50 of the
    long moving average and of the volume mean, fewer than the 26 of MACD)
    the long average is [None], RSI, RVOL and MFI are NaN at the latest
    bar, and both scorers return the base score 50 with no signal instead
    of raising. *)
Lemma data_insufficient_counterexample :
  Z.of_nat (nrows Flat.flat20) < 50
  ∧ latest_of Flat.flat20_df !! "SMA_Long" = Some PyNone
  ∧ latest_of Flat.flat20_df !! "RSI" = Some (F NaN)
  ∧ has_column Flat.flat20_df "MACD_12_26_9" = false
  ∧ calculate_technical_strategy Flat.flat_lib 20 50 Flat.flat20
    = (Ok (50, [], Flat.flat20_df), Flat.flat20_stored)
  ∧ latest_of Flat.flat20_smart !! "RVOL" = Some (F NaN)
  ∧ latest_of Flat.flat20_smart !! "MFI" = Some (F NaN)
  ∧ calculate_smart_money Flat.flat_lib Flat.flat20 = (Ok (50, []), Flat.flat20_smart).
Proof. repeat split; vm_compute; reflexivity. Qed.

(** C1, amended. There is no DataInsufficient failure. On valid bars a
    comparison that reads a missing value (NaN, [None] for the long moving
    average, an absent MACD or Bollinger column) is false, so that its rule
    is skipped and the score is that of the rules left: of the Bollinger
    rule alone when the long moving average, RSI and MACD are missing, of
    the OBV rule alone when RVOL and MFI are missing, hence the base score
    50 with no signal when that rule does not fire either. What does
    reach the caller is a Python exception: IndexError when the frame has
    fewer than two rows (technical scorer) or no row (smart-money scorer),
    TypeError when RSI (respectively the average of OBV) is [None]. *)
Theorem missing_indicators_are_skipped
    (lib : Indicators) (ws wl : Z) (data df data' sdata sdata' : DataFrame) :
  distinct_labels lib ws wl data = true →
  technical_frame lib ws wl data = (Ok df, data') →
  smart_money_frame lib sdata = (Ok (), sdata') →
  (∀ latest prev,
     iloc_neg df 1 = Ok latest → iloc_neg df 2 = Ok prev →
     valid_technical_rows df latest prev = true →
     Spec.missing (Spec.num latest "SMA_Long") →
     Spec.missing (Spec.num latest "RSI") →
     has_column df "MACD_12_26_9" = false
     ∨ Spec.missing (Spec.num latest "MACD_12_26_9")
     ∨ Spec.missing (Spec.num latest "MACDs_12_26_9") →
     calculate_technical_strategy lib ws wl data
     = (Ok (50 + 15 * Spec.ind (Spec.undercut df latest),
            if Spec.undercut df latest then [Msg.bollinger_low] else [], df), data'))
  ∧ (∀ latest,
       iloc_neg sdata' 1 = Ok latest →
       valid_smart_money_row latest = true →
       Spec.missing (Spec.num latest "RVOL") →
       Spec.missing (Spec.num latest "MFI") →
       calculate_smart_money lib sdata
       = (Ok (50 + 10 * Spec.ind (Spec.inflow latest),
              if Spec.inflow latest then [Msg.obv_above] else []), sdata'))
  ∧ ((nrows df < 2)%nat →
       calculate_technical_strategy lib ws wl data = (Raise IndexError, data'))
  ∧ (nrows sdata' = 0%nat →
       calculate_smart_money lib sdata = (Raise IndexError, sdata'))
  ∧ (∀ latest prev,
       iloc_neg df 1 = Ok latest → iloc_neg df 2 = Ok prev →
       latest !! "SMA_Long" = Some PyNone →
       latest !! "RSI" = Some PyNone →
       calculate_technical_strategy lib ws wl data = (Raise TypeError, data'))
  ∧ (∀ latest obv,
       iloc_neg sdata' 1 = Ok latest →
       latest !! "RVOL" = Some (F NaN) →
       latest !! "OBV" = Some obv →
       latest !! "OBV_EMA" = Some PyNone →
       calculate_smart_money lib sdata = (Raise TypeError, sdata')).
Proof.
  intros _ Hf Hs. split; [| split; [| split; [| split; [| split]]]].
  - intros latest prev H1 H2 Hv Hsma Hrsi Hmacd.
    rewrite (calculate_technical_strategy_valid _ _ _ _ _ _ _ _ Hf H1 H2 Hv).
    assert (Ht : Spec.trend latest = false)
      by (apply holds_gtb_missing; auto).
    assert (Hos : Spec.oversold latest = false)
      by (apply holds_ltb_missing; auto).
    assert (Hob : Spec.overbought latest = false)
      by (apply holds_gtb_missing; auto).
    assert (Hg : Spec.golden_cross df latest prev = false).
    { unfold Spec.golden_cross. destruct Hmacd as [-> | Hm]; [reflexivity |].
      rewrite holds_gtb_missing by (destruct Hm; auto).
      by rewrite andb_false_r. }
    unfold Spec.technical_score, Spec.technical_fired.
    rewrite Ht, Hos, Hob, Hg. simpl. destruct (Spec.undercut df latest); reflexivity.
  - intros latest H1 Hv Hrvol Hmfi.
    rewrite (calculate_smart_money_valid _ _ _ _ Hs H1 Hv).
    assert (Hsp : Spec.spike latest = false)
      by (apply holds_gtb_missing; auto).
    assert (Hh : Spec.overheated latest = false)
      by (apply holds_gtb_missing; auto).
    assert (Hc : Spec.cold latest = false)
      by (apply holds_ltb_missing; auto).
    unfold Spec.smart_money_score, Spec.smart_money_fired, Spec.spike_up,
      Spec.spike_down.
    rewrite Hsp, Hh, Hc. simpl. destruct (Spec.inflow latest); reflexivity.
  - by apply calculate_technical_strategy_short.
  - by apply calculate_smart_money_empty.
  - intros latest prev H1 H2 Hsma Hrsi.
    unfold calculate_technical_strategy, mbind, M_bind, lift. rewrite Hf. simpl.
    by rewrite H1, H2, (technical_rules_none_rsi df latest prev Hsma Hrsi).
  - intros latest obv H1 Hrvol Hobv Hema.
    unfold calculate_smart_money, mbind, M_bind, lift, current. rewrite Hs. simpl.
    by rewrite H1, (smart_money_rules_none_ema latest obv Hrvol Hobv Hema).
Qed.

Lemma missing_indicators_are_skipped_witness :
  distinct_labels Flat.flat_lib 20 50 Flat.flat20 = true
  ∧ technical_frame Flat.flat_lib 20 50 Flat.flat20 = (Ok Flat.flat20_df, Flat.flat20_stored)
  ∧ smart_money_frame Flat.flat_lib Flat.flat20 = (Ok (), Flat.flat20_smart)
  ∧ calculate_technical_strategy Flat.flat_lib 20 50 Flat.flat20
    = (Ok (50, [], Flat.flat20_df), Flat.flat20_stored)
  ∧ calculate_smart_money Flat.flat_lib Flat.flat20 = (Ok (50, []), Flat.flat20_smart).
Proof.
  assert (Hf : technical_frame Flat.flat_lib 20 50 Flat.flat20
               = (Ok Flat.flat20_df, Flat.flat20_stored)) by (vm_compute; reflexivity).
  assert (Hs : smart_money_frame Flat.flat_lib Flat.flat20 = (Ok (), Flat.flat20_smart))
    by (vm_compute; reflexivity).
  assert (Hd : distinct_labels Flat.flat_lib 20 50 Flat.flat20 = true)
    by (vm_compute; reflexivity).
  split; [exact Hd |]. split; [exact Hf |]. split; [exact Hs |].
  destruct (missing_indicators_are_skipped Flat.flat_lib 20 50 Flat.flat20
              Flat.flat20_df Flat.flat20_stored Flat.flat20 Flat.flat20_smart Hd Hf Hs)
    as (Ht & Hm & _).
  split.
  - rewrite (Ht (latest_of Flat.flat20_df) (prev_of Flat.flat20_df));
      try (vm_compute; reflexivity).
    + left. vm_compute. reflexivity.
    + right. vm_compute. reflexivity.
    + left. vm_compute. reflexivity.
  - rewrite (Hm (latest_of Flat.flat20_smart)); try (vm_compute; reflexivity).
    + right. vm_compute. reflexivity.
    + right. vm_compute. reflexivity.
Defined.

(** C9, as stated, fails: indicator series are stored in the frame the
    scorer was given and stay there after it returns, and a series that was
    already there under one of these labels is overwritten. *)
Lemma scorers_modify_input_counterexample :
  cols Table.rally !! "RSI" = None
  ∧ cols (calculate_technical_strategy Table.table_lib 20 50 Table.rally).2 !! "RSI"
    = Some (floats [NaN; NaN; Fin 25])
  ∧ cols Table.rally !! "RVOL" = None
  ∧ cols (calculate_smart_money Table.table_lib Table.rally).2 !! "RVOL"
    = Some (floats [NaN; NaN; Fin (400 / 200)])
  ∧ (let given := setcol Table.rally "RSI" (Some (floats [Fin 50; Fin 50; Fin 50])) in
     cols given !! "RSI" = Some (floats [Fin 50; Fin 50; Fin 50])
     ∧ cols (calculate_technical_strategy Table.table_lib 20 50 given).2 !! "RSI"
       = Some (floats [NaN; NaN; Fin 25])).
Proof. repeat split; vm_compute; reflexivity. Qed.

(** C9, amended. A scorer changes the frame it is given only under the
    labels it assigns (SMA_Short, SMA_Long and RSI for the technical scorer;
    Vol_SMA, RVOL, OBV, OBV_EMA and MFI for the smart-money scorer), whether
    it returns or raises: the number of rows and every other column, the
    OHLCV bars among them, are as before. The series it assigns are kept:
    after a successful call each of these labels is a column of the frame. *)
Theorem scorers_touch_only_their_columns
    (lib : Indicators) (ws wl : Z) (data : DataFrame) :
  let technical := calculate_technical_strategy lib ws wl data in
  let smart := calculate_smart_money lib data in
  unchanged_outside technical_labels data technical.2
  ∧ unchanged_outside smart_money_labels data smart.2
  ∧ (∀ c, c ∈ ["Open"; "High"; "Low"; "Close"; "Volume"] →
       cols technical.2 !! c = cols data !! c ∧ cols smart.2 !! c = cols data !! c)
  ∧ (∀ r, technical.1 = Ok r →
       ∀ c, c ∈ technical_labels → is_Some (cols technical.2 !! c))
  ∧ (∀ r, smart.1 = Ok r →
       ∀ c, c ∈ smart_money_labels → is_Some (cols smart.2 !! c)).
Proof.
  simpl.
  pose proof (calculate_technical_strategy_touches lib ws wl data) as Ht.
  pose proof (calculate_smart_money_touches lib data) as Hs.
  split; [exact Ht |]. split; [exact Hs |]. split.
  { intros c Hc. destruct Ht as [_ Ht], Hs as [_ Hs].
    split; [apply Ht | apply Hs]; intros Hin;
      unfold technical_labels, smart_money_labels in Hin;
      repeat (apply elem_of_cons in Hc as [->|Hc];
              [repeat (apply elem_of_cons in Hin as [Hin|Hin]; [discriminate Hin |]);
               by apply elem_of_nil in Hin |]);
      by apply elem_of_nil in Hc. }
  split.
  - intros [[score reasons] df] Hr c Hc.
    destruct (calculate_technical_strategy lib ws wl data) as [r s] eqn:E.
    simpl in *. subst r.
    apply calculate_technical_strategy_Ok_inv in E.
    destruct (cols data !! "Close") as [close|] eqn:Hclose.
    + destruct (technical_frame_eq lib ws wl data close Hclose) as (close' & _ & Heq).
      simpl in Heq. rewrite Heq in E. injection E as _ <-.
      by apply technical_stored_labels.
    + rewrite (technical_frame_missing_close lib ws wl data Hclose) in E. discriminate.
  - intros r Hr c Hc.
    destruct (calculate_smart_money lib data) as [r' s] eqn:E.
    simpl in *. subst r'.
    apply calculate_smart_money_Ok_inv in E.
    destruct (smart_money_frame_ok _ _ _ E)
      as (volume & close & high & low & rvol & _ & _ & _ & _ & _ & ->).
    by apply smart_money_stored_labels.
Qed.

Lemma scorers_touch_only_their_columns_witness :
  cols (calculate_technical_strategy Table.table_lib 20 50 Table.rally).2 !! "Close"
  = cols Table.rally !! "Close"
  ∧ is_Some (cols (calculate_smart_money Table.table_lib Table.rally).2 !! "OBV").
Proof.
  destruct (scorers_touch_only_their_columns Table.table_lib 20 50 Table.rally)
    as (_ & _ & Hbars & _ & Hkept).
  split.
  - apply (Hbars "Close"). repeat constructor.
  - apply (Hkept (65, [Msg.volume_up; Msg.obv_above; Msg.mfi_hot])).
    + vm_compute. reflexivity.
    + unfold smart_money_labels. repeat constructor.
Defined.

(** * The composite score and the recommendation *)

Lemma rbind_Ok_inv {A B} (r : result A) (k : A → result B) (b : B) :
  r ≫= k = Ok b → ∃ a, r = Ok a ∧ k a = Ok b.
Proof.
  unfold mbind, result_bind, rbind. destruct r as [a|e]; [eauto | discriminate].
Qed.

Lemma clamped_bind {A} (r : result A) (k : A → result (Z * list string)) :
  (∀ a, clamped (k a)) → clamped (r ≫= k).
Proof.
  intros Hk score signals H. apply rbind_Ok_inv in H as (a & _ & H).
  by eapply Hk.
Qed.

Lemma clamped_Ok (z : Z) (signals : list string) : clamped (Ok (clamp z, signals)).
Proof. intros score l [= <- _]. apply clamp_bounds. Qed.

Lemma technical_rules_clamped (df : DataFrame) (latest prev : Row) :
  clamped (technical_rules df latest prev).
Proof.
  unfold technical_rules.
  repeat (apply clamped_bind; intros ?). apply clamped_Ok.
Qed.

Lemma smart_money_rules_clamped (latest : Row) : clamped (smart_money_rules latest).
Proof.
  unfold smart_money_rules.
  repeat (apply clamped_bind; intros ?). apply clamped_Ok.
Qed.

Lemma calculate_technical_strategy_bounds
    (lib : Indicators) (ws wl : Z) (data data' df : DataFrame)
    (score : Z) (reasons : list string) :
  calculate_technical_strategy lib ws wl data = (Ok (score, reasons, df), data') →
  0 ≤ score ≤ 100.
Proof.
  unfold calculate_technical_strategy. intros H.
  apply bind_Ok_inv in H as (df' & s & Hf & H).
  apply bind_Ok_inv in H as (latest & s1 & H1 & H). apply lift_Ok_inv in H1 as [_ ->].
  apply bind_Ok_inv in H as (prev & s2 & H2 & H). apply lift_Ok_inv in H2 as [_ ->].
  apply bind_Ok_inv in H as ([sc rs] & s3 & H3 & H). apply lift_Ok_inv in H3 as [H3 ->].
  injection H as -> _ _ _. by eapply technical_rules_clamped.
Qed.

Lemma calculate_smart_money_bounds
    (lib : Indicators) (data data' : DataFrame) (score : Z) (signals : list string) :
  calculate_smart_money lib data = (Ok (score, signals), data') →
  0 ≤ score ≤ 100.
Proof.
  unfold calculate_smart_money. intros H.
  apply bind_Ok_inv in H as ([] & s & Hf & H).
  apply bind_Ok_inv in H as (df & s1 & H1 & H). apply current_Ok_inv in H1 as [-> ->].
  apply bind_Ok_inv in H as (latest & s2 & H2 & H). apply lift_Ok_inv in H2 as [_ ->].
  apply lift_Ok_inv in H as [H _]. by eapply smart_money_rules_clamped.
Qed.

(** What a report is made of. *)
Lemma analysis_Ok_inv (lib : Indicators) (ws wl : Z) (data : DataFrame)
    (news : list (gmap string string)) (rep : Report) :
  analysis lib ws wl data news = Ok rep →
  ∃ tech_score tech_reasons df stored sm_score sm_signals df' price,
    calculate_technical_strategy lib ws wl data
    = (Ok (tech_score, tech_reasons, df), stored)
    ∧ calculate_smart_money lib df = (Ok (sm_score, sm_signals), df')
    ∧ r_total rep = total_score tech_score sm_score (analyze_sentiment lib news).1
    ∧ r_tier rep = recommendation (r_total rep)
    ∧ r_rationale rep = tech_reasons ++ sm_signals
    ∧ r_price rep = F price
    ∧ r_entry rep = buy_zone (r_total rep) price
    ∧ recent_high df' = Ok (r_resistance rep)
    ∧ recent_low df' = Ok (r_support rep).
Proof.
  unfold analysis. intros H.
  destruct (calculate_technical_strategy lib ws wl data)
    as [[[[ts tr] df]|e] stored] eqn:Ht; simpl in H; [| discriminate].
  destruct (calculate_smart_money lib df) as [[[ss sg]|e] df'] eqn:Hs;
    simpl in H; [| discriminate].
  destruct (analyze_sentiment lib news) as [sent an] eqn:Hsent.
  repeat (apply rbind_Ok_inv in H as (? & ? & H)).
  injection H as <-. simpl.
  match goal with
  | Hp : match ?c with F _ => _ | PyNone => _ end = Ok ?p |- _ =>
      destruct c as [price|]; [injection Hp as -> | discriminate Hp]
  end.
  exists ts, tr, df, stored, ss, sg, df'. eexists.
  repeat split; try eassumption.
Qed.

(** C2. The composite score is
    technicalScore * 0.5 + smartMoneyScore * 0.3 + (sentimentScore + 50) * 0.2
    and nothing clamps it afterwards: for scores in [0, 100] and a sentiment
    in [-100, 100] it ranges over [-10, 110], with 110 at (100, 100, 100) and
    -10 at (0, 0, -100); the composite of a report is this value for the
    scores the two scorers returned, which do lie in [0, 100]. *)
Theorem composite_score_range (tech_score sm_score : Z) (sent_score : Q) :
  0 ≤ tech_score ≤ 100 →
  0 ≤ sm_score ≤ 100 →
  (-100 <= sent_score <= 100)%Q →
  (total_score tech_score sm_score sent_score
   == inject_Z tech_score * 0.5 + inject_Z sm_score * 0.3 + (sent_score + 50) * 0.2)%Q
  ∧ (-10 <= total_score tech_score sm_score sent_score <= 110)%Q
  ∧ (total_score 100 100 100 == 110)%Q
  ∧ (total_score 0 0 (-100) == -10)%Q
  ∧ (∀ lib ws wl data news rep,
       distinct_labels lib ws wl data = true →
       analysis lib ws wl data news = Ok rep →
       ∃ tech sm : Z,
         0 ≤ tech ≤ 100 ∧ 0 ≤ sm ≤ 100
         ∧ r_total rep = total_score tech sm (analyze_sentiment lib news).1
         ∧ r_tier rep = recommendation (r_total rep)).
Proof.
  intros [Ht0 Ht1] [Hs0 Hs1] [Hn0 Hn1].
  split; [reflexivity |].
  split.
  { unfold total_score.
    assert (0 <= inject_Z tech_score <= 100)%Q.
    { split; [change 0%Q with (inject_Z 0) | change 100%Q with (inject_Z 100)];
        rewrite <- Zle_Qle; lia. }
    assert (0 <= inject_Z sm_score <= 100)%Q.
    { split; [change 0%Q with (inject_Z 0) | change 100%Q with (inject_Z 100)];
        rewrite <- Zle_Qle; lia. }
    split; lra. }
  split; [reflexivity |]. split; [reflexivity |].
  intros lib ws wl data news rep _ H.
  destruct (analysis_Ok_inv _ _ _ _ _ _ H)
    as (ts & tr & df & stored & ss & sg & df' & price & Ht & Hs & Htot & Htier & _).
  exists ts, ss.
  split; [by eapply calculate_technical_strategy_bounds |].
  split; [by eapply calculate_smart_money_bounds |].
  split; assumption.
Qed.

Lemma composite_score_range_witness :
  (0 ≤ 80 ≤ 100 ∧ 0 ≤ 60 ≤ 100 ∧ (-100 <= 50 <= 100)%Q)
  ∧ (-10 <= total_score 80 60 50 <= 110)%Q
  ∧ (total_score 80 60 50 == 78)%Q.
Proof.
  assert (H1 : 0 ≤ 80 ≤ 100) by lia.
  assert (H2 : 0 ≤ 60 ≤ 100) by lia.
  assert (H3 : (-100 <= 50 <= 100)%Q) by (split; discriminate).
  split; [auto |].
  destruct (composite_score_range 80 60 50 H1 H2 H3) as (_ & Hrange & _).
  split; [exact Hrange | reflexivity].
Defined.

(** * The recommendation *)

Lemma Qle_bool_false (a b : Q) : Qle_bool a b = false ↔ (b < a)%Q.
Proof.
  split.
  - intros H. destruct (Qlt_le_dec b a) as [|Hle]; [assumption |].
    apply Qle_bool_iff in Hle. congruence.
  - intros H. apply not_true_is_false. intros Hle. apply Qle_bool_iff in Hle. lra.
Qed.

Lemma recommendation_strong_buy (c : Q) :
  recommendation c = StrongBuy ↔ (70 <= c)%Q.
Proof.
  unfold recommendation. destruct (Qle_bool 70 c) eqn:H70.
  - apply Qle_bool_iff in H70. tauto.
  - apply Qle_bool_false in H70.
    destruct (Qle_bool 50 c); (split; [discriminate | intros; exfalso; lra]).
Qed.

Lemma recommendation_neutral (c : Q) :
  recommendation c = Neutral ↔ (50 <= c)%Q ∧ (c < 70)%Q.
Proof.
  unfold recommendation. destruct (Qle_bool 70 c) eqn:H70.
  - apply Qle_bool_iff in H70. split; [discriminate | intros [_ ?]; exfalso; lra].
  - apply Qle_bool_false in H70. destruct (Qle_bool 50 c) eqn:H50.
    + apply Qle_bool_iff in H50. tauto.
    + apply Qle_bool_false in H50. split; [discriminate | intros [? _]; exfalso; lra].
Qed.

Lemma recommendation_avoid (c : Q) :
  recommendation c = Avoid ↔ (c < 50)%Q.
Proof.
  unfold recommendation. destruct (Qle_bool 70 c) eqn:H70.
  - apply Qle_bool_iff in H70. split; [discriminate | intros; exfalso; lra].
  - destruct (Qle_bool 50 c) eqn:H50.
    + apply Qle_bool_iff in H50. split; [discriminate | intros; exfalso; lra].
    + apply Qle_bool_false in H50. tauto.
Qed.

Lemma buy_zone_some (c : Q) (price : pyfloat) :
  (60 <= c)%Q → buy_zone c price = Some (PyFloat.mul price (Fin 0.98)).
Proof. intros H. unfold buy_zone. apply Qle_bool_iff in H. by rewrite H. Qed.

Lemma buy_zone_none (c : Q) (price : pyfloat) :
  (c < 60)%Q → buy_zone c price = None.
Proof. intros H. unfold buy_zone. apply Qle_bool_false in H. by rewrite H. Qed.

(** C3. The tier is StrongBuy iff the composite is at least 70, Neutral iff
    it is in [50, 70), Avoid iff it is below 50; an entry price is suggested
    iff the composite is at least 60, and it is then the current price times
    0.98; the rationale is the technical signals followed by the smart-money
    signals. A report carries exactly these for the scores, the signals and
    the latest close of its run. *)
Theorem recommendation_thresholds
    (c : Q) (current_price : pyfloat) (tech_reasons sm_signals : list string) :
  (recommendation c = StrongBuy ↔ (70 <= c)%Q)
  ∧ (recommendation c = Neutral ↔ (50 <= c)%Q ∧ (c < 70)%Q)
  ∧ (recommendation c = Avoid ↔ (c < 50)%Q)
  ∧ (is_Some (buy_zone c current_price) ↔ (60 <= c)%Q)
  ∧ ((60 <= c)%Q → buy_zone c current_price = Some (PyFloat.mul current_price (Fin 0.98)))
  ∧ (∀ p : Q, (60 <= c)%Q → buy_zone c (Fin p) = Some (Fin (p * 0.98)))
  ∧ ((c < 60)%Q → buy_zone c current_price = None)
  ∧ rationale tech_reasons sm_signals = tech_reasons ++ sm_signals
  ∧ (∀ lib ws wl data news rep,
       distinct_labels lib ws wl data = true →
       analysis lib ws wl data news = Ok rep →
       ∃ tech_score reasons df stored sm_score signals df' price,
         calculate_technical_strategy lib ws wl data
         = (Ok (tech_score, reasons, df), stored)
         ∧ calculate_smart_money lib df = (Ok (sm_score, signals), df')
         ∧ r_tier rep = recommendation (r_total rep)
         ∧ r_rationale rep = reasons ++ signals
         ∧ r_price rep = F price
         ∧ r_entry rep = buy_zone (r_total rep) price).
Proof.
  split; [apply recommendation_strong_buy |].
  split; [apply recommendation_neutral |].
  split; [apply recommendation_avoid |].
  split.
  { destruct (Qlt_le_dec c 60) as [Hlt|Hge].
    - rewrite (buy_zone_none _ _ Hlt). split; [intros [? ?]; discriminate | lra].
    - rewrite (buy_zone_some _ _ Hge). split; [auto | eauto]. }
  split; [apply buy_zone_some |].
  split; [intros p Hge; by rewrite (buy_zone_some _ _ Hge) |].
  split; [apply buy_zone_none |].
  split; [reflexivity |].
  intros lib ws wl data news rep _ H.
  destruct (analysis_Ok_inv _ _ _ _ _ _ H)
    as (ts & tr & df & stored & ss & sg & df' & price
        & Ht & Hs & _ & Htier & Hrat & Hprice & Hentry & _).
  exists ts, tr, df, stored, ss, sg, df', price. auto 10.
Qed.

Lemma recommendation_thresholds_witness :
  recommendation (total_score 80 60 50) = StrongBuy
  ∧ buy_zone (total_score 80 60 50) (Fin 100) = Some (Fin (100 * 0.98))
  ∧ recommendation (total_score 40 40 (-50)) = Avoid
  ∧ buy_zone (total_score 40 40 (-50)) (Fin 100) = None.
Proof.
  destruct (recommendation_thresholds (total_score 80 60 50) (Fin 100) [] [])
    as (Hstrong & _ & _ & _ & _ & Hentry & _).
  destruct (recommendation_thresholds (total_score 40 40 (-50)) (Fin 100) [] [])
    as (_ & _ & Havoid & _ & _ & _ & Hnone & _).
  split; [apply Hstrong; by vm_compute |].
  split; [apply Hentry; by vm_compute |].
  split; [apply Havoid; by vm_compute |].
  apply Hnone; by vm_compute.
Defined.

(** * The sentiment score *)

Lemma foldl_sentiment_step (lib : Indicators) (news : list (gmap string string))
    (acc : Q * list analyzed) :
  ((foldl (sentiment_step lib) acc news).1
   == acc.1 + Spec.Qsum (Spec.headline_polarity lib <$> news))%Q
  ∧ length (foldl (sentiment_step lib) acc news).2 = (length acc.2 + length news)%nat.
Proof.
  revert acc. induction news as [|n news IH]; intros acc; simpl.
  - split; [lra | lia].
  - destruct (IH (sentiment_step lib acc n)) as [IH1 IH2]. split.
    + rewrite IH1. unfold sentiment_step, Spec.headline_polarity. simpl.
      rewrite <- Qplus_assoc. reflexivity.
    + rewrite IH2. unfold sentiment_step. simpl. rewrite length_app. simpl. lia.
Qed.

Lemma Qsum_bounds (ps : list Q) :
  Forall (λ p, (-1 <= p <= 1)%Q) ps →
  (- inject_Z (Z.of_nat (length ps)) <= Spec.Qsum ps <= inject_Z (Z.of_nat (length ps)))%Q.
Proof.
  induction 1 as [|p ps [Hlo Hhi] _ IH].
  - split; discriminate.
  - change (length (p :: ps)) with (S (length ps)).
    rewrite Nat2Z.inj_succ, <- Z.add_1_r, inject_Z_plus.
    change (inject_Z 1) with 1%Q.
    change (Spec.Qsum (p :: ps)) with (p + Spec.Qsum ps)%Q. lra.
Qed.

Lemma Qsum_Forall2 (ps qs : list Q) :
  Forall2 Qeq ps qs → (Spec.Qsum ps == Spec.Qsum qs)%Q.
Proof.
  induction 1 as [|p q ps qs Hpq _ IH]; simpl; [reflexivity |].
  rewrite Hpq, IH. reflexivity.
Qed.

(** The score of a list of news that is not empty. *)
Lemma analyze_sentiment_nonempty (lib : Indicators) (news_list : list (gmap string string)) :
  news_list ≠ [] →
  let ps := Spec.headline_polarity lib <$> take 5 news_list in
  ((analyze_sentiment lib news_list).1 == Spec.scaled_mean ps)%Q
  ∧ length (analyze_sentiment lib news_list).2 = length ps
  ∧ length ps = Nat.min 5 (length news_list)
  ∧ (0 < length ps)%nat.
Proof.
  intros Hne. simpl.
  assert (Hlen : length (take 5 news_list) = Nat.min 5 (length news_list))
    by apply length_take.
  assert (Hpos : (0 < length (take 5 news_list))%nat).
  { rewrite Hlen. destruct news_list; [congruence | simpl; lia]. }
  unfold analyze_sentiment. destruct news_list as [|n rest]; [congruence |].
  set (l := take 5 (n :: rest)) in *.
  destruct (foldl (sentiment_step lib) (0%Q, []) l) as [total items] eqn:E.
  destruct (foldl_sentiment_step lib l (0%Q, [])) as [H1 H2].
  rewrite E in H1, H2. cbn [fst snd length] in H1, H2.
  destruct (length l =? 0)%nat eqn:E0.
  { apply Nat.eqb_eq in E0. lia. }
  cbn [fst snd]. rewrite length_fmap.
  split; [| split; [exact H2 | split; [exact Hlen | exact Hpos]]].
  unfold Spec.scaled_mean. rewrite length_fmap, H1. field.
  intros Hz. revert Hz.
  change 0%Q with (inject_Z 0). rewrite inject_Z_injective. lia.
Qed.

Lemma scaled_mean_bounds (ps : list Q) :
  (0 < length ps)%nat →
  Forall (λ p, (-1 <= p <= 1)%Q) ps →
  (-100 <= Spec.scaled_mean ps <= 100)%Q.
Proof.
  intros Hpos Hps. pose proof (Qsum_bounds ps Hps) as [Hlo Hhi].
  unfold Spec.scaled_mean.
  set (n := inject_Z (Z.of_nat (length ps))) in *.
  assert (Hn : (0 < n)%Q).
  { unfold n. change 0%Q with (inject_Z 0). rewrite <- Zlt_Qlt. lia. }
  assert (Hq : (-1 <= Spec.Qsum ps / n <= 1)%Q).
  { split.
    - apply Qle_shift_div_l; [exact Hn | lra].
    - apply Qle_shift_div_r; [exact Hn | lra]. }
  lra.
Qed.

(** C7. On an empty list of headlines the sentiment score is exactly 0 and
    nothing fails. On a list that is not empty it is the arithmetic mean of
    the polarities of the first headlines, five at most, times 100; with
    polarities in [-1, 1] it lies in [-100, 100]; polarities 0.4, -0.2 and
    0.0 give 20/3, that is 6.67 to two decimals. *)
Theorem sentiment_is_scaled_mean
    (lib : Indicators) (news_list : list (gmap string string)) :
  (∀ title, (-1 <= polarity lib title <= 1)%Q) →
  let ps := Spec.headline_polarity lib <$> take 5 news_list in
  let score := (analyze_sentiment lib news_list).1 in
  analyze_sentiment lib [] = (0%Q, [])
  ∧ (news_list ≠ [] →
       (score == Spec.Qsum ps / inject_Z (Z.of_nat (length ps)) * 100)%Q
       ∧ length ps = Nat.min 5 (length news_list)
       ∧ length (analyze_sentiment lib news_list).2 = length ps)
  ∧ (-100 <= score <= 100)%Q
  ∧ (Forall2 Qeq ps [0.4; -0.2; 0]%Q →
       (score == 20 / 3)%Q ∧ (6.665 <= score)%Q ∧ (score < 6.675)%Q).
Proof.
  intros Hpol ps score.
  split; [reflexivity |].
  assert (Hps : Forall (λ p, (-1 <= p <= 1)%Q) ps).
  { unfold ps. apply Forall_fmap, Forall_forall. intros n _. apply Hpol. }
  split.
  { intros Hne.
    destruct (analyze_sentiment_nonempty lib news_list Hne) as (H1 & H2 & H3 & _).
    split; [exact H1 |]. split; [exact H3 | exact H2]. }
  split.
  { destruct news_list as [|n rest] eqn:E.
    - unfold score. simpl. split; discriminate.
    - assert (Hne : n :: rest ≠ []) by discriminate.
      destruct (analyze_sentiment_nonempty lib (n :: rest) Hne) as (H1 & _ & _ & Hpos).
      unfold score. rewrite H1. by apply scaled_mean_bounds. }
  intros Hex.
  assert (Hne : news_list ≠ []).
  { intros ->. unfold ps in Hex. simpl in Hex. inversion Hex. }
  destruct (analyze_sentiment_nonempty lib news_list Hne) as (H1 & _ & _ & _).
  assert (Hscore : (score == 20 / 3)%Q).
  { unfold score. rewrite H1. fold ps. unfold Spec.scaled_mean.
    rewrite (Qsum_Forall2 _ _ Hex), (Forall2_length _ _ _ Hex). reflexivity. }
  split; [exact Hscore |]. rewrite Hscore. split; [discriminate | reflexivity].
Qed.

Lemma sentiment_is_scaled_mean_witness :
  (∀ title, (-1 <= polarity Table.table_lib title <= 1)%Q)
  ∧ ((analyze_sentiment Table.table_lib Table.headlines).1 == 20 / 3)%Q
  ∧ (-100 <= (analyze_sentiment Table.table_lib Table.headlines).1 <= 100)%Q.
Proof.
  assert (Hpol : ∀ title, (-1 <= polarity Table.table_lib title <= 1)%Q).
  { intros title. simpl.
    destruct (String.eqb title "beats"); [split; discriminate |].
    destruct (String.eqb title "misses"); split; discriminate. }
  split; [exact Hpol |].
  destruct (sentiment_is_scaled_mean Table.table_lib Table.headlines Hpol)
    as (_ & _ & Hrange & Hex).
  split; [| exact Hrange].
  apply Hex. repeat constructor.
Defined.

(** * Support and resistance *)

Lemma valid_finite (xs : list Q) : valid (floats (Fin <$> xs)) = Fin <$> xs.
Proof.
  induction xs as [|x xs IH]; [reflexivity |].
  unfold valid, floats in *. simpl. f_equal. exact IH.
Qed.

Lemma tail_finite (n : nat) (xs : list Q) :
  tail n (floats (Fin <$> xs)) = floats (Fin <$> Spec.window n xs).
Proof.
  unfold tail, Spec.window, floats. by rewrite !length_fmap, !fmap_drop.
Qed.

(** The left fold of [fmax] over finite values ends on a greatest one. *)
Lemma foldl_fmax_finite (xs : list Q) (a : Q) :
  ∃ m, foldl fmax (Fin a) (Fin <$> xs) = Fin m
       ∧ m ∈ a :: xs ∧ ∀ x, x ∈ a :: xs → (x <= m)%Q.
Proof.
  revert a. induction xs as [|b xs IH]; intros a; simpl.
  - exists a. split; [reflexivity |]. split; [left |].
    intros x Hx. apply list_elem_of_singleton in Hx as ->. lra.
  - unfold fmax at 2. destruct (PyFloat.ltb (Fin a) (Fin b)) eqn:E.
    + apply ltb_Fin in E. destruct (IH b) as (m & Hm & Hin & Hmax).
      exists m. split; [exact Hm |]. split; [by right |].
      intros x Hx. apply elem_of_cons in Hx as [-> | Hx]; [| by apply Hmax].
      specialize (Hmax b ltac:(left)). lra.
    + assert (Hba : (b <= a)%Q).
      { destruct (Qlt_le_dec a b) as [Hlt|]; [| assumption].
        apply ltb_Fin in Hlt. congruence. }
      destruct (IH a) as (m & Hm & Hin & Hmax).
      exists m. split; [exact Hm |]. split.
      * apply elem_of_cons in Hin as [-> | Hin]; [left | right; by right].
      * intros x Hx. apply elem_of_cons in Hx as [-> | Hx]; [apply Hmax; left |].
        apply elem_of_cons in Hx as [-> | Hx].
        -- specialize (Hmax a ltac:(left)). lra.
        -- apply Hmax. by right.
Qed.

Lemma foldl_fmin_finite (xs : list Q) (a : Q) :
  ∃ m, foldl fmin (Fin a) (Fin <$> xs) = Fin m
       ∧ m ∈ a :: xs ∧ ∀ x, x ∈ a :: xs → (m <= x)%Q.
Proof.
  revert a. induction xs as [|b xs IH]; intros a; simpl.
  - exists a. split; [reflexivity |]. split; [left |].
    intros x Hx. apply list_elem_of_singleton in Hx as ->. lra.
  - unfold fmin at 2. destruct (PyFloat.ltb (Fin b) (Fin a)) eqn:E.
    + apply ltb_Fin in E. destruct (IH b) as (m & Hm & Hin & Hmin).
      exists m. split; [exact Hm |]. split; [by right |].
      intros x Hx. apply elem_of_cons in Hx as [-> | Hx]; [| by apply Hmin].
      specialize (Hmin b ltac:(left)). lra.
    + assert (Hab : (a <= b)%Q).
      { destruct (Qlt_le_dec b a) as [Hlt|]; [| assumption].
        apply ltb_Fin in Hlt. congruence. }
      destruct (IH a) as (m & Hm & Hin & Hmin).
      exists m. split; [exact Hm |]. split.
      * apply elem_of_cons in Hin as [-> | Hin]; [left | right; by right].
      * intros x Hx. apply elem_of_cons in Hx as [-> | Hx]; [apply Hmin; left |].
        apply elem_of_cons in Hx as [-> | Hx].
        -- specialize (Hmin a ltac:(left)). lra.
        -- apply Hmin. by right.
Qed.

Lemma window_length {A} (n : nat) (xs : list A) :
  length (Spec.window n xs) = Nat.min n (length xs).
Proof. unfold Spec.window. rewrite length_drop. lia. Qed.

Lemma window_all {A} (n : nat) (xs : list A) :
  (length xs ≤ n)%nat → Spec.window n xs = xs.
Proof.
  intros H. unfold Spec.window. replace (length xs - n)%nat with 0%nat by lia.
  reflexivity.
Qed.

Lemma window_nonempty {A} (n : nat) (xs : list A) :
  (0 < n)%nat → xs ≠ [] → Spec.window n xs ≠ [].
Proof.
  intros Hn Hxs Hw. apply (f_equal length) in Hw. rewrite window_length in Hw.
  destruct xs; [congruence | simpl in Hw; lia].
Qed.

Lemma series_max_finite (xs : list Q) :
  xs ≠ [] →
  ∃ m, series_max (floats (Fin <$> xs)) = Fin m ∧ m ∈ xs ∧ ∀ x, x ∈ xs → (x <= m)%Q.
Proof.
  intros Hne. unfold series_max. rewrite valid_finite.
  destruct xs as [|a xs]; [congruence |]. simpl. apply foldl_fmax_finite.
Qed.

Lemma series_min_finite (xs : list Q) :
  xs ≠ [] →
  ∃ m, series_min (floats (Fin <$> xs)) = Fin m ∧ m ∈ xs ∧ ∀ x, x ∈ xs → (m <= x)%Q.
Proof.
  intros Hne. unfold series_min. rewrite valid_finite.
  destruct xs as [|a xs]; [congruence |]. simpl. apply foldl_fmin_finite.
Qed.

(** C8. For a series of bars that is not empty, with finite highs and lows,
    the resistance is the greatest high and the support the least low of
    the window of the last min(20, length) bars; with fewer than 20 bars
    the window is the whole series and nothing fails; highs
    [10, 12, 9, 15, 11] and lows [8, 9, 7, 10, 9] give 15 and 7. *)
Theorem levels_are_window_extrema (data : DataFrame) (highs lows : list Q) :
  cols data !! "High" = Some (floats (Fin <$> highs)) →
  cols data !! "Low" = Some (floats (Fin <$> lows)) →
  highs ≠ [] →
  lows ≠ [] →
  let window_highs := Spec.window 20 highs in
  let window_lows := Spec.window 20 lows in
  length window_highs = Nat.min 20 (length highs)
  ∧ length window_lows = Nat.min 20 (length lows)
  ∧ ((length highs ≤ 20)%nat → window_highs = highs)
  ∧ ((length lows ≤ 20)%nat → window_lows = lows)
  ∧ (∃ resistance support,
       recent_high data = Ok (Fin resistance)
       ∧ recent_low data = Ok (Fin support)
       ∧ resistance ∈ window_highs
       ∧ (∀ x, x ∈ window_highs → (x <= resistance)%Q)
       ∧ support ∈ window_lows
       ∧ (∀ x, x ∈ window_lows → (support <= x)%Q))
  ∧ (highs = [10; 12; 9; 15; 11]%Q → lows = [8; 9; 7; 10; 9]%Q →
       recent_high data = Ok (Fin 15) ∧ recent_low data = Ok (Fin 7)).
Proof.
  intros Hh Hl Hhne Hlne. cbv zeta.
  split; [apply window_length |]. split; [apply window_length |].
  split; [apply window_all |]. split; [apply window_all |].
  assert (Hrh : recent_high data = Ok (series_max (floats (Fin <$> Spec.window 20 highs)))).
  { unfold recent_high, getcol. rewrite Hh. simpl. by rewrite tail_finite. }
  assert (Hrl : recent_low data = Ok (series_min (floats (Fin <$> Spec.window 20 lows)))).
  { unfold recent_low, getcol. rewrite Hl. simpl. by rewrite tail_finite. }
  split.
  - destruct (series_max_finite (Spec.window 20 highs)) as (r & Hr & Hrin & Hrmax).
    { apply window_nonempty; [lia | exact Hhne]. }
    destruct (series_min_finite (Spec.window 20 lows)) as (s & Hs & Hsin & Hsmin).
    { apply window_nonempty; [lia | exact Hlne]. }
    exists r, s. rewrite Hrh, Hrl, Hr, Hs. auto 10.
  - intros -> ->. rewrite Hrh, Hrl. split; reflexivity.
Qed.

Lemma levels_are_window_extrema_witness :
  let data := bars [9; 11; 8; 12; 10]%Q [10; 12; 9; 15; 11]%Q [8; 9; 7; 10; 9]%Q
                   [9; 11; 9; 14; 10]%Q [100; 100; 100; 100; 100]%Q in
  cols data !! "High" = Some (floats (Fin <$> [10; 12; 9; 15; 11]%Q))
  ∧ cols data !! "Low" = Some (floats (Fin <$> [8; 9; 7; 10; 9]%Q))
  ∧ recent_high data = Ok (Fin 15)
  ∧ recent_low data = Ok (Fin 7).
Proof.
  intros data.
  assert (Hh : cols data !! "High" = Some (floats (Fin <$> [10; 12; 9; 15; 11]%Q)))
    by (vm_compute; reflexivity).
  assert (Hl : cols data !! "Low" = Some (floats (Fin <$> [8; 9; 7; 10; 9]%Q)))
    by (vm_compute; reflexivity).
  split; [exact Hh |]. split; [exact Hl |].
  destruct (levels_are_window_extrema data _ _ Hh Hl ltac:(discriminate) ltac:(discriminate))
    as (_ & _ & _ & _ & _ & Hex).
  by apply Hex.
Defined.

(** * Whatever the rules return

    The facts of this part hold for every result of the rules, also on rows
    that are not valid: they follow the binds of the rules and leave the
    comparisons aside. *)

(** Inversion of a successful run of rules, down to the tests made. *)
Ltac rules_inv :=
  repeat match goal with
         | H : (if ?b then _ else _) = Ok _ |- _ => destruct b
         | H : Ok _ = Ok _ |- _ => injection H as <-
         | H : _ ≫= _ = Ok _ |- _ =>
             let a := fresh "a" in
             let Ha := fresh "Ha" in
             apply rbind_Ok_inv in H as (a & Ha & H)
         | H : and_then _ _ = Ok _ |- _ => clear H
         | H : cmp_const _ _ _ _ = Ok _ |- _ => clear H
         | H : cmp_labels _ _ _ _ = Ok _ |- _ => clear H
         | H : row_get _ _ = Ok _ |- _ => clear H
         | H : cell_gt _ _ = Ok _ |- _ => clear H
         | H : cell_le _ _ = Ok _ |- _ => clear H
         end.

Ltac closed_fact :=
  first [ reflexivity
        | by (vm_compute; intuition discriminate)
        | by (apply bool_decide_unpack; vm_compute) ].

Lemma technical_rules_shape (df : DataFrame) (latest prev : Row)
    (score : Z) (reasons : list string) :
  technical_rules df latest prev = Ok (score, reasons) →
  score = Z.min 100 (50 + Audit.explained Audit.technical_table reasons)
  ∧ 30 ≤ score ≤ 100
  ∧ score `mod` 5 = 0
  ∧ Audit.in_table_order Audit.technical_table reasons
  ∧ (length reasons ≤ 4)%nat
  ∧ ¬ (Msg.rsi_oversold ∈ reasons ∧ Msg.rsi_overbought ∈ reasons).
Proof.
  unfold technical_rules. intros H. rules_inv.
  all: subst reasons.
  all: repeat match goal with
              | |- context [if ?b then _ else _] => is_var b; destruct b
              end.
  all: cbn [fire fst snd app].
  all: repeat split; try closed_fact.
  all: try (vm_compute; lia).
  all: intros [H1 H2];
    repeat (apply elem_of_cons in H1 as [H1|H1]; [try discriminate H1 |]);
    try (by apply elem_of_nil in H1);
    repeat (apply elem_of_cons in H2 as [H2|H2]; [try discriminate H2 |]);
    by apply elem_of_nil in H2.
Qed.

Ltac not_both :=
  intros [H1 H2];
  repeat (apply elem_of_cons in H1 as [H1|H1]; [try discriminate H1 |]);
  try (by apply elem_of_nil in H1);
  repeat (apply elem_of_cons in H2 as [H2|H2]; [try discriminate H2 |]);
  by apply elem_of_nil in H2.

Lemma smart_money_rules_shape (latest : Row) (score : Z) (signals : list string) :
  smart_money_rules latest = Ok (score, signals) →
  score = 50 + Audit.explained Audit.smart_money_table signals
  ∧ 25 ≤ score ≤ 85
  ∧ score `mod` 5 = 0
  ∧ Audit.in_table_order Audit.smart_money_table signals
  ∧ (length signals ≤ 3)%nat
  ∧ ¬ (Msg.volume_up ∈ signals ∧ Msg.volume_down ∈ signals)
  ∧ ¬ (Msg.mfi_hot ∈ signals ∧ Msg.mfi_cold ∈ signals).
Proof.
  unfold smart_money_rules. intros H. rules_inv.
  all: subst signals.
  all: repeat match goal with
              | |- context [if ?b then _ else _] => is_var b; destruct b
              end.
  all: cbn [fire fst snd app].
  all: repeat split; try closed_fact.
  all: try (vm_compute; lia).
  all: not_both.
Qed.

(** A scorer that returned ran its rules on the last rows of its frame. *)
Lemma calculate_technical_strategy_rules
    (lib : Indicators) (ws wl : Z) (data data' df : DataFrame)
    (score : Z) (reasons : list string) :
  calculate_technical_strategy lib ws wl data = (Ok (score, reasons, df), data') →
  ∃ latest prev,
    iloc_neg df 1 = Ok latest ∧ iloc_neg df 2 = Ok prev
    ∧ technical_rules df latest prev = Ok (score, reasons).
Proof.
  unfold calculate_technical_strategy. intros H.
  apply bind_Ok_inv in H as (df' & s & Hf & H).
  apply bind_Ok_inv in H as (latest & s1 & H1 & H). apply lift_Ok_inv in H1 as [H1 ->].
  apply bind_Ok_inv in H as (prev & s2 & H2 & H). apply lift_Ok_inv in H2 as [H2 ->].
  apply bind_Ok_inv in H as ([sc rs] & s3 & H3 & H). apply lift_Ok_inv in H3 as [H3 ->].
  injection H as -> -> -> _. eauto.
Qed.

Lemma calculate_smart_money_rules
    (lib : Indicators) (data data' : DataFrame) (score : Z) (signals : list string) :
  calculate_smart_money lib data = (Ok (score, signals), data') →
  ∃ latest, iloc_neg data' 1 = Ok latest ∧ smart_money_rules latest = Ok (score, signals).
Proof.
  unfold calculate_smart_money. intros H.
  apply bind_Ok_inv in H as ([] & s & Hf & H).
  apply bind_Ok_inv in H as (df & s1 & H1 & H). apply current_Ok_inv in H1 as [-> ->].
  apply bind_Ok_inv in H as (latest & s2 & H2 & H). apply lift_Ok_inv in H2 as [H2 ->].
  apply lift_Ok_inv in H as [H ->]. eauto.
Qed.

(** X1. Whenever the technical scorer returns, its score can be recomputed
    from the signals it returned: it is min(100, 50 + the deltas of these
    signals). It is a multiple of 5 between 30 and 100, so that the lower
    bound of the clamp is never reached. The signals come in the order of
    the rules, none twice, four at most, and never both RSI signals. *)
Theorem technical_signals_explain_score
    (lib : Indicators) (ws wl : Z) (data data' df : DataFrame)
    (score : Z) (reasons : list string) :
  calculate_technical_strategy lib ws wl data = (Ok (score, reasons, df), data') →
  score = Z.min 100 (50 + Audit.explained Audit.technical_table reasons)
  ∧ 30 ≤ score ≤ 100
  ∧ score `mod` 5 = 0
  ∧ Audit.in_table_order Audit.technical_table reasons
  ∧ (length reasons ≤ 4)%nat
  ∧ ¬ (Msg.rsi_oversold ∈ reasons ∧ Msg.rsi_overbought ∈ reasons).
Proof.
  intros H. destruct (calculate_technical_strategy_rules _ _ _ _ _ _ _ _ H)
    as (latest & prev & _ & _ & Hr).
  by eapply technical_rules_shape.
Qed.

Lemma technical_signals_explain_score_witness :
  ∃ reasons,
    calculate_technical_strategy Table.table_lib 20 50 Table.rally
    = (Ok (100, reasons, Table.rally_df), Table.rally_stored)
    ∧ 100 = Z.min 100 (50 + Audit.explained Audit.technical_table reasons)
    ∧ 50 + Audit.explained Audit.technical_table reasons = 110.
Proof.
  eexists. split; [vm_compute; reflexivity |].
  match goal with
  | |- 100 = Z.min 100 (50 + Audit.explained _ ?rs) ∧ _ =>
      destruct (technical_signals_explain_score Table.table_lib 20 50 Table.rally
                  Table.rally_stored Table.rally_df 100 rs
                  ltac:(vm_compute; reflexivity)) as (Hs & _)
  end.
  split; [exact Hs | vm_compute; reflexivity].
Defined.

(** X2. Whenever the smart-money scorer returns, its score is 50 plus the
    deltas of the signals it returned, a multiple of 5 between 25 and 85:
    the clamp of line 109 never changes it. The signals come in the order
    of the rules, none twice, three at most, never both volume signals and
    never both MFI signals. *)
Theorem smart_money_signals_explain_score
    (lib : Indicators) (data data' : DataFrame) (score : Z) (signals : list string) :
  calculate_smart_money lib data = (Ok (score, signals), data') →
  score = 50 + Audit.explained Audit.smart_money_table signals
  ∧ 25 ≤ score ≤ 85
  ∧ score `mod` 5 = 0
  ∧ Audit.in_table_order Audit.smart_money_table signals
  ∧ (length signals ≤ 3)%nat
  ∧ ¬ (Msg.volume_up ∈ signals ∧ Msg.volume_down ∈ signals)
  ∧ ¬ (Msg.mfi_hot ∈ signals ∧ Msg.mfi_cold ∈ signals).
Proof.
  intros H. destruct (calculate_smart_money_rules _ _ _ _ _ H) as (latest & _ & Hr).
  by eapply smart_money_rules_shape.
Qed.

Lemma smart_money_signals_explain_score_witness :
  ∃ signals,
    calculate_smart_money Table.table_lib Table.rally
    = (Ok (65, signals), Table.rally_smart)
    ∧ 65 = 50 + Audit.explained Audit.smart_money_table signals.
Proof.
  eexists. split; [vm_compute; reflexivity |].
  match goal with
  | |- 65 = 50 + Audit.explained _ ?sg =>
      destruct (smart_money_signals_explain_score Table.table_lib Table.rally
                  Table.rally_smart 65 sg ltac:(vm_compute; reflexivity)) as (Hs & _)
  end.
  exact Hs.
Defined.

(** * Whatever a report holds *)

(** The report of a successful analysis, field by field. *)
Lemma analysis_report (lib : Indicators) (ws wl : Z) (data : DataFrame)
    (news : list (gmap string string)) (rep : Report) :
  analysis lib ws wl data news = Ok rep →
  ∃ tech_score tech_reasons df stored sm_score sm_signals df' close price prev
    change ratio pct high low,
    calculate_technical_strategy lib ws wl data
    = (Ok (tech_score, tech_reasons, df), stored)
    ∧ calculate_smart_money lib df = (Ok (sm_score, sm_signals), df')
    ∧ getcol df' "Close" = Ok close
    ∧ series_iloc_neg close 1 = Ok (F price)
    ∧ series_iloc_neg close 2 = Ok prev
    ∧ cell_arith PyFloat.sub (F price) prev = Ok change
    ∧ cell_arith PyFloat.div change prev = Ok ratio
    ∧ cell_arith PyFloat.mul ratio (F (Fin 100)) = Ok pct
    ∧ recent_high df' = Ok high
    ∧ recent_low df' = Ok low
    ∧ rep = mkReport (F price) pct
              (total_score tech_score sm_score (analyze_sentiment lib news).1)
              sm_score (analyze_sentiment lib news).1
              (recommendation
                 (total_score tech_score sm_score (analyze_sentiment lib news).1))
              (tech_reasons ++ sm_signals) high low
              (buy_zone (total_score tech_score sm_score (analyze_sentiment lib news).1)
                 price)
              (analyze_sentiment lib news).2.
Proof.
  unfold analysis. intros H.
  destruct (calculate_technical_strategy lib ws wl data)
    as [[[[ts tr] df]|e] stored] eqn:Ht; simpl in H; [| discriminate].
  destruct (calculate_smart_money lib df) as [[[ss sg]|e] df'] eqn:Hs;
    simpl in H; [| discriminate].
  destruct (analyze_sentiment lib news) as [sent an] eqn:Hsent.
  repeat (apply rbind_Ok_inv in H as (? & ? & H)).
  injection H as <-.
  match goal with
  | Hp : match ?c with F _ => _ | PyNone => _ end = Ok ?p |- _ =>
      destruct c as [price|]; [injection Hp as -> | discriminate Hp]
  end.
  repeat match goal with
         | H1 : getcol ?d ?c = Ok ?x, H2 : getcol ?d ?c = Ok ?y |- _ =>
             assert (y = x) as -> by congruence; clear H2
         end.
  do 15 eexists. repeat split; eassumption.
Qed.

Lemma analyze_sentiment_bounds (lib : Indicators) (news : list (gmap string string)) :
  (∀ title, (-1 <= polarity lib title <= 1)%Q) →
  (-100 <= (analyze_sentiment lib news).1 <= 100)%Q.
Proof.
  intros Hpol. destruct news as [|n rest].
  - simpl. split; discriminate.
  - assert (Hne : n :: rest ≠ []) by discriminate.
    destruct (analyze_sentiment_nonempty lib (n :: rest) Hne) as (H1 & _ & _ & Hpos).
    rewrite H1. apply scaled_mean_bounds; [exact Hpos |].
    apply Forall_fmap, Forall_forall. intros x _. apply Hpol.
Qed.

Lemma inject_Z_between (a z b : Z) :
  a ≤ z ≤ b → (inject_Z a <= inject_Z z <= inject_Z b)%Q.
Proof. intros [H1 H2]. split; rewrite <- Zle_Qle; assumption. Qed.

(** X3. The composite score of a report lies in [12.5, 105.5] when the
    polarities are in [-1, 1]: it is never negative, and the worst cases
    -10 and 110 of the weighted sum are out of reach, because the technical
    score is at least 30 and the smart-money score is in [25, 85]. *)
Theorem report_composite_range
    (lib : Indicators) (ws wl : Z) (data : DataFrame)
    (news : list (gmap string string)) (rep : Report) :
  (∀ title, (-1 <= polarity lib title <= 1)%Q) →
  analysis lib ws wl data news = Ok rep →
  (12.5 <= r_total rep <= 105.5)%Q
  ∧ 25 ≤ r_smart_money rep ≤ 85
  ∧ (-100 <= r_sentiment rep <= 100)%Q.
Proof.
  intros Hpol H.
  destruct (analysis_report _ _ _ _ _ _ H)
    as (ts & tr & df & stored & ss & sg & df' & close & price & prev & change & ratio
        & pct & high & low & Ht & Hs & _ & _ & _ & _ & _ & _ & _ & _ & ->).
  simpl.
  destruct (calculate_technical_strategy_rules _ _ _ _ _ _ _ _ Ht)
    as (latest & prev' & _ & _ & Hrt).
  destruct (technical_rules_shape _ _ _ _ _ Hrt) as (_ & Hts & _).
  destruct (calculate_smart_money_rules _ _ _ _ _ Hs) as (latest' & _ & Hrs).
  destruct (smart_money_rules_shape _ _ _ Hrs) as (_ & Hss & _).
  pose proof (analyze_sentiment_bounds lib news Hpol) as Hsent.
  split; [| split; [exact Hss | exact Hsent]].
  unfold total_score.
  pose proof (inject_Z_between 30 ts 100 Hts) as Ha.
  pose proof (inject_Z_between 25 ss 85 Hss) as Hb.
  change (inject_Z 30) with 30%Q in Ha. change (inject_Z 100) with 100%Q in Ha.
  change (inject_Z 25) with 25%Q in Hb. change (inject_Z 85) with 85%Q in Hb.
  split; lra.
Qed.

Lemma table_polarity_bounded (title : string) :
  (-1 <= polarity Table.table_lib title <= 1)%Q.
Proof.
  simpl. destruct (String.eqb title "beats"); [split; discriminate |].
  destruct (String.eqb title "misses"); split; discriminate.
Qed.

Lemma report_composite_range_witness :
  ∃ rep,
    analysis Table.table_lib 20 50 Table.rally Table.headlines = Ok rep
    ∧ (12.5 <= r_total rep <= 105.5)%Q.
Proof.
  eexists. split; [vm_compute; reflexivity |].
  match goal with
  | |- (_ <= r_total ?rep <= _)%Q =>
      destruct (report_composite_range Table.table_lib 20 50 Table.rally
                  Table.headlines rep table_polarity_bounded
                  ltac:(vm_compute; reflexivity)) as (Hr & _)
  end.
  exact Hr.
Defined.

(** X4. In a report the banner and the entry suggestion agree: a strong-buy
    banner always comes with a suggested entry, an avoid banner never does,
    and a suggested entry for a positive finite price is below that price,
    at 98% of it. *)
Theorem tier_and_entry_agree
    (lib : Indicators) (ws wl : Z) (data : DataFrame)
    (news : list (gmap string string)) (rep : Report) :
  analysis lib ws wl data news = Ok rep →
  (r_tier rep = StrongBuy → is_Some (r_entry rep))
  ∧ (r_tier rep = Avoid → r_entry rep = None)
  ∧ (r_tier rep = Neutral → (is_Some (r_entry rep) ↔ (60 <= r_total rep)%Q))
  ∧ (∀ p entry, r_price rep = F (Fin p) → (0 < p)%Q → r_entry rep = Some entry →
       ∃ q, entry = Fin q ∧ (q == p * 0.98)%Q ∧ (q < p)%Q).
Proof.
  intros H.
  destruct (analysis_report _ _ _ _ _ _ H)
    as (ts & tr & df & stored & ss & sg & df' & close & price & prev & change & ratio
        & pct & high & low & _ & _ & _ & _ & _ & _ & _ & _ & _ & _ & ->).
  simpl. set (c := total_score ts ss (analyze_sentiment lib news).1).
  split.
  { intros Hs. apply recommendation_strong_buy in Hs.
    rewrite buy_zone_some by lra. eauto. }
  split.
  { intros Ha. apply recommendation_avoid in Ha. apply buy_zone_none. lra. }
  split.
  { intros _. destruct (Qlt_le_dec c 60) as [Hlt|Hge].
    - rewrite (buy_zone_none _ _ Hlt). split; [intros [? ?]; discriminate | lra].
    - rewrite (buy_zone_some _ _ Hge). split; [auto | eauto]. }
  intros p entry [= ->] Hp Hentry.
  destruct (Qlt_le_dec c 60) as [Hlt|Hge].
  - rewrite (buy_zone_none _ _ Hlt) in Hentry. discriminate.
  - rewrite (buy_zone_some _ _ Hge) in Hentry. injection Hentry as <-.
    exists (p * 0.98)%Q. split; [reflexivity |]. split; [reflexivity | lra].
Qed.

Lemma tier_and_entry_agree_witness :
  ∃ rep,
    analysis Table.table_lib 20 50 Table.rally Table.headlines = Ok rep
    ∧ r_tier rep = StrongBuy
    ∧ is_Some (r_entry rep).
Proof.
  eexists. split; [vm_compute; reflexivity |].
  split; [reflexivity |].
  match goal with
  | |- is_Some (r_entry ?rep) =>
      destruct (tier_and_entry_agree Table.table_lib 20 50 Table.rally
                  Table.headlines rep ltac:(vm_compute; reflexivity)) as (Hs & _)
  end.
  apply Hs. reflexivity.
Defined.

(** * The closes behind a report *)

(** Joining a frame keeps a full column cell for cell; the rows the join
    adds hold NaN. *)
Lemma concat_column (df : DataFrame) (other : option DataFrame) (c : string) (s : Series) :
  cols df !! c = Some s →
  length s = nrows df →
  ∃ s', cols (concat df other) !! c = Some s'
        ∧ length s' = nrows (concat df other)
        ∧ ∀ i, cell_at s' i = cell_at s i.
Proof.
  intros Hc Hlen. rewrite (cols_concat df other c s Hc).
  destruct other as [o|]; simpl; [| eauto].
  eexists. split; [reflexivity |]. split; [apply length_align |].
  intros i. unfold cell_at, align.
  rewrite take_ge by lia.
  destruct (decide (i < length s)%nat) as [Hlt|Hge].
  - by rewrite lookup_app_l.
  - rewrite lookup_app_r, (lookup_ge_None_2 s i) by lia. simpl.
    destruct (replicate _ _ !! _) eqn:E; [| reflexivity].
    apply lookup_replicate in E as [-> _]. reflexivity.
Qed.

(** The Close column of the frame the technical scorer returns. *)
Lemma technical_frame_close (lib : Indicators) (ws wl : Z) (data df data' : DataFrame)
    (close : Series) :
  cols data !! "Close" = Some close →
  length close = nrows data →
  technical_frame lib ws wl data = (Ok df, data') →
  ∃ close', cols df !! "Close" = Some close'
            ∧ length close' = nrows df
            ∧ ∀ i, cell_at close' i = cell_at close i.
Proof.
  intros Hc Hlen Hf.
  destruct (technical_frame_eq lib ws wl data close Hc) as (c1 & _ & Heq).
  simpl in Heq. rewrite Heq in Hf. injection Hf as <- <-.
  set (stored := technical_stored lib ws wl data close).
  assert (Hs : cols stored !! "Close" = Some close).
  { unfold stored, technical_stored, setcol. simpl. by rewrite !lookup_insert_ne. }
  destruct (concat_column stored (ta_macd lib close) "Close" close Hs Hlen)
    as (s1 & H1 & Hl1 & Hc1).
  destruct (concat_column _ (ta_bbands lib c1 20) "Close" s1 H1 Hl1)
    as (s2 & H2 & Hl2 & Hc2).
  exists s2. split; [exact H2 |]. split; [exact Hl2 |].
  intros i. by rewrite Hc2, Hc1.
Qed.

Lemma series_iloc_neg_Ok (s : Series) (k : nat) (c : cell) :
  series_iloc_neg s k = Ok c → (k ≤ length s)%nat ∧ c = cell_at s (length s - k).
Proof.
  unfold series_iloc_neg. destruct (length s <? k)%nat eqn:E; [discriminate |].
  intros [= <-]. apply Nat.ltb_ge in E. auto.
Qed.

(** X5. The price of a report and its percentage change come from the last
    two closes of the data: for a frame whose Close column is full, the
    price is the close of the last row of the frame the technical scorer
    returned, the change is (price - previous) / previous * 100 computed on
    floats, which for finite closes with a positive previous close is
    positive exactly when the price rose; a previous close of zero gives an
    infinity or NaN, not an exception. *)
Theorem report_price_change
    (lib : Indicators) (ws wl : Z) (data : DataFrame)
    (news : list (gmap string string)) (rep : Report) (close : Series) :
  cols data !! "Close" = Some close →
  length close = nrows data →
  analysis lib ws wl data news = Ok rep →
  ∃ score reasons df stored price prev,
    calculate_technical_strategy lib ws wl data = (Ok (score, reasons, df), stored)
    ∧ (2 ≤ nrows df)%nat
    ∧ cell_at close (nrows df - 1) = F price
    ∧ cell_at close (nrows df - 2) = F prev
    ∧ r_price rep = F price
    ∧ r_pct_change rep
      = F (PyFloat.mul (PyFloat.div (PyFloat.sub price prev) prev) (Fin 100))
    ∧ (∀ p q : Q, price = Fin p → prev = Fin q → (0 < q)%Q →
         ∃ x, r_pct_change rep = F (Fin x)
              ∧ (x == (p - q) / q * 100)%Q
              ∧ ((0 < x)%Q ↔ (q < p)%Q))
    ∧ (∀ p q : Q, price = Fin p → prev = Fin q → (q == 0)%Q →
         r_pct_change rep = F PInf ∨ r_pct_change rep = F NInf
         ∨ r_pct_change rep = F NaN).
Proof.
  intros Hc Hlen H.
  destruct (analysis_report _ _ _ _ _ _ H)
    as (ts & tr & df & stored & ss & sg & df' & close' & price & prev & change & ratio
        & pct & high & low & Ht & Hs & Hclose & Hp & Hq & Hchange & Hratio & Hpct
        & _ & _ & ->).
  simpl.
  pose proof (calculate_technical_strategy_Ok_inv _ _ _ _ _ _ _ _ Ht) as Hf.
  destruct (technical_frame_close _ _ _ _ _ _ _ Hc Hlen Hf) as (c1 & Hc1 & Hl1 & Hcell).
  destruct (calculate_smart_money_touches lib df) as [_ Hout].
  rewrite Hs in Hout. simpl in Hout.
  assert (Hc' : cols df' !! "Close" = Some c1).
  { rewrite Hout; [exact Hc1 |]. unfold smart_money_labels. intros Hin.
    repeat (apply elem_of_cons in Hin as [Hin|Hin]; [discriminate Hin |]).
    by apply elem_of_nil in Hin. }
  apply getcol_Ok in Hclose. rewrite Hc' in Hclose. injection Hclose as <-.
  apply series_iloc_neg_Ok in Hp as [_ Hp].
  apply series_iloc_neg_Ok in Hq as [Hrows Hq].
  rewrite Hl1, Hcell in Hp, Hq. rewrite Hl1 in Hrows.
  destruct prev as [prev|]; [| discriminate Hchange].
  injection Hchange as <-. injection Hratio as <-. injection Hpct as <-.
  exists ts, tr, df, stored, price, prev.
  split; [exact Ht |]. split; [exact Hrows |].
  split; [by symmetry |]. split; [by symmetry |].
  split; [reflexivity |]. split; [reflexivity |]. split.
  - intros p q -> -> Hpos. simpl.
    unfold PyFloat.div, Qsign.
    destruct (q ?= 0)%Q eqn:E.
    + apply Qeq_alt in E. lra.
    + apply Qlt_alt in E. lra.
    + simpl. eexists. split; [reflexivity |]. split; [reflexivity |].
      assert (Hdiv : ((p - q) / q * 100 == (p - q) * (100 / q))%Q) by (field; lra).
      assert (Hinv : (0 < 100 / q)%Q) by (apply Qlt_shift_div_l; lra).
      rewrite Hdiv. split; intros Hx.
      * destruct (Qlt_le_dec q p) as [|Hle]; [assumption |]. exfalso.
        assert ((p - q) * (100 / q) <= 0)%Q; [| lra].
        rewrite <- (Qmult_0_l (100 / q)). apply Qmult_le_compat_r; lra.
      * rewrite <- (Qmult_0_l (100 / q)). apply Qmult_lt_compat_r; lra.
  - intros p q -> -> Hzero. simpl. unfold PyFloat.div, Qsign.
    assert (E : (q ?= 0)%Q = Eq) by (by apply Qeq_alt).
    rewrite E. destruct (p - q ?= 0)%Q; simpl; auto.
Qed.

Lemma report_price_change_witness :
  cols Table.rally !! "Close" = Some (floats (Fin <$> [10; 11; 13]%Q))
  ∧ ∃ rep,
      analysis Table.table_lib 20 50 Table.rally Table.headlines = Ok rep
      ∧ r_price rep = F (Fin 13)
      ∧ r_pct_change rep
        = F (PyFloat.mul (PyFloat.div (PyFloat.sub (Fin 13) (Fin 11)) (Fin 11)) (Fin 100)).
Proof.
  assert (Hc : cols Table.rally !! "Close" = Some (floats (Fin <$> [10; 11; 13]%Q)))
    by (vm_compute; reflexivity).
  split; [exact Hc |].
  eexists. split; [vm_compute; reflexivity |].
  match goal with
  | |- r_price ?rep = _ ∧ _ =>
      destruct (report_price_change Table.table_lib 20 50 Table.rally
                  Table.headlines rep _ Hc ltac:(reflexivity)
                  ltac:(vm_compute; reflexivity))
        as (score & reasons & df & stored & price & prev & Ht & _ & Hp & Hq & Hprice
            & Hpct & _)
  end.
  assert (Hdf : df = Table.rally_df).
  { assert (E : calculate_technical_strategy Table.table_lib 20 50 Table.rally
                = (Ok (100, [Msg.trend_up; Msg.rsi_oversold; Msg.macd_golden;
                             Msg.bollinger_low], Table.rally_df), Table.rally_stored))
      by (vm_compute; reflexivity).
    rewrite E in Ht. by injection Ht as _ _ <- _. }
  subst df.
  assert (Hprice' : price = Fin 13) by (vm_compute in Hp; congruence).
  assert (Hprev' : prev = Fin 11) by (vm_compute in Hq; congruence).
  subst price prev. split; [reflexivity | reflexivity].
Defined.


(** * The news of a report *)

Lemma foldl_sentiment_items (lib : Indicators) (news : list (gmap string string))
    (acc : Q * list analyzed) :
  (foldl (sentiment_step lib) acc news).2 = acc.2 ++ (analyzed_of lib <$> news).
Proof.
  revert acc. induction news as [|n news IH]; intros acc; simpl.
  - by rewrite app_nil_r.
  - rewrite IH. unfold sentiment_step, analyzed_of. simpl. by rewrite <- app_assoc.
Qed.

Lemma sentiment_label_positive (p : Q) :
  sentiment_label p = "🟢 正面" ↔ (0.1 < p)%Q.
Proof.
  unfold sentiment_label. destruct (Qlt_bool 0.1 p) eqn:E1.
  - apply Qlt_bool_iff in E1. tauto.
  - assert (¬ (0.1 < p)%Q) by (intros H; apply Qlt_bool_iff in H; congruence).
    destruct (Qlt_bool p (-0.1)); (split; [discriminate | tauto]).
Qed.

Lemma sentiment_label_negative (p : Q) :
  sentiment_label p = "🔴 負面" ↔ (p < -0.1)%Q.
Proof.
  unfold sentiment_label. destruct (Qlt_bool 0.1 p) eqn:E1.
  - apply Qlt_bool_iff in E1. split; [discriminate | intros; exfalso; lra].
  - destruct (Qlt_bool p (-0.1)) eqn:E2.
    + apply Qlt_bool_iff in E2. tauto.
    + assert (¬ (p < -0.1)%Q) by (intros H; apply Qlt_bool_iff in H; congruence).
      split; [discriminate | tauto].
Qed.

Lemma sentiment_label_neutral (p : Q) :
  sentiment_label p = "⚪ 中性" ↔ (-0.1 <= p)%Q ∧ (p <= 0.1)%Q.
Proof.
  unfold sentiment_label. destruct (Qlt_bool 0.1 p) eqn:E1.
  - apply Qlt_bool_iff in E1. split; [discriminate | intros; exfalso; lra].
  - assert (H1 : (p <= 0.1)%Q).
    { destruct (Qlt_le_dec 0.1 p) as [H|]; [| assumption].
      apply Qlt_bool_iff in H. congruence. }
    destruct (Qlt_bool p (-0.1)) eqn:E2.
    + apply Qlt_bool_iff in E2. split; [discriminate | intros; exfalso; lra].
    + assert (H2 : (-0.1 <= p)%Q).
      { destruct (Qlt_le_dec p (-0.1)) as [H|]; [| assumption].
        apply Qlt_bool_iff in H. congruence. }
      tauto.
Qed.

Lemma analyze_sentiment_take (lib : Indicators) (news_list : list (gmap string string)) :
  analyze_sentiment lib (take 5 news_list) = analyze_sentiment lib news_list.
Proof.
  unfold analyze_sentiment. destruct news_list as [|n rest]; [reflexivity |].
  change (take 5 (n :: rest)) with (n :: take 4 rest).
  change (take 5 (n :: take 4 rest)) with (n :: take 4 (take 4 rest)).
  by rewrite take_take, Nat.min_id.
Qed.

(** X6. The analysed news are the first five headlines, in their order, one
    entry each: title, link and publisher of the item, or '', '#' and
    'Unknown' for a key the item lacks; the score of an entry is the
    polarity of its title, and its label is positive above 0.1, negative
    below -0.1 and neutral in between, both bounds included. Headlines
    after the fifth change nothing, and the sentiment score is 100 times
    the mean of the scores of the entries. *)
Theorem analyzed_news_are_first_five
    (lib : Indicators) (news_list : list (gmap string string)) :
  let items := (analyze_sentiment lib news_list).2 in
  items = analyzed_of lib <$> take 5 news_list
  ∧ length items = Nat.min 5 (length news_list)
  ∧ analyze_sentiment lib (take 5 news_list) = analyze_sentiment lib news_list
  ∧ (∀ rest, (length news_list ≥ 5)%nat →
       analyze_sentiment lib (news_list ++ rest) = analyze_sentiment lib news_list)
  ∧ (∀ item, item ∈ items →
       (a_sentiment item = "🟢 正面" ↔ (0.1 < a_score item)%Q)
       ∧ (a_sentiment item = "🔴 負面" ↔ (a_score item < -0.1)%Q)
       ∧ (a_sentiment item = "⚪ 中性" ↔ (-0.1 <= a_score item)%Q ∧ (a_score item <= 0.1)%Q))
  ∧ (∀ news, analyzed_of lib news
             = mkAnalyzed (default "" (news !! "title")) (default "#" (news !! "link"))
                 (default "Unknown" (news !! "publisher"))
                 (sentiment_label (polarity lib (default "" (news !! "title"))))
                 (polarity lib (default "" (news !! "title"))))
  ∧ (news_list ≠ [] →
       ((analyze_sentiment lib news_list).1 == Spec.scaled_mean (a_score <$> items))%Q).
Proof.
  cbv zeta.
  assert (Hitems : (analyze_sentiment lib news_list).2
                   = analyzed_of lib <$> take 5 news_list).
  { unfold analyze_sentiment. destruct news_list as [|n rest]; [reflexivity |].
    set (l := take 5 (n :: rest)).
    pose proof (foldl_sentiment_items lib l (0%Q, [])) as Hl.
    destruct (foldl (sentiment_step lib) (0%Q, []) l) as [total items].
    assert (Hpos : (length l =? 0)%nat = false) by reflexivity.
    rewrite Hpos. exact Hl. }
  split; [exact Hitems |].
  split; [by rewrite Hitems, length_fmap, length_take |].
  split; [apply analyze_sentiment_take |].
  split.
  { intros rest Hlen.
    rewrite <- (analyze_sentiment_take lib (news_list ++ rest)),
      <- (analyze_sentiment_take lib news_list).
    by rewrite take_app_le. }
  split.
  { intros item Hin. rewrite Hitems in Hin.
    apply list_elem_of_fmap in Hin as (news & -> & _). unfold analyzed_of. simpl.
    split; [apply sentiment_label_positive |].
    split; [apply sentiment_label_negative | apply sentiment_label_neutral]. }
  split; [reflexivity |].
  intros Hne.
  destruct (analyze_sentiment_nonempty lib news_list Hne) as (H1 & _).
  rewrite H1, Hitems, <- list_fmap_compose. reflexivity.
Qed.

Lemma analyzed_news_are_first_five_witness :
  (analyze_sentiment Table.table_lib Table.headlines).2
  = [mkAnalyzed "beats" "#" "Unknown" "🟢 正面" 0.4;
     mkAnalyzed "misses" "#" "Unknown" "🔴 負面" (-0.2);
     mkAnalyzed "holds" "#" "Unknown" "⚪ 中性" 0].
Proof.
  destruct (analyzed_news_are_first_five Table.table_lib Table.headlines) as (H & _).
  rewrite H. vm_compute. reflexivity.
Defined.

(** * The frame the technical scorer returns *)

Lemma has_column_true (df : DataFrame) (c : string) :
  has_column df c = true ↔ is_Some (cols df !! c).
Proof. unfold has_column. apply bool_decide_eq_true. Qed.

Lemma has_column_concat (df : DataFrame) (other : option DataFrame) (c : string) :
  has_column (concat df other) c
  = has_column df c || from_option (λ o, has_column o c) false other.
Proof.
  destruct other as [o|]; simpl; [| by rewrite orb_false_r].
  apply eq_true_iff_eq.
  rewrite orb_true_iff, !has_column_true. simpl.
  rewrite lookup_fmap, fmap_is_Some. apply lookup_union_is_Some.
Qed.

Lemma has_column_setcol (df : DataFrame) (c c' : string) (v : option Series) :
  has_column (setcol df c v) c' = bool_decide (c = c') || has_column df c'.
Proof.
  apply eq_true_iff_eq.
  rewrite orb_true_iff, !has_column_true, bool_decide_eq_true. simpl.
  rewrite lookup_insert_is_Some. split.
  - intros [H | [_ H]]; auto.
  - intros [H | H]; [auto |]. destruct (decide (c = c')); auto.
Qed.

(** X7. Without a Close column the technical scorer raises KeyError and
    leaves the frame as it was. With one, building the frame cannot fail,
    and the frame a successful call returns has at least two rows, no fewer
    than the frame given, and carries every column of the frame given, the
    three columns SMA_Short, SMA_Long and RSI, and every column of the MACD
    frame of [pandas_ta]. *)
Theorem technical_returned_frame (lib : Indicators) (ws wl : Z) (data : DataFrame) :
  (cols data !! "Close" = None →
     calculate_technical_strategy lib ws wl data = (Raise KeyError, data))
  ∧ (is_Some (cols data !! "Close") →
       ∃ df stored, technical_frame lib ws wl data = (Ok df, stored))
  ∧ (∀ score reasons df stored,
       calculate_technical_strategy lib ws wl data = (Ok (score, reasons, df), stored) →
       (2 ≤ nrows df)%nat
       ∧ (nrows data ≤ nrows df)%nat
       ∧ (∀ c, is_Some (cols data !! c) → has_column df c = true)
       ∧ (∀ c, c ∈ technical_labels → has_column df c = true)
       ∧ (∀ close o c, cols data !! "Close" = Some close →
            ta_macd lib close = Some o → is_Some (cols o !! c) →
            has_column df c = true)).
Proof.
  split.
  { intros Hc. unfold calculate_technical_strategy, mbind, M_bind.
    by rewrite (technical_frame_missing_close lib ws wl data Hc). }
  split.
  { intros [close Hc].
    destruct (technical_frame_eq lib ws wl data close Hc) as (c1 & _ & Heq).
    eauto. }
  intros score reasons df stored H.
  destruct (calculate_technical_strategy_rules _ _ _ _ _ _ _ _ H)
    as (latest & prev & _ & H2 & _).
  apply iloc_neg_rows in H2.
  apply calculate_technical_strategy_Ok_inv in H.
  destruct (cols data !! "Close") as [close|] eqn:Hc;
    [| rewrite (technical_frame_missing_close lib ws wl data Hc) in H; discriminate].
  destruct (technical_frame_eq lib ws wl data close Hc) as (c1 & Hc1 & Heq).
  simpl in Hc1, Heq. rewrite Heq in H. injection H as <- <-.
  set (st := technical_stored lib ws wl data close) in *.
  assert (Hst : ∀ c, has_column st c
                     = bool_decide (c ∈ technical_labels) || has_column data c).
  { intros c. unfold st, technical_stored. rewrite !has_column_setcol.
    unfold technical_labels.
    destruct (has_column data c); [by rewrite !orb_true_r |]. rewrite !orb_false_r.
    apply eq_true_iff_eq. rewrite !orb_true_iff, !bool_decide_eq_true.
    rewrite !elem_of_cons, elem_of_nil. intuition. }
  split; [exact H2 |].
  split.
  { destruct (ta_macd lib close), (ta_bbands lib c1 20); simpl; lia. }
  split.
  { intros c Hcol. rewrite !has_column_concat, Hst.
    apply has_column_true in Hcol. rewrite Hcol. by rewrite orb_true_r. }
  split.
  { intros c Hin. rewrite !has_column_concat, Hst.
    by rewrite (bool_decide_eq_true_2 _ Hin). }
  intros close0 o c [= <-] Hm Ho. rewrite !has_column_concat, Hm. simpl.
  apply has_column_true in Ho. rewrite Ho. by rewrite orb_true_r.
Qed.

Lemma technical_returned_frame_witness :
  has_column Table.rally_df "Volume" = true
  ∧ has_column Table.rally_df "SMA_Short" = true
  ∧ (2 ≤ nrows Table.rally_df)%nat.
Proof.
  destruct (technical_returned_frame Table.table_lib 20 50 Table.rally) as (_ & _ & H).
  destruct (H 100 [Msg.trend_up; Msg.rsi_oversold; Msg.macd_golden; Msg.bollinger_low]
              Table.rally_df Table.rally_stored ltac:(vm_compute; reflexivity))
    as (Hrows & _ & Hdata & Hlabels & _).
  split; [apply Hdata; vm_compute; eauto |].
  split; [apply Hlabels; unfold technical_labels; repeat constructor | exact Hrows].
Defined.

(** * The guard of the MACD rule *)

Lemma iloc_neg_has_column (df : DataFrame) (k : nat) (r : Row) (c : string) :
  iloc_neg df k = Ok r → (is_Some (r !! c) ↔ has_column df c = true).
Proof.
  intros H. rewrite (iloc_neg_lookup df k r c H), fmap_is_Some, has_column_true.
  reflexivity.
Qed.

(** X8. The guard of line 147 tests the MACD line column only. When that
    column is in the frame and the signal column 'MACDs_12_26_9' is not,
    the technical scorer raises KeyError once the trend and RSI rules have
    passed. *)
Theorem macd_signal_column_missing
    (lib : Indicators) (ws wl : Z) (data df data' : DataFrame) (latest prev : Row) :
  technical_frame lib ws wl data = (Ok df, data') →
  iloc_neg df 1 = Ok latest →
  iloc_neg df 2 = Ok prev →
  is_Some (latest !! "SMA_Long") →
  is_float_at latest "Close" = true →
  is_float_at latest "RSI" = true →
  has_column df "MACD_12_26_9" = true →
  has_column df "MACDs_12_26_9" = false →
  calculate_technical_strategy lib ws wl data = (Raise KeyError, data').
Proof.
  intros Hf H1 H2 [sma Hsma] Hclose Hrsi Hm Hs.
  assert (Hline : is_Some (latest !! "MACD_12_26_9"))
    by (by apply (iloc_neg_has_column df 1 latest _ H1)).
  assert (Hsig : latest !! "MACDs_12_26_9" = None).
  { apply eq_None_not_Some. rewrite (iloc_neg_has_column df 1 latest _ H1).
    by rewrite Hs. }
  destruct Hline as [line Hline].
  apply is_float_at_spec in Hclose as [x Hx]. apply is_float_at_spec in Hrsi as [r Hr].
  unfold calculate_technical_strategy, mbind, M_bind, lift. rewrite Hf. simpl.
  rewrite H1, H2.
  unfold technical_rules, cmp_const, cmp_labels, and_then, row_get,
    cell_gt, cell_lt, cell_cmp.
  rewrite Hsma, Hx, Hr, Hm, Hline, Hsig.
  destruct sma as [s|]; simpl;
    repeat match goal with
           | |- context [if ?b then _ else _] => destruct b; simpl
           end;
    reflexivity.
Qed.

Lemma macd_signal_column_missing_witness :
  (calculate_technical_strategy Flat.flat_lib 20 50
     (setcol Flat.flat20 "MACD_12_26_9" (Some (floats (replicate 20 (Fin 0)))))).1
  = Raise KeyError.
Proof.
  set (data := setcol Flat.flat20 "MACD_12_26_9" (Some (floats (replicate 20 (Fin 0))))).
  set (df := get_ok data (technical_frame Flat.flat_lib 20 50 data).1).
  exact (f_equal fst
           (macd_signal_column_missing Flat.flat_lib 20 50 data df
              (technical_frame Flat.flat_lib 20 50 data).2 (latest_of df) (prev_of df)
              ltac:(vm_compute; reflexivity) ltac:(vm_compute; reflexivity)
              ltac:(vm_compute; reflexivity) ltac:(vm_compute; eauto)
              ltac:(vm_compute; reflexivity) ltac:(vm_compute; reflexivity)
              ltac:(vm_compute; reflexivity) ltac:(vm_compute; reflexivity))).
Defined.

(** * IndexError *)

Lemma no_index_error_bind {A B} (r : result A) (k : A → result B) :
  no_index_error r → (∀ a, no_index_error (k a)) → no_index_error (r ≫= k).
Proof.
  unfold no_index_error, mbind, result_bind, rbind.
  intros Hr Hk. destruct r as [a|e]; [apply Hk |].
  intros [= ->]. by apply Hr.
Qed.

Lemma no_index_error_Ok {A} (a : A) : no_index_error (Ok a).
Proof. discriminate. Qed.

Lemma no_index_error_row_get (r : Row) (c : string) : no_index_error (row_get r c).
Proof. unfold row_get. by destruct (r !! c). Qed.

Lemma no_index_error_cell_cmp op (a b : cell) : no_index_error (cell_cmp op a b).
Proof. by destruct a, b. Qed.

Lemma no_index_error_getcol (df : DataFrame) (c : string) : no_index_error (getcol df c).
Proof. unfold getcol. by destruct (cols df !! c). Qed.

Lemma no_index_error_series_div (a b : Series) : no_index_error (series_div a b).
Proof.
  revert b. induction a as [|x a IH]; intros [|y b]; simpl; try discriminate.
  destruct x, y; try discriminate.
  specialize (IH b). by destruct (series_div a b).
Qed.

Ltac no_index :=
  repeat first
    [ apply no_index_error_Ok
    | apply no_index_error_row_get
    | apply no_index_error_cell_cmp
    | apply no_index_error_bind; [| intros ?]
    | match goal with
      | |- no_index_error (if ?b then _ else _) => destruct b
      end ].

Lemma smart_money_rules_no_index_error (latest : Row) :
  no_index_error (smart_money_rules latest).
Proof.
  unfold smart_money_rules, and_then, cmp_const, cmp_labels, cell_gt, cell_lt.
  no_index.
Qed.

Lemma technical_rules_no_index_error (df : DataFrame) (latest prev : Row) :
  no_index_error (technical_rules df latest prev).
Proof.
  unfold technical_rules, and_then, cmp_const, cmp_labels, cell_gt, cell_lt, cell_le.
  no_index.
Qed.

Lemma no_index_error_M_bind {A B} (m : M A) (k : A → M B) :
  (∀ s, no_index_error (m s).1) →
  (∀ a s, no_index_error (k a s).1) →
  ∀ s, no_index_error ((m ≫= k) s).1.
Proof.
  intros Hm Hk s. specialize (Hm s). unfold mbind, M_bind.
  destruct (m s) as [[a|e] s1]; simpl in *; [apply Hk |].
  intros [= ->]. by apply Hm.
Qed.

(** Building the columns of the smart-money scorer keeps the rows and does
    not raise IndexError. *)
Lemma smart_money_frame_no_index_error (lib : Indicators) (data : DataFrame) :
  no_index_error (smart_money_frame lib data).1
  ∧ nrows (smart_money_frame lib data).2 = nrows data.
Proof.
  split; [| apply (smart_money_frame_touches lib data)].
  revert data. unfold smart_money_frame.
  repeat (apply no_index_error_M_bind; [| intros ?]);
    intros s; unfold read, assign, lift; simpl;
    first [ apply no_index_error_getcol
          | apply no_index_error_series_div
          | apply no_index_error_Ok ].
Qed.

Lemma calculate_smart_money_index_error (lib : Indicators) (data : DataFrame) :
  (calculate_smart_money lib data).1 = Raise IndexError → nrows data = 0%nat.
Proof.
  destruct (smart_money_frame_no_index_error lib data) as [Hno Hrows].
  unfold calculate_smart_money, mbind, M_bind, current, lift.
  destruct (smart_money_frame lib data) as [[[]|e] s]; simpl in *.
  - unfold iloc_neg. destruct (nrows s <? 1)%nat eqn:E; simpl.
    + intros _. apply Nat.ltb_lt in E. lia.
    + intros H. by apply smart_money_rules_no_index_error in H.
  - intros [= ->]. by destruct Hno.
Qed.

(** X9. IndexError comes from short frames only. The smart-money scorer
    raises it only on a frame without rows, the technical scorer only when
    the frame it built, and so the frame it was given, has fewer than two
    rows; hence on the frame a successful technical scorer returns, as the
    program calls it, the smart-money scorer never raises IndexError. *)
Theorem index_error_only_on_short_frames (lib : Indicators) (ws wl : Z) (data : DataFrame) :
  ((calculate_smart_money lib data).1 = Raise IndexError → nrows data = 0%nat)
  ∧ ((calculate_technical_strategy lib ws wl data).1 = Raise IndexError →
       ∃ df stored, technical_frame lib ws wl data = (Ok df, stored)
                    ∧ (nrows data ≤ nrows df)%nat ∧ (nrows df < 2)%nat)
  ∧ (∀ score reasons df stored,
       calculate_technical_strategy lib ws wl data = (Ok (score, reasons, df), stored) →
       (calculate_smart_money lib df).1 ≠ Raise IndexError).
Proof.
  split; [apply calculate_smart_money_index_error |].
  split.
  - unfold calculate_technical_strategy, mbind, M_bind, lift.
    destruct (technical_frame lib ws wl data) as [[df|e] stored] eqn:Hf; simpl.
    + intros H. exists df, stored. split; [reflexivity |].
      assert (Hrows : (nrows data ≤ nrows df)%nat).
      { destruct (cols data !! "Close") as [close|] eqn:Hc;
          [| rewrite (technical_frame_missing_close lib ws wl data Hc) in Hf;
             discriminate].
        destruct (technical_frame_eq lib ws wl data close Hc) as (c1 & _ & Heq).
        simpl in Heq. rewrite Heq in Hf. injection Hf as <- _.
        destruct (ta_macd lib close), (ta_bbands lib c1 20); simpl; lia. }
      split; [exact Hrows |].
      unfold iloc_neg in H.
      destruct (nrows df <? 1)%nat eqn:E1; simpl in H.
      { apply Nat.ltb_lt in E1. lia. }
      destruct (nrows df <? 2)%nat eqn:E2; simpl in H.
      { by apply Nat.ltb_lt in E2. }
      exfalso. revert H.
      match goal with
      | |- context [technical_rules ?d ?l ?p] =>
          pose proof (technical_rules_no_index_error d l p) as Hno;
          destruct (technical_rules d l p) as [[sc rs]|e]; simpl
      end; [discriminate | intros [= ->]; by apply Hno].
    + intros [= ->]. exfalso.
      destruct (cols data !! "Close") as [close|] eqn:Hc.
      * destruct (technical_frame_eq lib ws wl data close Hc) as (c1 & _ & Heq).
        simpl in Heq. rewrite Heq in Hf. discriminate.
      * rewrite (technical_frame_missing_close lib ws wl data Hc) in Hf. discriminate.
  - intros score reasons df stored H Hidx.
    apply calculate_smart_money_index_error in Hidx.
    destruct (calculate_technical_strategy_rules _ _ _ _ _ _ _ _ H)
      as (latest & prev & _ & H2 & _).
    apply iloc_neg_rows in H2. lia.
Qed.

Lemma index_error_only_on_short_frames_witness :
  (calculate_smart_money Table.table_lib Table.rally_df).1 ≠ Raise IndexError.
Proof.
  destruct (index_error_only_on_short_frames Table.table_lib 20 50 Table.rally)
    as (_ & _ & H).
  apply (H 100 [Msg.trend_up; Msg.rsi_oversold; Msg.macd_golden; Msg.bollinger_low]
           Table.rally_df Table.rally_stored).
  vm_compute. reflexivity.
Defined.

(** * Running the smart-money scorer forward *)

Lemma bind_read_Ok {B} (c : string) (k : Series → M B) (s : DataFrame) (a : Series) :
  getcol s c = Ok a → (read c ≫= k) s = k a s.
Proof. intros H. unfold mbind, M_bind, read. by rewrite H. Qed.

Lemma bind_read_Raise {B} (c : string) (k : Series → M B) (s : DataFrame) (e : exn) :
  getcol s c = Raise e → (read c ≫= k) s = (Raise e, s).
Proof. intros H. unfold mbind, M_bind, read. by rewrite H. Qed.

Lemma bind_assign {B} (c : string) (v : option Series) (k : () → M B) (s : DataFrame) :
  (assign c v ≫= k) s = k () (setcol s c v).
Proof. reflexivity. Qed.

Lemma bind_lift {A B} (r : result A) (k : A → M B) (s : DataFrame) :
  (lift r ≫= k) s = match r with Ok a => k a s | Raise e => (Raise e, s) end.
Proof. unfold mbind, M_bind, lift. by destruct r. Qed.

Lemma bind_bind {A B C} (m : M A) (k : A → M B) (k' : B → M C) (s : DataFrame) :
  ((m ≫= k) ≫= k') s = (m ≫= (λ a, k a ≫= k')) s.
Proof.
  unfold mbind, M_bind. destruct (m s) as [[a|e] s1]; reflexivity.
Qed.

Lemma getcol_None (df : DataFrame) (c : string) :
  cols df !! c = None → getcol df c = Raise KeyError.
Proof. intros H. unfold getcol. by rewrite H. Qed.

(** Lines 74 and 75: the rolling mean is stored, then the ratio is taken. *)
Lemma smart_money_frame_start (lib : Indicators) (data : DataFrame) (volume : Series)
    {B} (k : () → M B) :
  cols data !! "Volume" = Some volume →
  let d1 := setcol data "Vol_SMA" (Some (floats (rolling_mean lib volume 50))) in
  (smart_money_frame lib ≫= k) data
  = match series_div volume (align (nrows data) (floats (rolling_mean lib volume 50))) with
    | Raise e => (Raise e, d1)
    | Ok rvol =>
        let d2 := setcol d1 "RVOL" (Some rvol) in
        match cols data !! "Close" with
        | None => (Raise KeyError, d2)
        | Some close =>
            let d3 := setcol d2 "OBV" (floats <$> ta_obv lib close volume) in
            let obv := match ta_obv lib close volume with
                       | Some s => align (nrows data) (floats s)
                       | None => replicate (nrows data) PyNone
                       end in
            let d4 := setcol d3 "OBV_EMA" (floats <$> ta_ema lib obv 20) in
            match cols data !! "High" with
            | None => (Raise KeyError, d4)
            | Some high =>
                match cols data !! "Low" with
                | None => (Raise KeyError, d4)
                | Some low =>
                    k () (setcol d4 "MFI"
                            (floats <$> ta_mfi lib high low close volume 14))
                end
            end
        end
    end.
Proof.
  intros Hv. apply getcol_Ok in Hv. cbv zeta.
  unfold smart_money_frame.
  rewrite !bind_bind.
  rewrite (bind_read_Ok _ _ _ _ Hv). rewrite bind_bind, bind_assign.
  rewrite bind_bind.
  erewrite bind_read_Ok by (rewrite getcol_setcol_ne by done; exact Hv).
  rewrite bind_bind. erewrite bind_read_Ok by apply getcol_setcol.
  rewrite bind_bind, bind_lift. simpl nrows.
  destruct (series_div volume _) as [rvol|e]; [| reflexivity].
  rewrite bind_bind, bind_assign, bind_bind.
  destruct (cols data !! "Close") as [close|] eqn:Hc.
  2:{ erewrite bind_read_Raise; [reflexivity |].
      rewrite !getcol_setcol_ne by done. by apply getcol_None. }
  apply getcol_Ok in Hc.
  erewrite bind_read_Ok by (rewrite !getcol_setcol_ne by done; exact Hc).
  rewrite bind_bind.
  erewrite bind_read_Ok by (rewrite !getcol_setcol_ne by done; exact Hv).
  rewrite bind_bind, bind_assign, bind_bind.
  erewrite bind_read_Ok by apply getcol_setcol.
  rewrite bind_bind, bind_assign, bind_bind. simpl nrows.
  assert (Hobv : match floats <$> ta_obv lib close volume with
                 | Some s => align (nrows data) s
                 | None => replicate (nrows data) PyNone
                 end
                 = match ta_obv lib close volume with
                   | Some s => align (nrows data) (floats s)
                   | None => replicate (nrows data) PyNone
                   end) by (by destruct (ta_obv lib close volume)).
  rewrite Hobv.
  destruct (cols data !! "High") as [high|] eqn:Hh.
  2:{ erewrite bind_read_Raise; [reflexivity |].
      rewrite !getcol_setcol_ne by done. by apply getcol_None. }
  apply getcol_Ok in Hh.
  erewrite bind_read_Ok by (rewrite !getcol_setcol_ne by done; exact Hh).
  rewrite bind_bind.
  destruct (cols data !! "Low") as [low|] eqn:Hl.
  2:{ erewrite bind_read_Raise; [reflexivity |].
      rewrite !getcol_setcol_ne by done. by apply getcol_None. }
  apply getcol_Ok in Hl.
  erewrite bind_read_Ok by (rewrite !getcol_setcol_ne by done; exact Hl).
  rewrite bind_bind.
  erewrite bind_read_Ok by (rewrite !getcol_setcol_ne by done; exact Hc).
  rewrite bind_bind.
  erewrite bind_read_Ok by (rewrite !getcol_setcol_ne by done; exact Hv).
  rewrite bind_assign. reflexivity.
Qed.

(** X10. A failure of the smart-money scorer leaves in the frame what the
    lines before it had stored. Without a Volume column the scorer raises
    KeyError and the frame is as it was; when the division of line 75
    raises, the frame already holds Vol_SMA; when Close is missing, KeyError
    is raised with Vol_SMA and RVOL stored. *)
Theorem smart_money_failure_keeps_stored_columns (lib : Indicators) (data : DataFrame) :
  (cols data !! "Volume" = None →
   calculate_smart_money lib data = (Raise KeyError, data))
  ∧ (∀ volume : Series,
       cols data !! "Volume" = Some volume →
       let vol_sma := floats (rolling_mean lib volume 50) in
       let d1 := setcol data "Vol_SMA" (Some vol_sma) in
       (∀ e, series_div volume (align (nrows data) vol_sma) = Raise e →
             calculate_smart_money lib data = (Raise e, d1))
       ∧ (∀ rvol, series_div volume (align (nrows data) vol_sma) = Ok rvol →
                  cols data !! "Close" = None →
                  calculate_smart_money lib data
                  = (Raise KeyError, setcol d1 "RVOL" (Some rvol)))).
Proof.
  split.
  - intros Hv. unfold calculate_smart_money, smart_money_frame.
    rewrite !bind_bind. apply bind_read_Raise, getcol_None, Hv.
  - intros volume Hv. cbv zeta. unfold calculate_smart_money. split.
    + intros e He. rewrite (smart_money_frame_start lib data volume _ Hv).
      cbv zeta. by rewrite He.
    + intros rvol Hr Hc. rewrite (smart_money_frame_start lib data volume _ Hv).
      cbv zeta. by rewrite Hr, Hc.
Qed.

Lemma smart_money_failure_keeps_stored_columns_witness :
  ∃ rvol,
    series_div (floats [Fin 1; Fin 2])
      (align 2 (floats (rolling_mean Flat.flat_lib (floats [Fin 1; Fin 2]) 50))) = Ok rvol
    ∧ calculate_smart_money Flat.flat_lib
        (mkFrame 2 {[ "Volume" := floats [Fin 1; Fin 2] ]})
      = (Raise KeyError,
         setcol (setcol (mkFrame 2 {[ "Volume" := floats [Fin 1; Fin 2] ]})
                   "Vol_SMA"
                   (Some (floats (rolling_mean Flat.flat_lib (floats [Fin 1; Fin 2]) 50))))
           "RVOL" (Some rvol)).
Proof.
  eexists. split; [vm_compute; reflexivity |].
  apply (proj2 (smart_money_failure_keeps_stored_columns Flat.flat_lib
                  (mkFrame 2 {[ "Volume" := floats [Fin 1; Fin 2] ]}))
           (floats [Fin 1; Fin 2]));
    vm_compute; reflexivity.
Defined.

(** * Scoring a frame twice *)

(** Storing under a label the column it already holds changes nothing. *)
Lemma setcol_same (df : DataFrame) (c : string) (v : option Series) :
  getcol df c = Ok (match v with
                    | Some s => align (nrows df) s
                    | None => replicate (nrows df) PyNone
                    end) →
  setcol df c v = df.
Proof.
  destruct df as [n m]. unfold getcol, setcol. simpl.
  destruct (m !! c) as [s|] eqn:Hs; [| discriminate].
  intros [= <-]. f_equal. by apply insert_id.
Qed.

Lemma nrows_setcol (df : DataFrame) (c : string) (v : option Series) :
  nrows (setcol df c v) = nrows df.
Proof. reflexivity. Qed.

Lemma cols_setcol_ne (df : DataFrame) (c c' : string) (v : option Series) :
  c ≠ c' → cols (setcol df c v) !! c' = cols df !! c'.
Proof. intros Hne. unfold setcol. simpl. by rewrite lookup_insert_ne. Qed.

(** A column read back from under the assignments that followed its own. *)
Ltac stored_column :=
  rewrite ?getcol_setcol_ne by done; rewrite getcol_setcol, ?nrows_setcol;
  reflexivity.

(** The steps after the indicator columns leave the frame alone. *)
Lemma smart_money_rest_state (s : DataFrame) :
  ((df ← current; latest ← lift (iloc_neg df 1); lift (smart_money_rules latest)) s).2
  = s.
Proof.
  unfold mbind, M_bind, current, lift.
  destruct (iloc_neg s 1) as [latest|]; [| reflexivity].
  destruct (smart_money_rules latest); reflexivity.
Qed.

Lemma technical_stored_twice (lib : Indicators) (ws wl : Z) (data : DataFrame)
    (close : Series) :
  technical_stored lib ws wl (technical_stored lib ws wl data close) close
  = technical_stored lib ws wl data close.
Proof.
  set (st := technical_stored lib ws wl data close).
  unfold technical_stored at 1.
  rewrite (setcol_same st "SMA_Short") by (unfold st, technical_stored; stored_column).
  rewrite (setcol_same st "SMA_Long") by (unfold st, technical_stored; stored_column).
  apply setcol_same. unfold st, technical_stored. stored_column.
Qed.

Lemma technical_rest_state (df s : DataFrame) :
  ((latest ← lift (iloc_neg df 1);
    prev ← lift (iloc_neg df 2);
    '(score, reasons) ← lift (technical_rules df latest prev);
    mret (score, reasons, df)) s).2 = s.
Proof.
  unfold mbind, M_bind, lift, mret, M_ret.
  destruct (iloc_neg df 1) as [latest|]; [| reflexivity].
  destruct (iloc_neg df 2) as [prev|]; [| reflexivity].
  destruct (technical_rules df latest prev) as [[score reasons]|]; reflexivity.
Qed.

(** The frame a run left is [st]: a second run stores in it what it holds. *)
Ltac absorb c :=
  match goal with
  | st := _ : DataFrame |- _ =>
      rewrite (setcol_same st c) by (unfold st; stored_column)
  end.

Ltac again :=
  simpl snd;
  match goal with
  | Hv : cols ?data !! "Volume" = Some ?volume
    |- (smart_money_frame ?lib ≫= ?k) ?s' = _ =>
      let st := fresh "st" in
      set (st := s');
      let Hv' := fresh "Hv" in
      assert (Hv' : cols st !! "Volume" = Some volume)
        by (unfold st; by rewrite !cols_setcol_ne);
      rewrite (smart_money_frame_start lib st volume k Hv'); cbv zeta;
      replace (nrows st) with (nrows data) by reflexivity;
      replace (cols st !! "Close") with (cols data !! "Close")
        by (unfold st; by rewrite !cols_setcol_ne);
      replace (cols st !! "High") with (cols data !! "High")
        by (unfold st; by rewrite !cols_setcol_ne);
      replace (cols st !! "Low") with (cols data !! "Low")
        by (unfold st; by rewrite !cols_setcol_ne);
      rewrite (setcol_same st "Vol_SMA") by (unfold st; stored_column)
  end.

Lemma smart_money_frame_twice (lib : Indicators) (data : DataFrame) {B} (k : () → M B) :
  (∀ s, (k () s).2 = s) →
  (smart_money_frame lib ≫= k) ((smart_money_frame lib ≫= k) data).2
  = (smart_money_frame lib ≫= k) data.
Proof.
  intros Hk.
  destruct (cols data !! "Volume") as [volume|] eqn:Hv.
  2:{ assert (H : (smart_money_frame lib ≫= k) data = (Raise KeyError, data)).
      { unfold smart_money_frame. rewrite !bind_bind.
        apply bind_read_Raise, getcol_None, Hv. }
      rewrite H. exact H. }
  rewrite (smart_money_frame_start lib data volume k Hv). cbv zeta.
  destruct (series_div volume _) as [rvol|e] eqn:Hdiv.
  2:{ again. rewrite Hdiv. reflexivity. }
  destruct (cols data !! "Close") as [close|] eqn:Hc.
  2:{ again. rewrite Hdiv, Hc. absorb "RVOL". reflexivity. }
  destruct (cols data !! "High") as [high|] eqn:Hh.
  2:{ again. rewrite Hdiv, Hc, Hh. absorb "RVOL". absorb "OBV". absorb "OBV_EMA".
      reflexivity. }
  destruct (cols data !! "Low") as [low|] eqn:Hl.
  2:{ again. rewrite Hdiv, Hc, Hh, Hl. absorb "RVOL". absorb "OBV". absorb "OBV_EMA".
      reflexivity. }
  rewrite Hk.
  again. rewrite Hdiv, Hc, Hh, Hl. absorb "RVOL". absorb "OBV". absorb "OBV_EMA".
  absorb "MFI". reflexivity.
Qed.

(** X11. Scoring a frame a second time changes nothing: called again on
    the frame object a call left to its caller, each scorer gives the
    outcome of that call, a result or an exception, and leaves the frame as
    it is. *)
Theorem scorers_are_idempotent (lib : Indicators) (ws wl : Z) (data : DataFrame) :
  calculate_technical_strategy lib ws wl
    (calculate_technical_strategy lib ws wl data).2
  = calculate_technical_strategy lib ws wl data
  ∧ calculate_smart_money lib (calculate_smart_money lib data).2
    = calculate_smart_money lib data.
Proof.
  split.
  - destruct (cols data !! "Close") as [close|] eqn:Hc.
    2:{ assert (H : calculate_technical_strategy lib ws wl data = (Raise KeyError, data)).
        { unfold calculate_technical_strategy, mbind, M_bind.
          by rewrite (technical_frame_missing_close lib ws wl data Hc). }
        rewrite H. simpl. exact H. }
    destruct (technical_frame_eq lib ws wl data close Hc) as (c1 & Hc1 & Heq).
    simpl in Hc1, Heq.
    set (st := technical_stored lib ws wl data close) in *.
    assert (Hst : cols st !! "Close" = Some close).
    { unfold st, technical_stored. by rewrite !cols_setcol_ne. }
    destruct (technical_frame_eq lib ws wl st close Hst) as (c2 & Hc2 & Heq2).
    simpl in Hc2, Heq2. unfold st in Hc2, Heq2.
    rewrite technical_stored_twice in Hc2, Heq2. fold st in Hc2, Heq2.
    assert (c2 = c1) as -> by congruence.
    assert (Hrun : ∀ s, technical_frame lib ws wl s
                        = (Ok (concat (concat st (ta_macd lib close))
                                 (ta_bbands lib c1 20)), st) →
              calculate_technical_strategy lib ws wl s
              = (latest ← lift (iloc_neg (concat (concat st (ta_macd lib close))
                                            (ta_bbands lib c1 20)) 1);
                 prev ← lift (iloc_neg (concat (concat st (ta_macd lib close))
                                          (ta_bbands lib c1 20)) 2);
                 '(score, reasons) ← lift (technical_rules
                                             (concat (concat st (ta_macd lib close))
                                                (ta_bbands lib c1 20)) latest prev);
                 mret (score, reasons, concat (concat st (ta_macd lib close))
                                         (ta_bbands lib c1 20))) st).
    { intros s Hs. unfold calculate_technical_strategy.
      unfold mbind at 1. unfold M_bind at 1. by rewrite Hs. }
    rewrite (Hrun data Heq), technical_rest_state. apply (Hrun st Heq2).
  - unfold calculate_smart_money. apply smart_money_frame_twice.
    intros s. apply smart_money_rest_state.
Qed.

(** * The colours of the volume bars *)

Lemma mapM_Ok_Forall2 {A B} (f : A → result B) (l : list A) (ys : list B) :
  mapM f l = Ok ys → Forall2 (λ x y, f x = Ok y) l ys.
Proof.
  revert ys. induction l as [|x l IH]; intros ys H; simpl in H.
  - injection H as <-. constructor.
  - apply rbind_Ok_inv in H as (y & Hy & H).
    apply rbind_Ok_inv in H as (k & Hk & H).
    injection H as <-. constructor; auto.
Qed.

Lemma length_iterrows (df : DataFrame) : length (iterrows df) = nrows df.
Proof. unfold iterrows. by rewrite length_fmap, length_seq. Qed.

Lemma iterrows_lookup (df : DataFrame) (i : nat) :
  (i < nrows df)%nat → iterrows df !! i = Some (row_at df i).
Proof.
  intros Hi. unfold iterrows. rewrite list_lookup_fmap, lookup_seq_lt by done.
  reflexivity.
Qed.

Lemma iloc_neg_row_at (df : DataFrame) (k : nat) (r : Row) :
  iloc_neg df k = Ok r → r = row_at df (nrows df - k).
Proof.
  unfold iloc_neg, row_at. destruct (nrows df <? k)%nat; [discriminate |].
  by intros [= <-].
Qed.

(** The colour of a bar whose two prices are floats. *)
Lemma bar_color_floats (row : Row) (o c : pyfloat) :
  row !! "Open" = Some (F o) → row !! "Close" = Some (F c) →
  bar_color row
  = Ok (if PyFloat.geb (PyFloat.sub o c) (Fin 0) then "green" else "red").
Proof.
  intros Ho Hc. unfold bar_color, row_get. rewrite Ho, Hc. reflexivity.
Qed.

Lemma bar_color_Ok_inv (row : Row) (colour : string) :
  bar_color row = Ok colour →
  ∃ o c, row !! "Open" = Some (F o) ∧ row !! "Close" = Some (F c).
Proof.
  unfold bar_color, row_get. intros H.
  destruct (row !! "Open") as [[o|]|], (row !! "Close") as [[c|]|];
    simpl in H; try discriminate.
  eauto.
Qed.

Lemma falling_finite (o c : Q) :
  PyFloat.geb (PyFloat.sub (Fin o) (Fin c)) (Fin 0) = Qle_bool c o.
Proof.
  change (Qle_bool 0 (o - c) = Qle_bool c o).
  apply eq_true_iff_eq. rewrite !Qle_bool_iff. split; intros H; lra.
Qed.

Lemma rising_is_not_falling (o c : pyfloat) :
  PyFloat.gtb c o = true → PyFloat.geb (PyFloat.sub o c) (Fin 0) = false.
Proof.
  unfold PyFloat.gtb, PyFloat.geb.
  destruct o as [o| | |], c as [c| | |]; try done.
  change (Qlt_bool o c = true → Qle_bool 0 (o - c) = false).
  rewrite Qlt_bool_iff. intros H.
  apply not_true_is_false. rewrite Qle_bool_iff. lra.
Qed.

Lemma falling_is_falling (o c : pyfloat) :
  PyFloat.ltb c o = true → PyFloat.geb (PyFloat.sub o c) (Fin 0) = true.
Proof.
  unfold PyFloat.geb.
  destruct o as [o| | |], c as [c| | |]; try done.
  change (Qlt_bool c o = true → Qle_bool 0 (o - c) = true).
  rewrite Qlt_bool_iff. intros H.
  rewrite Qle_bool_iff. lra.
Qed.

(** X12. The volume bars get one colour per row of the frame, in the order
    of the rows, and this only when every row has a float under Open and
    Close. A bar is green when Open - Close >= 0 on floats and red
    otherwise: for finite prices it is green exactly when the close is not
    above the open, and a NaN price makes it red. *)
Theorem volume_bar_colours (data : DataFrame) (cs : list string) :
  colors data = Ok cs →
  length cs = nrows data
  ∧ ∀ i, (i < nrows data)%nat →
      ∃ open close o c,
        cols data !! "Open" = Some open ∧ cols data !! "Close" = Some close
        ∧ cell_at open i = F o ∧ cell_at close i = F c
        ∧ cs !! i = Some (if PyFloat.geb (PyFloat.sub o c) (Fin 0)
                          then "green" else "red")
        ∧ (∀ p q, o = Fin p → c = Fin q →
             cs !! i = Some (if Qle_bool q p then "green" else "red"))
        ∧ (o = NaN ∨ c = NaN → cs !! i = Some "red").
Proof.
  intros H. apply mapM_Ok_Forall2 in H.
  split; [by rewrite <- (Forall2_length _ _ _ H), length_iterrows |].
  intros i Hi.
  destruct (Forall2_lookup_l _ _ _ _ _ H (iterrows_lookup data i Hi))
    as (colour & Hcs & Hcolour).
  destruct (bar_color_Ok_inv _ _ Hcolour) as (o & c & Ho & Hc).
  rewrite (bar_color_floats _ o c Ho Hc) in Hcolour. injection Hcolour as <-.
  unfold row_at in Ho, Hc. rewrite lookup_fmap in Ho, Hc.
  destruct (cols data !! "Open") as [open|]; [| discriminate].
  destruct (cols data !! "Close") as [close|]; [| discriminate].
  injection Ho as Ho. injection Hc as Hc.
  exists open, close, o, c. repeat split; try done.
  - intros p q -> ->. by rewrite <- falling_finite.
  - intros [-> | ->]; [done |]. rewrite Hcs. by destruct o.
Qed.

Lemma volume_bar_colours_witness :
  ∃ cs, colors Table.rally = Ok cs ∧ length cs = nrows Table.rally
        ∧ cs !! 2%nat = Some "red".
Proof.
  eexists. split; [vm_compute; reflexivity |].
  match goal with
  | |- length ?cs = _ ∧ _ =>
      destruct (volume_bar_colours Table.rally cs ltac:(vm_compute; reflexivity))
        as (Hlen & Hbars)
  end.
  split; [exact Hlen |].
  destruct (Hbars 2%nat ltac:(vm_compute; lia))
    as (open & close & o & c & Ho & Hc & Hoi & Hci & _ & Hfin & _).
  injection Ho as <-. injection Hc as <-.
  exact (Hfin 12%Q 13%Q (f_equal (λ x, match x with F y => y | PyNone => NaN end)
                           (eq_sym Hoi))
              (f_equal (λ x, match x with F y => y | PyNone => NaN end) (eq_sym Hci))).
Defined.

Lemma and_then_true (a b : result bool) :
  and_then a b = Ok true → b = Ok true.
Proof.
  unfold and_then. intros H. apply rbind_Ok_inv in H as ([] & _ & H); [done |].
  discriminate.
Qed.

Lemma cmp_labels_true (op : pyfloat → pyfloat → bool) (r : Row) (a b : string) :
  cmp_labels (cell_cmp op) r a b = Ok true →
  ∃ x y, r !! a = Some (F x) ∧ r !! b = Some (F y) ∧ op x y = true.
Proof.
  unfold cmp_labels, row_get. intros H.
  destruct (r !! a) as [[x|]|], (r !! b) as [[y|]|]; simpl in H; try discriminate.
  injection H as H. eauto.
Qed.

(** The volume signals tell how the latest bar closed. *)
Lemma smart_money_rules_volume (latest : Row) (score : Z) (signals : list string) :
  smart_money_rules latest = Ok (score, signals) →
  (Msg.volume_up ∈ signals →
     ∃ c o, latest !! "Close" = Some (F c) ∧ latest !! "Open" = Some (F o)
            ∧ PyFloat.gtb c o = true)
  ∧ (Msg.volume_down ∈ signals →
       ∃ c o, latest !! "Close" = Some (F c) ∧ latest !! "Open" = Some (F o)
              ∧ PyFloat.ltb c o = true).
Proof.
  unfold smart_money_rules. intros H.
  apply rbind_Ok_inv in H as (up & Hup & H).
  apply rbind_Ok_inv in H as (acc & Hacc & H).
  assert (Hfacts :
    (Msg.volume_up ∈ acc.2 →
       ∃ c o, latest !! "Close" = Some (F c) ∧ latest !! "Open" = Some (F o)
              ∧ PyFloat.gtb c o = true)
    ∧ (Msg.volume_down ∈ acc.2 →
         ∃ c o, latest !! "Close" = Some (F c) ∧ latest !! "Open" = Some (F o)
                ∧ PyFloat.ltb c o = true)
    ∧ (acc.2 = [] ∨ acc.2 = [Msg.volume_up] ∨ acc.2 = [Msg.volume_down])).
  { destruct up.
    - injection Hacc as <-. apply and_then_true, cmp_labels_true in Hup.
      split; [by intros _ |]. split; [| simpl; auto].
      simpl. intros Hin. apply list_elem_of_singleton in Hin. discriminate.
    - clear Hup. apply rbind_Ok_inv in Hacc as (down & Hdown & Hacc).
      injection Hacc as <-. destruct down.
      + apply and_then_true, cmp_labels_true in Hdown.
        split; [| split; [by intros _ | simpl; auto]].
        simpl. intros Hin. apply list_elem_of_singleton in Hin. discriminate.
      + simpl. split; [| split; [| auto]]; intros Hin; by apply elem_of_nil in Hin. }
  clear Hup Hacc. destruct Hfacts as (Hu & Hd & Hshape).
  assert (Hrest : ∀ msg, msg ∈ signals → msg ≠ Msg.obv_above → msg ≠ Msg.mfi_hot →
                         msg ≠ Msg.mfi_cold → msg ∈ acc.2).
  { rules_inv.
    all: subst signals.
    all: repeat match goal with
                | |- context [if ?b then _ else _] => is_var b; destruct b
                end.
    all: cbn [fire fst snd].
    all: intros msg Hin N1 N2 N3.
    all: rewrite ?elem_of_app, ?list_elem_of_singleton in Hin; tauto. }
  split; intros Hin; [apply Hu | apply Hd]; by apply Hrest.
Qed.

(** X13. On the frame the smart-money scorer left, the colour of the last
    volume bar agrees with the volume signal of the scorer: the bar is red
    when the up-volume signal was emitted and green when the down-volume
    signal was. *)
Theorem volume_signal_and_latest_bar
    (lib : Indicators) (data data' : DataFrame) (score : Z) (signals cs : list string) :
  calculate_smart_money lib data = (Ok (score, signals), data') →
  colors data' = Ok cs →
  (Msg.volume_up ∈ signals → last cs = Some "red")
  ∧ (Msg.volume_down ∈ signals → last cs = Some "green").
Proof.
  intros H Hcs.
  destruct (calculate_smart_money_rules _ _ _ _ _ H) as (latest & Hl & Hr).
  pose proof (iloc_neg_rows _ _ _ Hl) as Hn.
  apply iloc_neg_row_at in Hl.
  apply mapM_Ok_Forall2 in Hcs.
  pose proof (Forall2_length _ _ _ Hcs) as Hlen. rewrite length_iterrows in Hlen.
  assert (Hi : (nrows data' - 1 < nrows data')%nat) by lia.
  destruct (Forall2_lookup_l _ _ _ _ _ Hcs (iterrows_lookup data' _ Hi))
    as (colour & Hlast & Hcolour).
  rewrite <- Hl in Hcolour.
  rewrite last_lookup, <- Hlen, Nat.sub_1_r in *. rewrite Hlast.
  destruct (smart_money_rules_volume _ _ _ Hr) as [Hu Hd].
  split; intros Hin.
  - destruct (Hu Hin) as (c & o & Hc & Ho & Hgt).
    rewrite (bar_color_floats _ o c Ho Hc), (rising_is_not_falling _ _ Hgt) in Hcolour.
    congruence.
  - destruct (Hd Hin) as (c & o & Hc & Ho & Hlt).
    rewrite (bar_color_floats _ o c Ho Hc), (falling_is_falling _ _ Hlt) in Hcolour.
    congruence.
Qed.

Lemma volume_signal_and_latest_bar_witness :
  ∃ signals cs,
    calculate_smart_money Table.table_lib Table.rally
    = (Ok (65, signals), Table.rally_smart)
    ∧ colors Table.rally_smart = Ok cs
    ∧ Msg.volume_up ∈ signals
    ∧ last cs = Some "red".
Proof.
  do 2 eexists. split; [vm_compute; reflexivity |].
  split; [vm_compute; reflexivity |].
  split; [repeat constructor |].
  match goal with
  | |- last ?cs = _ =>
      apply (proj1 (volume_signal_and_latest_bar Table.table_lib Table.rally
                      Table.rally_smart 65 _ cs
                      ltac:(vm_compute; reflexivity) ltac:(vm_compute; reflexivity)))
  end.
  repeat constructor.
Defined.

(** * The chart of a scored frame *)

Lemma technical_frame_columns (lib : Indicators) (ws wl : Z) (data df stored : DataFrame)
    (c : string) :
  technical_frame lib ws wl data = (Ok df, stored) →
  c ∈ technical_labels → has_column df c = true.
Proof.
  intros H Hc.
  destruct (cols data !! "Close") as [close|] eqn:Hclose;
    [| rewrite (technical_frame_missing_close lib ws wl data Hclose) in H; discriminate].
  destruct (technical_frame_eq lib ws wl data close Hclose) as (c1 & _ & Heq).
  simpl in Heq. rewrite Heq in H. injection H as <- <-.
  rewrite !has_column_concat. unfold technical_stored. rewrite !has_column_setcol.
  unfold technical_labels in Hc.
  repeat (apply elem_of_cons in Hc as [->|Hc];
          [rewrite (bool_decide_eq_true_2 _ eq_refl), ?orb_true_r; reflexivity |]).
  by apply elem_of_nil in Hc.
Qed.

Lemma smart_money_stored_columns (lib : Indicators) (data : DataFrame)
    (volume close high low rvol : Series) (c : string) :
  has_column (smart_money_stored lib data volume close high low rvol) c
  = bool_decide (c ∈ smart_money_labels) || has_column data c.
Proof.
  unfold smart_money_stored. cbv zeta. rewrite !has_column_setcol.
  destruct (has_column data c); [by rewrite !orb_true_r |]. rewrite !orb_false_r.
  apply eq_true_iff_eq. rewrite !orb_true_iff, !bool_decide_eq_true.
  unfold smart_money_labels. rewrite !elem_of_cons, elem_of_nil. intuition.
Qed.

(** The names of the traces of a chart, read off the columns of its frame. *)
Lemma chart_trace_names (data : DataFrame) (ch : Chart) :
  chart data = Ok ch →
  (traces ch).*1
  = ["K線"]
    ++ (if has_column data "SMA_Short" then ["短期均線"] else [])
    ++ (if has_column data "SMA_Long" then ["長期均線"] else [])
    ++ (if has_column data "BBU_20_2.0" then ["布林上軌"; "布林下軌"] else [])
    ++ ["成交量"]
  ∧ colors data = Ok (marker_color ch)
  ∧ (has_column data "BBU_20_2.0" = true → has_column data "BBL_20_2.0" = true).
Proof.
  unfold chart. intros H.
  apply rbind_Ok_inv in H as (open & _ & H).
  apply rbind_Ok_inv in H as (high & _ & H).
  apply rbind_Ok_inv in H as (low & _ & H).
  apply rbind_Ok_inv in H as (close & _ & H).
  apply rbind_Ok_inv in H as (fig1 & H1 & H).
  apply rbind_Ok_inv in H as (fig2 & H2 & H).
  apply rbind_Ok_inv in H as (fig3 & H3 & H).
  apply rbind_Ok_inv in H as (cs & Hcs & H).
  apply rbind_Ok_inv in H as (volume & _ & H).
  injection H as <-. simpl.
  assert (E1 : fig1.*1 = ["K線"] ++ (if has_column data "SMA_Short"
                                     then ["短期均線"] else [])).
  { destruct (has_column data "SMA_Short").
    - apply rbind_Ok_inv in H1 as (sma & _ & H1). by injection H1 as <-.
    - by injection H1 as <-. }
  assert (E2 : fig2.*1 = fig1.*1 ++ (if has_column data "SMA_Long"
                                     then ["長期均線"] else [])).
  { destruct (has_column data "SMA_Long").
    - apply rbind_Ok_inv in H2 as (sma & _ & H2). injection H2 as <-.
      by rewrite fmap_app.
    - injection H2 as <-. by rewrite app_nil_r. }
  assert (E3 : fig3.*1 = fig2.*1 ++ (if has_column data "BBU_20_2.0"
                                     then ["布林上軌"; "布林下軌"] else [])
               ∧ (has_column data "BBU_20_2.0" = true →
                  has_column data "BBL_20_2.0" = true)).
  { destruct (has_column data "BBU_20_2.0").
    - apply rbind_Ok_inv in H3 as (upper & _ & H3).
      apply rbind_Ok_inv in H3 as (lower & Hlower & H3). injection H3 as <-.
      split; [by rewrite !fmap_app, <- app_assoc |].
      intros _. apply has_column_true. apply getcol_Ok in Hlower. eauto.
    - injection H3 as <-. split; [by rewrite app_nil_r | discriminate]. }
  destruct E3 as [E3 Hband].
  split; [| split; [exact Hcs | exact Hband]].
  rewrite fmap_app, E3, E2, E1. simpl. by rewrite <- !app_assoc.
Qed.

(** X14. The chart of a frame scored as the program does, by the technical
    scorer and then by the smart-money scorer on the frame returned: the
    candlesticks come first, both moving averages are always drawn, the two
    Bollinger traces exactly when the upper band is a column, and the
    volume comes last, with one colour per row. A chart that was built for
    a frame with the upper band had the lower band too: line 247 reads it
    unguarded. *)
Theorem chart_after_scoring
    (lib : Indicators) (ws wl : Z) (data df stored df' : DataFrame)
    (score sm_score : Z) (reasons sm_signals : list string) (ch : Chart) :
  calculate_technical_strategy lib ws wl data = (Ok (score, reasons, df), stored) →
  calculate_smart_money lib df = (Ok (sm_score, sm_signals), df') →
  chart df' = Ok ch →
  (traces ch).*1
  = ["K線"; "短期均線"; "長期均線"]
    ++ (if has_column df "BBU_20_2.0" then ["布林上軌"; "布林下軌"] else [])
    ++ ["成交量"]
  ∧ length (marker_color ch) = nrows df
  ∧ (has_column df "BBU_20_2.0" = true → has_column df "BBL_20_2.0" = true).
Proof.
  intros Ht Hs Hch.
  apply calculate_technical_strategy_Ok_inv in Ht.
  apply calculate_smart_money_Ok_inv in Hs.
  destruct (smart_money_frame_ok _ _ _ Hs)
    as (volume & close & high & low & rvol & _ & _ & _ & _ & _ & ->).
  destruct (chart_trace_names _ _ Hch) as (Hnames & Hcs & Hband).
  rewrite (smart_money_stored_columns _ _ _ _ _ _ _ "SMA_Short") in Hnames.
  rewrite (smart_money_stored_columns _ _ _ _ _ _ _ "SMA_Long") in Hnames.
  rewrite (smart_money_stored_columns _ _ _ _ _ _ _ "BBU_20_2.0") in Hnames, Hband.
  rewrite (smart_money_stored_columns _ _ _ _ _ _ _ "BBL_20_2.0") in Hband.
  rewrite (technical_frame_columns _ _ _ _ _ _ "SMA_Short" Ht) in Hnames
    by (unfold technical_labels; repeat constructor).
  rewrite (technical_frame_columns _ _ _ _ _ _ "SMA_Long" Ht) in Hnames
    by (unfold technical_labels; repeat constructor).
  rewrite !orb_true_r in Hnames.
  change (bool_decide ("BBU_20_2.0" ∈ smart_money_labels)) with false in Hnames, Hband.
  change (bool_decide ("BBL_20_2.0" ∈ smart_money_labels)) with false in Hband.
  simpl in Hnames, Hband.
  split; [exact Hnames |]. split; [| exact Hband].
  apply mapM_Ok_Forall2, Forall2_length in Hcs. rewrite length_iterrows in Hcs.
  by rewrite <- Hcs.
Qed.

Lemma chart_after_scoring_witness :
  ∃ sm_score sm_signals df' ch,
    calculate_smart_money Table.table_lib Table.rally_df
    = (Ok (sm_score, sm_signals), df')
    ∧ chart df' = Ok ch
    ∧ (traces ch).*1
      = ["K線"; "短期均線"; "長期均線"; "布林上軌"; "布林下軌"; "成交量"]
    ∧ length (marker_color ch) = 3%nat.
Proof.
  do 4 eexists. split; [vm_compute; reflexivity |].
  split; [vm_compute; reflexivity |].
  match goal with
  | |- (traces ?ch).*1 = _ ∧ _ =>
      destruct (chart_after_scoring Table.table_lib 20 50 Table.rally Table.rally_df
                  Table.rally_stored _ 100 _
                  [Msg.trend_up; Msg.rsi_oversold; Msg.macd_golden; Msg.bollinger_low]
                  _ ch
                  ltac:(vm_compute; reflexivity) ltac:(vm_compute; reflexivity)
                  ltac:(vm_compute; reflexivity)) as (Hn & Hl & _)
  end.
  split; [rewrite Hn | rewrite Hl]; vm_compute; reflexivity.
Defined.

(** * The price and its levels *)

Lemma last_in_window {A} (n : nat) (xs : list A) (x : A) :
  (0 < n)%nat → last xs = Some x → x ∈ Spec.window n xs.
Proof.
  intros Hn Hlast. rewrite last_lookup in Hlast.
  assert (Hlen : (0 < length xs)%nat).
  { destruct xs; [discriminate | simpl; lia]. }
  unfold Spec.window.
  apply (list_elem_of_lookup_2 _ (pred (length xs) - (length xs - n))).
  rewrite lookup_drop. rewrite <- Hlast. f_equal. lia.
Qed.

Lemma series_iloc_neg_last (xs : list Q) (x : Q) :
  last xs = Some x → series_iloc_neg (floats (Fin <$> xs)) 1 = Ok (F (Fin x)).
Proof.
  intros Hlast. rewrite last_lookup in Hlast.
  assert (Hlen : (0 < length xs)%nat).
  { destruct xs; [discriminate | simpl; lia]. }
  unfold series_iloc_neg, floats. rewrite !length_fmap.
  destruct (length xs <? 1)%nat eqn:E; [apply Nat.ltb_lt in E; lia |].
  unfold cell_at. rewrite !list_lookup_fmap.
  replace (length xs - 1)%nat with (pred (length xs)) by lia.
  by rewrite Hlast.
Qed.

(** X15. The current price lies between the two levels: on a frame with
    finite highs, lows and closes whose last bar has low <= close <= high,
    the support of lines 216-217 is at most the last close, which is at
    most the resistance; the window of the levels includes the last bar. *)
Theorem price_within_levels (data : DataFrame) (highs lows closes : list Q) (h l c : Q) :
  cols data !! "High" = Some (floats (Fin <$> highs)) →
  cols data !! "Low" = Some (floats (Fin <$> lows)) →
  cols data !! "Close" = Some (floats (Fin <$> closes)) →
  last highs = Some h → last lows = Some l → last closes = Some c →
  (l <= c)%Q → (c <= h)%Q →
  ∃ support resistance,
    (close ← getcol data "Close"; series_iloc_neg close 1) = Ok (F (Fin c))
    ∧ recent_low data = Ok (Fin support)
    ∧ recent_high data = Ok (Fin resistance)
    ∧ (support <= c)%Q ∧ (c <= resistance)%Q.
Proof.
  intros Hh Hl Hc Lh Ll Lc Hlc Hch.
  assert (Hhne : Spec.window 20 highs ≠ []).
  { apply window_nonempty; [lia |]. by destruct highs. }
  assert (Hlne : Spec.window 20 lows ≠ []).
  { apply window_nonempty; [lia |]. by destruct lows. }
  destruct (series_max_finite _ Hhne) as (r & Hr & _ & Hrmax).
  destruct (series_min_finite _ Hlne) as (s & Hs & _ & Hsmin).
  exists s, r.
  split.
  { unfold getcol. rewrite Hc. simpl. by apply series_iloc_neg_last. }
  split.
  { unfold recent_low, getcol. rewrite Hl. simpl. by rewrite tail_finite, Hs. }
  split.
  { unfold recent_high, getcol. rewrite Hh. simpl. by rewrite tail_finite, Hr. }
  pose proof (Hrmax h (last_in_window 20 highs h ltac:(lia) Lh)).
  pose proof (Hsmin l (last_in_window 20 lows l ltac:(lia) Ll)).
  split; lra.
Qed.

Lemma price_within_levels_witness :
  ∃ support resistance,
    recent_low Table.rally = Ok (Fin support)
    ∧ recent_high Table.rally = Ok (Fin resistance)
    ∧ (support <= 13)%Q ∧ (13 <= resistance)%Q.
Proof.
  destruct (price_within_levels Table.rally [11; 12; 14]%Q [9; 10; 11]%Q [10; 11; 13]%Q
              14%Q 11%Q 13%Q
              ltac:(vm_compute; reflexivity) ltac:(vm_compute; reflexivity)
              ltac:(vm_compute; reflexivity) ltac:(reflexivity) ltac:(reflexivity)
              ltac:(reflexivity) ltac:(vm_compute; discriminate)
              ltac:(vm_compute; discriminate))
    as (support & resistance & _ & Hlow & Hhigh & Hs & Hr).
  exists support, resistance. auto.
Defined.

(** * Better scores, better advice *)

Lemma total_score_monotone (t t' s s' : Z) (q q' : Q) :
  t ≤ t' → s ≤ s' → (q <= q')%Q →
  (total_score t s q <= total_score t' s' q')%Q.
Proof.
  intros Ht Hs Hq. unfold total_score.
  rewrite Zle_Qle in Ht, Hs. lra.
Qed.

(** X16. Better scores never give worse advice: the composite grows with
    each of its three scores, by 0.5, 0.3 and 0.2 of their growth; a
    strong-buy banner stays when the scores rise, an avoid banner stays
    when they fall, and an entry that was suggested is still suggested, at
    the same price. *)
Theorem advice_is_monotone (t t' s s' : Z) (q q' : Q) (price : pyfloat) :
  t ≤ t' → s ≤ s' → (q <= q')%Q →
  let total := total_score t s q in
  let total' := total_score t' s' q' in
  (total <= total')%Q
  ∧ (recommendation total = StrongBuy → recommendation total' = StrongBuy)
  ∧ (recommendation total' = Avoid → recommendation total = Avoid)
  ∧ (is_Some (buy_zone total price) → buy_zone total' price = buy_zone total price)
  ∧ (total' - total == inject_Z (t' - t) * 0.5 + inject_Z (s' - s) * 0.3
                       + (q' - q) * 0.2)%Q.
Proof.
  intros Ht Hs Hq. cbv zeta.
  pose proof (total_score_monotone t t' s s' q q' Ht Hs Hq) as Hle.
  split; [exact Hle |].
  split; [rewrite !recommendation_strong_buy; lra |].
  split; [rewrite !recommendation_avoid; lra |].
  split.
  - intros Hsome.
    destruct (Qlt_le_dec (total_score t s q) 60) as [Hlt|Hge].
    + rewrite (buy_zone_none _ _ Hlt) in Hsome. by destruct Hsome.
    + rewrite !buy_zone_some by lra. reflexivity.
  - unfold total_score. unfold Z.sub. rewrite !inject_Z_plus, !inject_Z_opp. lra.
Qed.

Lemma advice_is_monotone_witness :
  recommendation (total_score 85 65 20) = StrongBuy
  ∧ recommendation (total_score 100 65 20) = StrongBuy.
Proof.
  split; [reflexivity |].
  apply (advice_is_monotone 85 100 65 65 20 20 NaN
           ltac:(lia) ltac:(lia) ltac:(vm_compute; discriminate)).
  reflexivity.
Defined.
